(** * The user state engine of the Discord bot ([src/bot_script.py])

    A shallow embedding of the stateful core of the bot: the per-user rate
    limiter, the user record store, the daily reward, the gacha draw, the
    profile read path, the leaderboard, the presence tracker and the
    snapshot loader, followed by the properties proved about them.

    Conventions of the embedding.
    - Python [int] is [Z]; [str] is [string] (the UTF-8 bytes of the text).
    - [time.time()] is a float number of seconds; it is modelled by a
      rational [Q], so float rounding is outside the model.
    - An aware [datetime] is the instant it denotes, in microseconds since
      the epoch ([Z]); a [timedelta] is a number of microseconds ([Z]).
    - Clock readings are inputs of the handlers, one argument per
      [datetime.now] / [time.time] call of the source, so nothing is assumed
      about how the clock advances between two readings.
    - [random.randint] results are inputs of the handler that draws them.
    - [user_data] is a Python dict: an association list in insertion order,
      because the leaderboard depends on the iteration order.
    - A user record is the dict [ensure_user_data] creates; it is modelled
      by a record with exactly these keys, so [d.get(k, default)] and [d[k]]
      both read the field [k]. *)

From Stdlib Require Import ZArith QArith Qround List String Ascii Bool Lia.
From Stdlib Require Import Sorting.Sorted Sorting.Permutation.
From stdpp Require Import gmap strings list pretty.

Local Open Scope Z_scope.

(** ** Python primitives *)

(** Exceptions that can leave a piece of code of the bot. *)
Inductive exn : Type :=
  | TypeError
  | ValueError
  | UnboundLocalError
  | OSError
  | PermissionError
  | JSONDecodeError.

(** The outcome of a statement block that either completes or raises. *)
Inductive py (A : Type) : Type :=
  | Returned (a : A)
  | Raised (e : exn).
Arguments Returned {A} a.
Arguments Raised {A} e.

(** [int(x)] on a float: truncation toward zero. *)
Definition int_of_float (x : Q) : Z := Z.quot (Qnum x) (Z.pos (Qden x)).

(** [a < b] on floats. *)
Definition float_ltb (a b : Q) : bool := negb (Qle_bool b a).

(** [str(n)] on an int. *)
Definition str (n : Z) : string := pretty n.

(** [needle in hay] on strings. *)
Definition str_contains (needle hay : string) : bool :=
  match String.index 0 needle hay with
  | Some _ => true
  | None => false
  end.

(** Truth value of an object that is [None] or a string. *)
Definition truthy (o : option string) : bool :=
  match o with
  | None => false
  | Some s => negb (String.eqb s EmptyString)
  end.

(** ** Time *)

Definition MICRO : Z := 1000000.

(** [timedelta(days=d)]. *)
Definition timedelta_days (d : Z) : Z := d * 86400 * MICRO.

(** [int(td.total_seconds())]: the float quotient is taken as exact. *)
Definition int_total_seconds (td : Z) : Z := Z.quot td MICRO.

(** [td.seconds]: the seconds field of the normalised timedelta. *)
Definition td_seconds (td : Z) : Z := (td / MICRO) mod 86400.

(** What [datetime.fromisoformat] does with a string: an aware datetime
    (given by its instant), a naive one (no offset in the text; subtracting
    it from an aware datetime raises [TypeError]) or [ValueError]. *)
Inductive iso_result : Type :=
  | IsoAware (t : Z)
  | IsoNaive
  | IsoValueError.

(** [now - fromisoformat(s)] for an aware [now]. *)
Definition since (fromisoformat : string -> iso_result) (now : Z) (s : string)
  : py Z :=
  match fromisoformat s with
  | IsoAware t => Returned (now - t)
  | IsoNaive => Raised TypeError
  | IsoValueError => Raised ValueError
  end.

(** ** A reference ISO-8601 codec

    [datetime.isoformat] and [datetime.fromisoformat] belong to the Python
    library. The engine below is parametric in them; this module gives one
    concrete pair, for UTC instants, on which the engine can be run. *)
Module IsoRef.

(** Proleptic Gregorian date of a day number counted from 1970-01-01. *)
Definition civil_from_days (z : Z) : Z * Z * Z :=
  let z := z + 719468 in
  let era := z / 146097 in
  let doe := z - era * 146097 in
  let yoe := (doe - doe / 1460 + doe / 36524 - doe / 146096) / 365 in
  let doy := doe - (365 * yoe + yoe / 4 - yoe / 100) in
  let mp := (5 * doy + 2) / 153 in
  let d := doy - (153 * mp + 2) / 5 + 1 in
  let m := if mp <? 10 then mp + 3 else mp - 9 in
  let y := yoe + era * 400 in
  (if m <=? 2 then y + 1 else y, m, d).

Definition days_from_civil (y m d : Z) : Z :=
  let y := if m <=? 2 then y - 1 else y in
  let era := y / 400 in
  let yoe := y - era * 400 in
  let mp := if 2 <? m then m - 3 else m + 9 in
  let doy := (153 * mp + 2) / 5 + d - 1 in
  let doe := yoe * 365 + yoe / 4 - yoe / 100 + doy in
  era * 146097 + doe - 719468.

Definition is_leap (y : Z) : bool :=
  ((y mod 4 =? 0) && negb (y mod 100 =? 0)) || (y mod 400 =? 0).

Definition days_in_month (y m : Z) : Z :=
  if m =? 2 then (if is_leap y then 29 else 28)
  else if (m =? 4) || (m =? 6) || (m =? 9) || (m =? 11) then 30
  else 31.

Definition digit (n : Z) : ascii := ascii_of_nat (48 + Z.to_nat n).

(** Decimal rendering on exactly [width] digits. *)
Fixpoint pad (width : nat) (n : Z) : string :=
  match width with
  | O => EmptyString
  | S w => pad w (n / 10) +:+ String (digit (n mod 10)) EmptyString
  end.

Definition isoformat (t : Z) : string :=
  let day := 86400 * MICRO in
  let '(y, m, d) := civil_from_days (t / day) in
  let secs := (t mod day) / MICRO in
  let us := (t mod day) mod MICRO in
  pad 4 y +:+ "-" +:+ pad 2 m +:+ "-" +:+ pad 2 d +:+ "T"
  +:+ pad 2 (secs / 3600) +:+ ":" +:+ pad 2 (secs mod 3600 / 60)
  +:+ ":" +:+ pad 2 (secs mod 60)
  +:+ (if us =? 0 then EmptyString else "." +:+ pad 6 us)
  +:+ "+00:00".

Definition digit_val (c : ascii) : option Z :=
  let n := Z.of_nat (nat_of_ascii c) in
  if (48 <=? n) && (n <=? 57) then Some (n - 48) else None.

(** Reads exactly [width] decimal digits. *)
Fixpoint read_num (width : nat) (acc : Z) (s : string) : option (Z * string) :=
  match width, s with
  | O, _ => Some (acc, s)
  | S w, String c r => v ← digit_val c; read_num w (acc * 10 + v) r
  | S _, EmptyString => None
  end.

Definition expect (c : ascii) (s : string) : option string :=
  match s with
  | String c' r => if Ascii.eqb c c' then Some r else None
  | EmptyString => None
  end.

Definition guard_range (lo v hi : Z) : option unit :=
  if (lo <=? v) && (v <=? hi) then Some tt else None.

(** [YYYY-MM-DD], the date part; gives the day number and the rest. *)
Definition read_date (s : string) : option (Z * string) :=
  '(y, s) ← read_num 4 0 s; s ← expect "-" s;
  '(m, s) ← read_num 2 0 s; s ← expect "-" s;
  '(d, s) ← read_num 2 0 s;
  _ ← guard_range 1 y 9999; _ ← guard_range 1 m 12;
  _ ← guard_range 1 d (days_in_month y m);
  Some (days_from_civil y m d, s).

(** [HH:MM:SS] with an optional [.ffffff]; gives microseconds of the day. *)
Definition read_time (s : string) : option (Z * string) :=
  '(h, s) ← read_num 2 0 s; s ← expect ":" s;
  '(mi, s) ← read_num 2 0 s; s ← expect ":" s;
  '(sec, s) ← read_num 2 0 s;
  _ ← guard_range 0 h 23; _ ← guard_range 0 mi 59; _ ← guard_range 0 sec 59;
  let whole := ((h * 60 + mi) * 60 + sec) * MICRO in
  match s with
  | String "." r => '(us, s) ← read_num 6 0 r; Some (whole + us, s)
  | _ => Some (whole, s)
  end.

(** [+HH:MM] or [-HH:MM] at the end of the text; gives the offset. *)
Definition read_offset (s : string) : option Z :=
  match s with
  | String sign r =>
      '(h, r) ← read_num 2 0 r; r ← expect ":" r;
      '(mi, r) ← read_num 2 0 r;
      _ ← guard_range 0 h 23; _ ← guard_range 0 mi 59;
      let off := (h * 60 + mi) * 60 * MICRO in
      match r with
      | EmptyString =>
          if Ascii.eqb sign "+" then Some off
          else if Ascii.eqb sign "-" then Some (- off)
          else None
      | _ => None
      end
  | EmptyString => None
  end.

Definition fromisoformat (s : string) : iso_result :=
  match read_date s with
  | None => IsoValueError
  | Some (_, EmptyString) => IsoNaive
  | Some (days, String _ s) =>
      match read_time s with
      | None => IsoValueError
      | Some (_, EmptyString) => IsoNaive
      | Some (us, rest) =>
          match read_offset rest with
          | Some off => IsoAware (days * (86400 * MICRO) + us - off)
          | None => IsoValueError
          end
      end
  end.

End IsoRef.

(** ** The user record and the store *)

(** The dict built by [ensure_user_data], key by key. *)
Record User : Type := mkUser {
  money : Z;
  level : Z;
  exp : Z;
  inventory : list string;
  last_daily : option string;
  item : string;
  total_online : Z;
  last_online : option string;
  join_date : string;
  command_usage : Z
}.

(** [user[k] = v], one definition per key that the bot assigns. *)
Definition set_money (v : Z) (u : User) : User :=
  mkUser v (level u) (exp u) (inventory u) (last_daily u) (item u)
         (total_online u) (last_online u) (join_date u) (command_usage u).
Definition set_level (v : Z) (u : User) : User :=
  mkUser (money u) v (exp u) (inventory u) (last_daily u) (item u)
         (total_online u) (last_online u) (join_date u) (command_usage u).
Definition set_exp (v : Z) (u : User) : User :=
  mkUser (money u) (level u) v (inventory u) (last_daily u) (item u)
         (total_online u) (last_online u) (join_date u) (command_usage u).
Definition set_inventory (v : list string) (u : User) : User :=
  mkUser (money u) (level u) (exp u) v (last_daily u) (item u)
         (total_online u) (last_online u) (join_date u) (command_usage u).
Definition set_last_daily (v : option string) (u : User) : User :=
  mkUser (money u) (level u) (exp u) (inventory u) v (item u)
         (total_online u) (last_online u) (join_date u) (command_usage u).
Definition set_total_online (v : Z) (u : User) : User :=
  mkUser (money u) (level u) (exp u) (inventory u) (last_daily u) (item u)
         v (last_online u) (join_date u) (command_usage u).
Definition set_last_online (v : option string) (u : User) : User :=
  mkUser (money u) (level u) (exp u) (inventory u) (last_daily u) (item u)
         (total_online u) v (join_date u) (command_usage u).
Definition set_command_usage (v : Z) (u : User) : User :=
  mkUser (money u) (level u) (exp u) (inventory u) (last_daily u) (item u)
         (total_online u) (last_online u) (join_date u) v.

(** Projections of a record that was just assigned to. *)
Ltac user_simpl :=
  cbn [money level exp inventory last_daily item total_online last_online
       join_date command_usage set_money set_level set_exp set_inventory
       set_last_daily set_total_online set_last_online set_command_usage
       fst snd] in *.

(** [user_data]: user id (as text) to record, in insertion order. *)
Definition Store : Type := list (string * User).

(** [user_data.get(uid)]. *)
Fixpoint ud_lookup (uid : string) (ud : Store) : option User :=
  match ud with
  | [] => None
  | (k, u) :: rest => if String.eqb k uid then Some u else ud_lookup uid rest
  end.

(** Writing through the reference [user_data[uid]]: the entry keeps its
    place in the iteration order. *)
Fixpoint ud_store (uid : string) (u : User) (ud : Store) : Store :=
  match ud with
  | [] => []
  | (k, v) :: rest =>
      if String.eqb k uid then (k, u) :: rest
      else (k, v) :: ud_store uid u rest
  end.

(** The two module-level tables of the bot that the engine uses. *)
Record Bot : Type := mkBot {
  user_last_command : gmap Z Q;
  user_data : Store
}.

Definition with_last_command (m : gmap Z Q) (b : Bot) : Bot :=
  mkBot m (user_data b).
Definition with_user_data (ud : Store) (b : Bot) : Bot :=
  mkBot (user_last_command b) ud.

(** ** Rate limiting *)

(** [d[k]] on a [defaultdict(float)]: a missing key is created with [0.0]
    by the read itself. *)
Definition dd_getitem (d : gmap Z Q) (k : Z) : Q * gmap Z Q :=
  match d !! k with
  | Some v => (v, d)
  | None => (0%Q, <[k := 0%Q]> d)
  end.

(** [is_rate_limited(user_id, cooldown)] at clock reading [now]. *)
Definition is_rate_limited (now : Q) (user_id : Z) (cooldown : Q)
    (ulc : gmap Z Q) : bool * gmap Z Q :=
  let '(last, ulc) := dd_getitem ulc user_id in
  if float_ltb (now - last)%Q cooldown then (true, ulc)
  else (false, <[user_id := now]> ulc).

(** The default of the [cooldown] argument. *)
Definition default_cooldown : Q := 3%Q.

(** The time of the last admitted call that the limiter holds for [k]. *)
Definition stored_timestamp (ulc : gmap Z Q) (k : Z) : Q :=
  default 0%Q (ulc !! k).

(** ** What a handler sends back *)

Inductive Reply : Type :=
  | PleaseWait
  | AlreadyClaimed (hours minutes : Z)
  | DailyEmbed (total_reward : Z) (level_up_bonus : option Z)
               (money_now level_now : Z)
  | NotEnoughMoney (cost have : Z)
  | GachaEmbed (selected_item : string) (bonus_money money_left : Z)
               (n_items : nat)
  | ProfileEmbed (status : string) (money_shown level_shown : Z)
                 (hours minutes : Z) (usage : Z)
                 (items : list string) (more : nat)
  | LeaderboardEmbed (fields : list (nat * string * Z)).

(** ** The gacha table and Python's [sorted] *)

Definition jackpot_item : string := "💳 บัตรเงิน".

Definition gacha_items : list (string * Z) :=
  [ ("🍞 ขนมปัง", 30);
    ("🧪 พลังฟื้นฟู", 25);
    ("💎 เพชรเล็ก", 20);
    ("🎁 กล่องลึกลับ", 15);
    ("⚡ กระสุนไม่จำกัด", 8);
    (jackpot_item, 2) ].

(** [sum(weight for _, weight in items)]. *)
Definition total_weight (items : list (string * Z)) : Z :=
  foldr (fun e acc => snd e + acc) 0 items.

(** The selection loop: [None] when the loop ends without binding
    [selected_item]. *)
Fixpoint select_item (items : list (string * Z)) (r current_weight : Z)
  : option string :=
  match items with
  | [] => None
  | (it, weight) :: rest =>
      let current_weight := current_weight + weight in
      if r <=? current_weight then Some it
      else select_item rest r current_weight
  end.

(** [sorted(l, key=key, reverse=True)]: Python's sort is stable, also with
    [reverse=True]; insertion from the right gives that order. *)
Fixpoint insert_desc {A : Type} (key : A -> Z) (x : A) (l : list A) : list A :=
  match l with
  | [] => [x]
  | y :: rest =>
      if key x <? key y then y :: insert_desc key x rest else x :: l
  end.

Definition sorted_reverse {A : Type} (key : A -> Z) (l : list A) : list A :=
  foldr (insert_desc key) [] l.

(** [desc key x y]: [x] may stand before [y] in an order descending by
    [key]. *)
Definition desc {A : Type} (key : A -> Z) (x y : A) : Prop := key y <= key x.

(** ** The snapshot file and the disk *)

(** What [json.load] gives for the bytes of a file: a dict of records,
    another value (with or without a length), or a decoding error. *)
Inductive json_result : Type :=
  | JsonDict (d : Store)
  | JsonSized
  | JsonUnsized
  | JsonError.

(** What [load_data] hands to its caller. *)
Inductive Loaded : Type :=
  | LoadedDict (d : Store)
  | LoadedOther.

(** The files under [data/], and what the operating system refuses
    there. [stat_fails]: the directory may not be searched, so that no
    path under it can be looked up; [stat], [open] and [rename] then all
    fail with [EACCES]. [open_denied] and [rename_denied]: a file that can
    be looked up may not be opened, or not be renamed. *)
Record Disk : Type := mkDisk {
  files : gmap string (list Byte.byte);
  stat_fails : bool;
  open_denied : bool;
  rename_denied : bool
}.

(** [open] on a path under [data/] raises. *)
Definition open_fails (d : Disk) : bool := stat_fails d || open_denied d.

(** [rename] between two paths under [data/] raises. *)
Definition rename_fails (d : Disk) : bool := stat_fails d || rename_denied d.

(** The same disk with other files on it. *)
Definition with_files (f : gmap string (list Byte.byte)) (d : Disk) : Disk :=
  mkDisk f (stat_fails d) (open_denied d) (rename_denied d).

Definition DATA_FILE : string := "data/user_data.json".

(** [Path.exists]: a path that is not there gives [False]; a path that
    may not be looked up raises [PermissionError], which [pathlib] lets
    through. *)
Definition path_exists (p : string) (d : Disk) : py bool :=
  if stat_fails d then Raised PermissionError
  else Returned (bool_decide (is_Some (files d !! p))).

(** [Path.rename]: the file leaves [src] and its bytes are at [dst],
    in place of what was there. *)
Definition path_rename (src dst : string) (d : Disk) : py Disk :=
  if rename_fails d then Raised OSError
  else match files d !! src with
       | Some bytes =>
           Returned (with_files (<[dst := bytes]> (delete src (files d))) d)
       | None => Raised OSError
       end.

(** [DATA_DIR / f"user_data_backup_{int(time.time())}.json"]. *)
Definition quarantine_file (now : Q) : string :=
  "data/user_data_backup_" +:+ str (int_of_float now) +:+ ".json".

(** ** Presence *)

Inductive Status : Type :=
  | online
  | offline
  | idle
  | dnd
  | invisible.

Definition status_eqb (a b : Status) : bool :=
  match a, b with
  | online, online | offline, offline | idle, idle
  | dnd, dnd | invisible, invisible => true
  | _, _ => false
  end.

(** ** The status menu, the AI chat and the snapshot writer *)

(** [user["item"] = v]. *)
Definition set_item (v : string) (u : User) : User :=
  mkUser (money u) (level u) (exp u) (inventory u) (last_daily u) v
         (total_online u) (last_online u) (join_date u) (command_usage u).

(** [validate_user_input(text, max_length)], on the characters of [text]. *)
Definition validate_user_input {A : Type} (text : list A) (max_length : nat)
  : bool :=
  if (match text with [] => true | _ => false end)
     || (max_length <? length text)%nat
  then false else true.

(** The default of the [max_length] argument. *)
Definition default_max_length : nat := 500.

(** [range(0, n, step)], for a positive [step]. *)
Definition range_step (n step : nat) : list nat :=
  map (fun k => (k * step)%nat) (seq 0 ((n + step - 1) / step)).

(** [[response[i:i+1900] for i in range(0, len(response), 1900)]]. *)
Definition split_response {A : Type} (response : list A) : list (list A) :=
  map (fun i => take 1900 (drop i response))
      (range_step (length response) 1900).

(** How the request to the model ends: with the content of the answer,
    already stripped, or with one of the errors the command tells apart. *)
Inductive AiResult (A : Type) : Type :=
  | AiContent (content : list A)
  | AiConnectionError
  | AiTimeout
  | AiOtherError.
Arguments AiContent {A} content.
Arguments AiConnectionError {A}.
Arguments AiTimeout {A}.
Arguments AiOtherError {A}.

(** What [ask_ai] sends: the pieces of a long answer (the first one under
    a header line), a short answer in an embed, or a notice. *)
Inductive AiReply (A : Type) : Type :=
  | AiInvalidQuestion
  | AiChunks (chunks : list (list A))
  | AiEmbed (response : list A)
  | AiNoAnswer
  | AiCannotConnect
  | AiTooSlow
  | AiFailure.
Arguments AiInvalidQuestion {A}.
Arguments AiChunks {A} chunks.
Arguments AiEmbed {A} response.
Arguments AiNoAnswer {A}.
Arguments AiCannotConnect {A}.
Arguments AiTooSlow {A}.
Arguments AiFailure {A}.

(** The messages for the answer [res] of the model. *)
Definition ai_reply {A : Type} (res : AiResult A) : AiReply A :=
  match res with
  | AiContent response =>
      match response with
      | [] => AiNoAnswer
      | _ => if (2000 <? length response)%nat
             then AiChunks (split_response response)
             else AiEmbed response
      end
  | AiConnectionError => AiCannotConnect
  | AiTimeout => AiTooSlow
  | AiOtherError => AiFailure
  end.

Definition BACKUP_FILE : string := "data/user_data_backup.json".

(** How writing a file ends: all bytes are written; the file cannot be
    opened for writing and stays as it is; or the file is opened, which
    empties it, and the write stops after [n] bytes. *)
Inductive write_outcome : Type :=
  | WriteDone
  | WriteRefused
  | WriteCut (n : nat).

(** What the operating system does with the two writes of [save_data]. *)
Record SaveIO : Type := mkSaveIO {
  backup_write : write_outcome;
  data_write : write_outcome
}.

Definition with_file (p : string) (bytes : list Byte.byte) (d : Disk) : Disk :=
  with_files (<[p := bytes]> (files d)) d.

(** [with open(p, "w") as f: f.write(content)]. *)
Definition write_file (p : string) (content : list Byte.byte)
    (o : write_outcome) (d : Disk) : Disk * py unit :=
  match o with
  | WriteDone => (with_file p content d, Returned tt)
  | WriteRefused => (d, Raised OSError)
  | WriteCut n => (with_file p (take n content) d, Raised OSError)
  end.

(** A reference for reading a file as UTF-8 text and writing the text
    back: the bytes must be well-formed UTF-8, and a carriage return, with
    the line feed that follows it if any, comes back as one line feed. *)
Module TextRef.

(** Well-formed UTF-8: [need] continuation bytes are still due, the next
    of them within [lo] and [hi]. *)
Fixpoint utf8_from (need : nat) (lo hi : N) (l : list N) : bool :=
  match l with
  | [] => match need with O => true | S _ => false end
  | b :: rest =>
      match need with
      | O =>
          if (b <? 128)%N then utf8_from 0 128 191 rest
          else if (194 <=? b)%N && (b <=? 223)%N then utf8_from 1 128 191 rest
          else if (b =? 224)%N then utf8_from 2 160 191 rest
          else if (b =? 237)%N then utf8_from 2 128 159 rest
          else if (225 <=? b)%N && (b <=? 239)%N then utf8_from 2 128 191 rest
          else if (b =? 240)%N then utf8_from 3 144 191 rest
          else if (241 <=? b)%N && (b <=? 243)%N then utf8_from 3 128 191 rest
          else if (b =? 244)%N then utf8_from 3 128 143 rest
          else false
      | S n =>
          if (lo <=? b)%N && (b <=? hi)%N then utf8_from n 128 191 rest
          else false
      end
  end.

Fixpoint universal_newlines (l : list N) : list N :=
  match l with
  | [] => []
  | b :: rest =>
      if (b =? 13)%N then
        10%N :: match rest with
                | c :: rest' =>
                    if (c =? 10)%N then universal_newlines rest'
                    else universal_newlines rest
                | [] => []
                end
      else b :: universal_newlines rest
  end.

Definition byte_of_N (n : N) : Byte.byte :=
  match Byte.of_N n with
  | Some b => b
  | None => Byte.x00
  end.

Definition recode (bytes : list Byte.byte) : option (list Byte.byte) :=
  let l := map Byte.to_N bytes in
  if utf8_from 0 128 191 l
  then Some (map byte_of_N (universal_newlines l))
  else None.

End TextRef.

(** A reference [json.dump(user_data, f, ensure_ascii=False, indent=2)]. *)
Module JsonOut.

Definition dq : string := String (ascii_of_nat 34) EmptyString.
Definition nl : string := String (ascii_of_nat 10) EmptyString.

Definition hex_digit (n : N) : ascii :=
  if (n <? 10)%N then ascii_of_N (48 + n) else ascii_of_N (87 + n).

(** One character inside a JSON string: the quote, the backslash and the
    control characters are escaped, everything else is kept. *)
Definition escape_char (c : ascii) : string :=
  let n := N_of_ascii c in
  if (n =? 34)%N then "\" +:+ dq
  else if (n =? 92)%N then "\\"
  else if (n =? 8)%N then "\b"
  else if (n =? 12)%N then "\f"
  else if (n =? 10)%N then "\n"
  else if (n =? 13)%N then "\r"
  else if (n =? 9)%N then "\t"
  else if (n <? 32)%N then
    "\u00" +:+ String (hex_digit (n / 16)) (String (hex_digit (n mod 16)) EmptyString)
  else String c EmptyString.

Fixpoint escape (s : string) : string :=
  match s with
  | EmptyString => EmptyString
  | String c rest => escape_char c +:+ escape rest
  end.

Definition json_string (s : string) : string := dq +:+ escape s +:+ dq.

Definition json_optional (o : option string) : string :=
  match o with
  | None => "null"
  | Some s => json_string s
  end.

(** The items of a container, one per line, at the given indentation. *)
Fixpoint json_lines (pad : string) (items : list string) : string :=
  match items with
  | [] => EmptyString
  | [x] => pad +:+ x
  | x :: rest => pad +:+ x +:+ "," +:+ nl +:+ json_lines pad rest
  end.

Definition json_block (opening closing pad outer : string)
    (items : list string) : string :=
  match items with
  | [] => opening +:+ closing
  | _ => opening +:+ nl +:+ json_lines pad items +:+ nl +:+ outer +:+ closing
  end.

Definition json_member (key value : string) : string :=
  json_string key +:+ ": " +:+ value.

Definition json_user (u : User) : string :=
  json_block "{" "}" "    " "  "
    [ json_member "money" (str (money u));
      json_member "level" (str (level u));
      json_member "exp" (str (exp u));
      json_member "inventory"
        (json_block "[" "]" "      " "    " (map json_string (inventory u)));
      json_member "last_daily" (json_optional (last_daily u));
      json_member "item" (json_string (item u));
      json_member "total_online" (str (total_online u));
      json_member "last_online" (json_optional (last_online u));
      json_member "join_date" (json_string (join_date u));
      json_member "command_usage" (str (command_usage u)) ].

Definition json_text (ud : Store) : string :=
  json_block "{" "}" "  " EmptyString
    (map (fun e => json_member (fst e) (json_user (snd e))) ud).

Definition json_dump (ud : Store) : list Byte.byte :=
  String.list_byte_of_string (json_text ud).

End JsonOut.

(** A reference [json.load] on a file opened as UTF-8 text. It reads the
    JSON grammar with integers for numbers, which is what [json.dump]
    writes for the store of the bot; a dict of records of the bot is the
    store, with its keys in the order of the document. What is beyond
    [json_result] (a number with a fraction or an exponent, a dict that
    holds anything but records) reads as a decoding error here. *)
Module JsonRef.

#[local] Unset Elimination Schemes.
Inductive json : Type :=
  | JNull
  | JBool (b : bool)
  | JNum (z : Z)
  | JStr (s : string)
  | JArr (l : list json)
  | JObj (l : list (string * json)).
#[local] Set Elimination Schemes.

Definition is_ws (c : N) : bool :=
  ((c =? 32) || (c =? 9) || (c =? 10) || (c =? 13))%N.

Definition is_digit (c : N) : bool := ((48 <=? c) && (c <=? 57))%N.

Fixpoint skip_ws (s : list N) : list N :=
  match s with
  | c :: rest => if is_ws c then skip_ws rest else s
  | [] => []
  end.

Definition text (l : list N) : string :=
  String.string_of_list_byte (map TextRef.byte_of_N l).

Definition hex_value (c : N) : option N :=
  if is_digit c then Some (c - 48)%N
  else if ((97 <=? c) && (c <=? 102))%N then Some (c - 87)%N
  else if ((65 <=? c) && (c <=? 70))%N then Some (c - 55)%N
  else None.

(** UTF-8 of a code point of the basic plane; a lone surrogate has none. *)
Definition utf8 (n : N) : option (list N) :=
  if (n <? 128)%N then Some [n]
  else if (n <? 2048)%N then Some [192 + n / 64; 128 + n mod 64]%N
  else if ((55296 <=? n) && (n <=? 57343))%N then None
  else Some [224 + n / 4096; 128 + (n / 64) mod 64; 128 + n mod 64]%N.

(** The character that stands after a backslash. *)
Definition unescape (e : N) : option N :=
  if ((e =? 34) || (e =? 92) || (e =? 47))%N then Some e
  else if (e =? 98)%N then Some 8%N
  else if (e =? 102)%N then Some 12%N
  else if (e =? 110)%N then Some 10%N
  else if (e =? 114)%N then Some 13%N
  else if (e =? 116)%N then Some 9%N
  else None.

(** The characters of a string up to its closing quote, and what follows
    the quote. *)
Fixpoint chars (s : list N) : option (list N * list N) :=
  match s with
  | [] => None
  | c :: rest =>
      if (c =? 34)%N then Some ([], rest)
      else if (c =? 92)%N then
        match rest with
        | e :: rest1 =>
            if (e =? 117)%N then
              match rest1 with
              | h1 :: h2 :: h3 :: h4 :: rest2 =>
                  match hex_value h1, hex_value h2, hex_value h3,
                        hex_value h4 with
                  | Some a, Some b, Some c, Some d =>
                      match utf8 (((a * 16 + b) * 16 + c) * 16 + d)%N,
                            chars rest2 with
                      | Some bs, Some (t, r) => Some (bs ++ t, r)
                      | _, _ => None
                      end
                  | _, _, _, _ => None
                  end
              | _ => None
              end
            else
              match unescape e, chars rest1 with
              | Some x, Some (t, r) => Some (x :: t, r)
              | _, _ => None
              end
        | [] => None
        end
      else if (c <? 32)%N then None
      else
        match chars rest with
        | Some (t, r) => Some (c :: t, r)
        | None => None
        end
  end.

Fixpoint digits (acc : Z) (s : list N) : Z * list N :=
  match s with
  | c :: rest =>
      if is_digit c then digits (acc * 10 + Z.of_N (c - 48)) rest
      else (acc, s)
  | [] => (acc, [])
  end.

(** An integer: no leading zero, no fraction, no exponent. *)
Definition unsigned (s : list N) : option (Z * list N) :=
  match s with
  | c :: rest =>
      if is_digit c then
        if (c =? 48)%N
           && match rest with c2 :: _ => is_digit c2 | [] => false end
        then None
        else
          let '(n, r) := digits 0 s in
          match r with
          | x :: _ =>
              if ((x =? 46) || (x =? 101) || (x =? 69))%N then None
              else Some (n, r)
          | [] => Some (n, r)
          end
      else None
  | [] => None
  end.

Definition number (s : list N) : option (Z * list N) :=
  match s with
  | c :: rest =>
      if (c =? 45)%N then
        match unsigned rest with
        | Some (n, r) => Some (- n, r)
        | None => None
        end
      else unsigned s
  | [] => None
  end.

Fixpoint strip (word s : list N) : option (list N) :=
  match word, s with
  | [], _ => Some s
  | w :: word', c :: rest => if (w =? c)%N then strip word' rest else None
  | _ :: _, [] => None
  end.

(** The items of an array after its bracket, [n] of them at most. *)
Fixpoint elements (value : list N -> option (json * list N)) (n : nat)
    (s : list N) : option (list json * list N) :=
  match n with
  | O => None
  | S n =>
      match value s with
      | Some (v, r) =>
          match skip_ws r with
          | c :: r' =>
              if (c =? 44)%N then
                match elements value n r' with
                | Some (vs, r'') => Some (v :: vs, r'')
                | None => None
                end
              else if (c =? 93)%N then Some ([v], r')
              else None
          | [] => None
          end
      | None => None
      end
  end.

(** The members of an object after its brace, [n] of them at most. *)
Fixpoint members (value : list N -> option (json * list N)) (n : nat)
    (s : list N) : option (list (string * json) * list N) :=
  match n with
  | O => None
  | S n =>
      match skip_ws s with
      | q :: r =>
          if (q =? 34)%N then
            match chars r with
            | Some (k, r1) =>
                match skip_ws r1 with
                | colon :: r2 =>
                    if (colon =? 58)%N then
                      match value r2 with
                      | Some (v, r3) =>
                          match skip_ws r3 with
                          | c :: r4 =>
                              if (c =? 44)%N then
                                match members value n r4 with
                                | Some (ms, r5) => Some ((text k, v) :: ms, r5)
                                | None => None
                                end
                              else if (c =? 125)%N then Some ([(text k, v)], r4)
                              else None
                          | [] => None
                          end
                      | None => None
                      end
                    else None
                | [] => None
                end
            | None => None
            end
          else None
      | [] => None
      end
  end.

(** A value nested [fuel] deep at most, and what follows it. *)
Fixpoint value (fuel : nat) (s : list N) : option (json * list N) :=
  match fuel with
  | O => None
  | S fuel =>
      match skip_ws s with
      | [] => None
      | c :: r =>
          if (c =? 123)%N then
            match skip_ws r with
            | c2 :: r2 =>
                if (c2 =? 125)%N then Some (JObj [], r2)
                else
                  match members (value fuel) (length r) r with
                  | Some (ms, r') => Some (JObj ms, r')
                  | None => None
                  end
            | [] => None
            end
          else if (c =? 91)%N then
            match skip_ws r with
            | c2 :: r2 =>
                if (c2 =? 93)%N then Some (JArr [], r2)
                else
                  match elements (value fuel) (length r) r with
                  | Some (vs, r') => Some (JArr vs, r')
                  | None => None
                  end
            | [] => None
            end
          else if (c =? 34)%N then
            match chars r with
            | Some (t, r') => Some (JStr (text t), r')
            | None => None
            end
          else
            match strip [110; 117; 108; 108]%N (c :: r),
                  strip [116; 114; 117; 101]%N (c :: r),
                  strip [102; 97; 108; 115; 101]%N (c :: r) with
            | Some r', _, _ => Some (JNull, r')
            | _, Some r', _ => Some (JBool true, r')
            | _, _, Some r' => Some (JBool false, r')
            | _, _, _ =>
                match number (c :: r) with
                | Some (n, r') => Some (JNum n, r')
                | None => None
                end
            end
      end
  end.

(** The value of a key of an object: of its last member with that key. *)
Definition member (k : string) (o : list (string * json)) : option json :=
  snd <$> List.find (fun m => String.eqb (fst m) k) (rev o).

Definition as_int (j : json) : option Z :=
  match j with JNum z => Some z | _ => None end.

Definition as_str (j : json) : option string :=
  match j with JStr s => Some s | _ => None end.

Definition as_optional (j : json) : option (option string) :=
  match j with
  | JNull => Some None
  | JStr s => Some (Some s)
  | _ => None
  end.

Definition as_strs (j : json) : option (list string) :=
  match j with
  | JArr l => mapM as_str l
  | _ => None
  end.

(** An object with the ten keys of a record and nothing else. *)
Definition record (j : json) : option User :=
  match j with
  | JObj o =>
      if negb (forallb
                 (fun m => bool_decide
                    (fst m ∈ ["money"; "level"; "exp"; "inventory";
                              "last_daily"; "item"; "total_online";
                              "last_online"; "join_date"; "command_usage"]))
                 o)
      then None
      else
        m ← member "money" o ≫= as_int;
        l ← member "level" o ≫= as_int;
        e ← member "exp" o ≫= as_int;
        inv ← member "inventory" o ≫= as_strs;
        ld ← member "last_daily" o ≫= as_optional;
        it ← member "item" o ≫= as_str;
        t ← member "total_online" o ≫= as_int;
        lo ← member "last_online" o ≫= as_optional;
        jd ← member "join_date" o ≫= as_str;
        cu ← member "command_usage" o ≫= as_int;
        Some (mkUser m l e inv ld it t lo jd cu)
  | _ => None
  end.

(** The dict of an object of records: a key that comes again keeps its
    place and takes the later value. *)
Fixpoint store (acc : Store) (o : list (string * json)) : option Store :=
  match o with
  | [] => Some acc
  | (k, j) :: rest =>
      match record j with
      | Some u =>
          store (match ud_lookup k acc with
                 | Some _ => ud_store k u acc
                 | None => acc ++ [(k, u)]
                 end) rest
      | None => None
      end
  end.

Definition json_load (bytes : list Byte.byte) : json_result :=
  let s := map Byte.to_N bytes in
  if negb (TextRef.utf8_from 0 128 191 s) then JsonError
  else
    match value (S (length s)) s with
    | Some (j, r) =>
        match skip_ws r with
        | [] =>
            match j with
            | JObj o =>
                match store [] o with
                | Some ud => JsonDict ud
                | None => JsonError
                end
            | JArr _ | JStr _ => JsonSized
            | _ => JsonUnsized
            end
        | _ :: _ => JsonError
        end
    | None => JsonError
    end.

End JsonRef.

(** ** What the records keep *)

(** The ranges the bot keeps the numbers of a record in. *)
Definition user_ok (u : User) : Prop :=
  0 <= money u /\ 1 <= level u /\ 0 <= exp u < level u * 100
  /\ 0 <= command_usage u.

(** One record per identifier, each within the ranges. *)
Definition store_ok (ud : Store) : Prop :=
  NoDup (map fst ud) /\ Forall (fun e => user_ok (snd e)) ud.

(** [u'] is a later state of the record [u]. *)
Definition grown (u u' : User) : Prop :=
  level u <= level u' /\ command_usage u <= command_usage u'
  /\ join_date u' = join_date u
  /\ exists more, inventory u' = inventory u ++ more.

(** The weight the table gives to a label, over all its entries. *)
Definition weight_of (label : string) (items : list (string * Z)) : Z :=
  foldr (fun e acc => if String.eqb (fst e) label then snd e + acc else acc)
        0 items.

(** The draws between 1 and the total weight that select [label]. *)
Definition draws_giving (label : string) (items : list (string * Z))
  : list Z :=
  List.filter
    (fun r => match select_item items r 0 with
              | Some it => String.eqb it label
              | None => false
              end)
    (seqZ 1 (total_weight items)).

(** ** Sample data *)

(** 2024-01-01T00:00:00+00:00, in microseconds since the epoch. *)
Definition new_year : Z := 1704067200000000.

Definition seconds (n : Z) : Z := n * MICRO.

(** A record with the given balance, level and exp, and nothing else. *)
Definition sample_user (m l e : Z) : User :=
  mkUser m l e [] None EmptyString 0 None "2023-12-31T00:00:00+00:00" 0.

(** A bot in which user 42 has level 1 and 90 exp. *)
Definition bot_level_up : Bot :=
  mkBot ∅ [("42", sample_user 0 1 90)].

(** A bot in which user 42 last claimed at a time that cannot be read. *)
Definition bot_bad_daily : Bot :=
  mkBot ∅ [("42", set_last_daily (Some "yesterday") (sample_user 0 1 0))].

(** A bot in which user 7 has 100 seconds online and a session started at
    2024-01-01T00:00:10+00:00. *)
Definition bot_in_session : Bot :=
  mkBot ∅ [("7", set_last_online (Some "2024-01-01T00:00:10+00:00")
                   (set_total_online 100 (sample_user 0 1 0)))].

(** The same bot before that session started. *)
Definition bot_offline : Bot :=
  mkBot ∅ [("7", set_total_online 100 (sample_user 0 1 0))].

(** A bot in which user 42 has 60 coins. *)
Definition bot_sixty : Bot :=
  mkBot ∅ [("42", sample_user 60 1 0)].

(** Three users with 50, 200 and 200 coins, in this order. *)
Definition bot_three : Bot :=
  mkBot ∅ [("1", sample_user 50 1 0); ("2", sample_user 200 3 0);
           ("3", sample_user 200 2 0)].

(** A disk whose snapshot holds the two bytes "no". *)
Definition disk_bad (rename_refused : bool) : Disk :=
  mkDisk {[ DATA_FILE := [Byte.x6e; Byte.x6f] ]} false false rename_refused.

(** The same snapshot in a directory that may not be searched. *)
Definition disk_locked : Disk :=
  mkDisk {[ DATA_FILE := [Byte.x6e; Byte.x6f] ]} true false false.

(** Three users that money, level and online time rank three ways. *)
Definition bot_mixed : Bot :=
  mkBot ∅ [("1", set_total_online 7300 (sample_user 50 5 0));
           ("2", set_total_online 10 (sample_user 200 3 0));
           ("3", set_total_online 3600 (sample_user 200 2 0))].

(** More sample data. *)

(** A bot with no record and no call on record. *)
Definition bot_empty : Bot := mkBot ∅ [].

(** A bot in which user 42 claimed at 2024-01-01T00:00:00+00:00. *)
Definition bot_claimed : Bot :=
  mkBot ∅ [("42", set_last_daily (Some "2024-01-01T00:00:00+00:00")
                    (sample_user 110 1 25))].

(** The same with the time of the claim written without an offset. *)
Definition bot_naive_daily : Bot :=
  mkBot ∅ [("42", set_last_daily (Some "2024-01-01T00:00:00")
                    (sample_user 110 1 25))].

(** A bot in which the session of user 7 starts at a text that is no
    time. *)
Definition bot_bad_session : Bot :=
  mkBot ∅ [("7", set_last_online (Some "soon")
                   (set_total_online 7300 (sample_user 0 1 0)))].

(** A bot in which the session of user 7 starts at a time written without
    an offset. *)
Definition bot_naive_session : Bot :=
  mkBot ∅ [("7", set_last_online (Some "2024-01-01T00:00:10")
                   (set_total_online 7300 (sample_user 0 1 0)))].

(** Eleven users, user [n] with [10 * n] coins. *)
Definition bot_eleven : Bot :=
  mkBot ∅ (map (fun n => (str n, sample_user (10 * n) 1 0)) (seqZ 1 11)).

(** Two users with what the commands leave in a record. *)
Definition bot_stocked : Bot :=
  mkBot ∅ [("42", mkUser 310 2 0 [jackpot_item; "🍞 ขนมปัง"]
                         (Some "2024-01-01T00:00:00+00:00") "โสดเว้ย" 7300
                         None "2023-12-31T00:00:00+00:00" 4);
           ("7", set_last_online (Some "2024-01-01T00:00:10+00:00")
                   (set_total_online 100 (sample_user 0 1 0)))].

(** A disk with a snapshot that cannot be decoded and a quarantine file
    from an earlier load in the same second. *)
Definition disk_twice : Disk :=
  mkDisk {[ DATA_FILE := [Byte.x6e; Byte.x6f];
            quarantine_file 1704067200%Q := [Byte.x6f; Byte.x6c; Byte.x64] ]}
         false false false.

(** A disk whose snapshot is the empty store. *)
Definition disk_good : Disk :=
  mkDisk {[ DATA_FILE := [Byte.x7b; Byte.x7d] ]} false false false.

(** The operating system lets both writes through, or cuts the second
    short after one byte, or refuses the first. *)
Definition io_done : SaveIO := mkSaveIO WriteDone WriteDone.
Definition io_cut : SaveIO := mkSaveIO WriteDone (WriteCut 1).
Definition io_refused : SaveIO := mkSaveIO WriteRefused WriteDone.

(** ** The engine *)

Section Engine.

(** The Python library functions the engine calls. *)
Variable isoformat : Z -> string.
Variable fromisoformat : string -> iso_result.
Variable json_load : list Byte.byte -> json_result.
Variable json_dump : Store -> list Byte.byte.

(** Reading a file as UTF-8 text and writing the text back: the bytes
    written, or [None] when the file does not decode. *)
Variable recode : list Byte.byte -> option (list Byte.byte).

(** *** [load_data] *)

Definition load_data (now : Q) (d : Disk) : Disk * py Loaded :=
  let body : py Loaded :=
    match path_exists DATA_FILE d with
    | Raised e => Raised e
    | Returned true =>
        if open_fails d then Raised OSError
        else match json_load (default [] (files d !! DATA_FILE)) with
             | JsonDict data => Returned (LoadedDict data)
             | JsonSized => Returned LoadedOther
             | JsonUnsized =>
                 Raised TypeError (* [len(data)] in the log line *)
             | JsonError => Raised JSONDecodeError
             end
    | Returned false => Returned (LoadedDict [])
    end
  in
  match body with
  | Returned data => (d, Returned data)
  | Raised _ =>
      (* except (json.JSONDecodeError, Exception) *)
      match path_exists DATA_FILE d with
      | Raised e => (d, Raised e) (* raised in the handler, under no [try] *)
      | Returned true =>
          match path_rename DATA_FILE (quarantine_file now) d with
          | Returned d' => (d', Returned (LoadedDict []))
          | Raised _ =>
              (* except Exception as backup_error *)
              (d, Returned (LoadedDict []))
          end
      | Returned false => (d, Returned (LoadedDict []))
      end
  end.

(** *** [ensure_user_data] *)

Definition new_user (now : Z) : User :=
  {| money := 0; level := 1; exp := 0; inventory := [];
     last_daily := None; item := EmptyString; total_online := 0;
     last_online := None; join_date := isoformat now;
     command_usage := 0 |}.

(** Gives the store, with the record added when it was missing, and the
    record [user_data[uid]]. *)
Definition ensure_user_data (now : Z) (uid : string) (ud : Store)
  : Store * User :=
  match ud_lookup uid ud with
  | Some u => (ud, u)
  | None => let u := new_user now in (ud ++ [(uid, u)], u)
  end.

(** *** [daily_reward] *)

(** "Check if already claimed today": [Returned None] lets the claim
    proceed, [Returned (Some reply)] ends the command with [reply]. *)
Definition daily_gate (now_check now_msg : Z) (user : User)
  : py (option Reply) :=
  if truthy (last_daily user) then
    match fromisoformat (default EmptyString (last_daily user)) with
    | IsoAware last =>
        if now_check - last <? timedelta_days 1 then
          let remaining := timedelta_days 1 - (now_msg - last) in
          let hours := td_seconds remaining / 3600 in
          let minutes := (td_seconds remaining mod 3600) / 60 in
          Returned (Some (AlreadyClaimed hours minutes))
        else Returned None
    | IsoNaive => Raised TypeError
    | IsoValueError => Returned None (* except ValueError *)
    end
  else Returned None.

(** "Calculate reward based on level" and "Level up check". *)
Definition daily_claim (now_store : Z) (user : User) : User * Reply :=
  let base_reward := 100 in
  let level_bonus := level user * 10 in
  let total_reward := base_reward + level_bonus in
  let user := set_money (money user + total_reward) user in
  let user := set_exp (exp user + 25) user in
  let user := set_last_daily (Some (isoformat now_store)) user in
  let user := set_command_usage (command_usage user + 1) user in
  let level_up_exp := level user * 100 in
  if level_up_exp <=? exp user then
    let user := set_level (level user + 1) user in
    let user := set_exp 0 user in
    let level_up_bonus := level user * 50 in
    let user := set_money (money user + level_up_bonus) user in
    (user, DailyEmbed total_reward (Some level_up_bonus)
                      (money user) (level user))
  else
    (user, DailyEmbed total_reward None (money user) (level user)).

(** The body of the command; the [commands.cooldown] decorator belongs
    to the framework and is not part of it. *)
Definition daily_reward (now_join now_check now_msg now_store : Z)
    (author : Z) (b : Bot) : Bot * py Reply :=
  let user_id := str author in
  let '(ud, user) := ensure_user_data now_join user_id (user_data b) in
  match daily_gate now_check now_msg user with
  | Raised e => (with_user_data ud b, Raised e)
  | Returned (Some reply) => (with_user_data ud b, Returned reply)
  | Returned None =>
      let '(user, reply) := daily_claim now_store user in
      (with_user_data (ud_store user_id user ud) b, Returned reply)
  end.

(** *** [gacha] *)

Definition gacha_cost : Z := 50.

(** The command from the balance check on, for the draws [r] and [bonus]
    that [random.randint] gives. A record always has the key
    ["inventory"], so the branch that creates it is never taken. *)
Definition gacha_draw (r bonus : Z) (user : User) : User * py Reply :=
  let cost := gacha_cost in
  if money user <? cost then (user, Returned (NotEnoughMoney cost (money user)))
  else
    let user := set_money (money user - cost) user in
    let user := set_command_usage (command_usage user + 1) user in
    match select_item gacha_items r 0 with
    | None => (user, Raised UnboundLocalError)
    | Some selected_item =>
        let user := set_inventory (inventory user ++ [selected_item]) user in
        let bonus_money :=
          if str_contains "บัตรเงิน" selected_item then bonus else 0 in
        let user :=
          if str_contains "บัตรเงิน" selected_item
          then set_money (money user + bonus_money) user else user in
        (user, Returned (GachaEmbed selected_item bonus_money (money user)
                                    (length (inventory user))))
    end.

(** The body of the command, without the [commands.cooldown] decorator. *)
Definition gacha (now : Q) (now_join : Z) (r bonus : Z) (author : Z)
    (b : Bot) : Bot * py Reply :=
  let '(limited, ulc) :=
    is_rate_limited now author default_cooldown (user_last_command b) in
  let b := with_last_command ulc b in
  if limited then (b, Returned PleaseWait)
  else
    let user_id := str author in
    let '(ud, user) := ensure_user_data now_join user_id (user_data b) in
    let '(user, reply) := gacha_draw r bonus user in
    (with_user_data (ud_store user_id user ud) b, reply).

(** *** [check_profile] *)

(** "Calculate online time". *)
Definition profile_seconds (now : Z) (user : User) : py Z :=
  let total_seconds := total_online user in
  if truthy (last_online user) then
    match
      since fromisoformat now (default EmptyString (last_online user))
    with
    | Returned td => Returned (total_seconds + int_total_seconds td)
    | Raised ValueError => Returned total_seconds (* except ValueError *)
    | Raised e => Raised e
    end
  else Returned total_seconds.

Definition profile_read (now : Z) (user : User) : User * py Reply :=
  let user := set_command_usage (command_usage user + 1) user in
  match profile_seconds now user with
  | Raised e => (user, Raised e)
  | Returned total_seconds =>
      let hours := total_seconds / 3600 in
      let minutes := (total_seconds mod 3600) / 60 in
      (user, Returned (ProfileEmbed (item user) (money user) (level user)
                         hours minutes (command_usage user)
                         (take 5 (inventory user))
                         (length (inventory user) - 5)%nat))
  end.

Definition check_profile (now : Q) (now_join now_dt : Z) (author : Z)
    (member : option Z) (b : Bot) : Bot * py Reply :=
  let '(limited, ulc) :=
    is_rate_limited now author default_cooldown (user_last_command b) in
  let b := with_last_command ulc b in
  if limited then (b, Returned PleaseWait)
  else
    let target := default author member in
    let uid := str target in
    let '(ud, user) := ensure_user_data now_join uid (user_data b) in
    let '(user, reply) := profile_read now_dt user in
    (with_user_data (ud_store uid user ud) b, reply).

(** *** [leaderboard] *)

Definition valid_categories : list string := ["money"; "level"; "online"].

(** [category] after "if category not in valid_categories". *)
Definition effective_category (category : string) : string :=
  if bool_decide (category ∈ valid_categories) then category else "money".

(** The sort key of the branch taken for [category]. *)
Definition sort_key (category : string) (e : string * User) : Z :=
  if String.eqb category "money" then money (snd e)
  else if String.eqb category "level" then level (snd e)
  else total_online (snd e).

Definition top_users (category : string) (ud : Store) : Store :=
  sorted_reverse (sort_key (effective_category category)) ud.

(** The number shown for an entry. *)
Definition shown_value (category : string) (data : User) : Z :=
  if String.eqb category "online" then total_online data / 3600
  else if String.eqb category "level" then level data
  else money data.

(** The loop over [enumerate(top_users[:10])], from index [i]: an entry
    whose user cannot be fetched is skipped. The dict [data] of an entry is
    the record of the store itself, not a copy of it: while
    [bot.fetch_user] is awaited other handlers run and assign to it, and
    the number shown is read after the await. [live i uid data] is the
    record of [uid] as the loop finds it at index [i], where [data] is
    what it held when the list was sorted. *)
Fixpoint board_fields (fetch_user : string -> option string)
    (live : nat -> string -> User -> User)
    (category : string) (i : nat) (l : Store) : list (nat * string * Z) :=
  match l with
  | [] => []
  | (uid, data) :: rest =>
      match fetch_user uid with
      | Some display_name =>
          (S i, display_name, shown_value category (live i uid data))
            :: board_fields fetch_user live category (S i) rest
      | None => board_fields fetch_user live category (S i) rest
      end
  end.

(** No handler has assigned to a record since the list was sorted. *)
Definition undisturbed : nat -> string -> User -> User :=
  fun _ _ data => data.

Definition leaderboard_limit : nat := 10.

(** The command, as far as the tables of the bot and the embed go; the
    tables are those the command leaves when it has checked the rate
    limit, which is all it assigns to. *)
Definition leaderboard (now : Q) (fetch_user : string -> option string)
    (live : nat -> string -> User -> User)
    (author : Z) (category : string) (b : Bot) : Bot * py Reply :=
  let '(limited, ulc) :=
    is_rate_limited now author 10%Q (user_last_command b) in
  let b := with_last_command ulc b in
  if limited then (b, Returned PleaseWait)
  else
    let ranking := take leaderboard_limit (top_users category (user_data b)) in
    (b, Returned (LeaderboardEmbed
                    (board_fields fetch_user live
                                  (effective_category category) 0 ranking))).

(** *** [on_presence_update] *)

(** The statements under the outer [try]. *)
Definition presence_body (now_join now : Z) (before after : Status)
    (member_id : Z) (ud : Store) : Store * py unit :=
  let uid := str member_id in
  let ud :=
    match ud_lookup uid ud with
    | None => fst (ensure_user_data now_join uid ud)
    | Some _ => ud
    end in
  match ud_lookup uid ud with
  | None => (ud, Returned tt)
  | Some user =>
      if negb (status_eqb before online) && status_eqb after online then
        (* User came online *)
        (ud_store uid (set_last_online (Some (isoformat now)) user) ud,
         Returned tt)
      else if status_eqb before online && negb (status_eqb after online) then
        (* User went offline *)
        if truthy (last_online user) then
          match
            since fromisoformat now (default EmptyString (last_online user))
          with
          | Returned td =>
              let online_time := int_total_seconds td in
              let user :=
                set_total_online (total_online user + online_time) user in
              let user := set_last_online None user in
              (ud_store uid user ud, Returned tt)
          | Raised ValueError => (ud, Returned tt) (* except ValueError *)
          | Raised e => (ud, Raised e)
          end
        else (ud, Returned tt)
      else (ud, Returned tt)
  end.

(** [except Exception] around the body: nothing leaves the handler. *)
Definition on_presence_update (now_join now : Z) (before after : Status)
    (member_id : Z) (b : Bot) : Bot :=
  with_user_data
    (fst (presence_body now_join now before after member_id (user_data b))) b.

(** *** The metrics of the leaderboard *)

(** The metric a category word stands for, in the words of the claim:
    level for "level", the online seconds for "online", money for "money"
    and for any other word. *)
Definition metric (category : string) (u : User) : Z :=
  if String.eqb category "level" then level u
  else if String.eqb category "online" then total_online u
  else money u.

(** The number on the board: the metric, in whole hours for the online
    time. *)
Definition shown_metric (category : string) (u : User) : Z :=
  if String.eqb category "online" then metric category u / 3600
  else metric category u.

(** *** Reading a stored timestamp *)

(** [stored_time o v]: the field [o] ([last_daily] or [last_online]) is
    [None] and [v] is [None], or it holds a non-empty text that
    [fromisoformat] reads as the aware instant [v]. *)
Definition stored_time (o : option string) (v : option Z) : Prop :=
  match o, v with
  | None, None => True
  | Some s, Some t => s <> EmptyString /\ fromisoformat s = IsoAware t
  | _, _ => False
  end.

(** The daily reward may be claimed at [now]: no claim is on record, or
    the one on record is at least 24 hours old. *)
Definition daily_eligible (now : Z) (v : option Z) : Prop :=
  match v with
  | None => True
  | Some t => timedelta_days 1 <= now - t
  end.

(** The daily reward is open at [now] to a record with this [last_daily]:
    the field holds nothing ([None] or the empty text), or a text that is
    no timestamp, or a timestamp at least 24 hours old. *)
Definition daily_open (now : Z) (o : option string) : Prop :=
  truthy o = false
  \/ exists s,
       o = Some s
       /\ (fromisoformat s = IsoValueError
           \/ exists t, fromisoformat s = IsoAware t
                        /\ timedelta_days 1 <= now - t).

(** Whole seconds of the session in progress at [now], toward zero as
    [int] takes them; 0 when no session is in progress. *)
Definition live_seconds (now : Z) (v : option Z) : Z :=
  match v with
  | Some t0 => int_total_seconds (now - t0)
  | None => 0
  end.

(** *** [save_data] *)

(** "Create backup before saving": the snapshot is read as text and the
    text written to the backup file. *)
Definition save_backup (io : SaveIO) (d : Disk) : Disk * py unit :=
  match path_exists DATA_FILE d with
  | Raised e => (d, Raised e)
  | Returned true =>
      if open_fails d then (d, Raised OSError)
      else
        match backup_write io with
        | WriteRefused => (d, Raised OSError)
        | o =>
            match recode (default [] (files d !! DATA_FILE)) with
            | None => (with_file BACKUP_FILE [] d, Raised ValueError)
            | Some text => write_file BACKUP_FILE text o d
            end
        end
  | Returned false => (d, Returned tt)
  end.

(** [save_data()] for the store [ud]: whatever is raised is logged and
    goes no further. *)
Definition save_data (io : SaveIO) (ud : Store) (d : Disk) : Disk :=
  let '(d, r) := save_backup io d in
  match r with
  | Raised _ => d (* except Exception as e *)
  | Returned _ => fst (write_file DATA_FILE (json_dump ud) (data_write io) d)
  end.

(** *** [setup_profile] and [ItemSelect.callback] *)

(** Gives whether the menu is shown. *)
Definition setup_profile (now : Q) (author : Z) (b : Bot) : Bot * bool :=
  let '(limited, ulc) :=
    is_rate_limited now author default_cooldown (user_last_command b) in
  (with_last_command ulc b, negb limited).

(** The choice [value] in the menu made for [user_id]. *)
Definition item_select_callback (now_join : Z) (user_id : Z) (value : string)
    (b : Bot) : Bot :=
  let uid := str user_id in
  let '(ud, user) := ensure_user_data now_join uid (user_data b) in
  let user := set_item value user in
  let user := set_command_usage (command_usage user + 1) user in
  with_user_data (ud_store uid user ud) b.

(** *** [ask_ai] *)

(** The body of the command, for the answer [res] that the request to the
    model gives. *)
Definition ask_ai {A : Type} (now_join author : Z) (prompt : list A)
    (res : AiResult A) (b : Bot) : Bot * AiReply A :=
  if negb (validate_user_input prompt default_max_length)
  then (b, AiInvalidQuestion)
  else
    let user_id := str author in
    let '(ud, user) := ensure_user_data now_join user_id (user_data b) in
    let user := set_command_usage (command_usage user + 1) user in
    (with_user_data (ud_store user_id user ud) b, ai_reply res).

(** *** The bot as a machine *)

(** What can happen to the bot, with the clock readings, the random draws
    and the answers of the outside world that the handler gets. *)
Inductive Event : Type :=
  | SetupProfile (now : Q) (author : Z)
  | SelectStatus (now_join user_id : Z) (value : string)
  | CheckProfile (now : Q) (now_join now_dt author : Z) (member : option Z)
  | DailyReward (now_join now_check now_msg now_store author : Z)
  | Gacha (now : Q) (now_join r bonus author : Z)
  | Leaderboard (now : Q) (fetch_user : string -> option string)
                (live : nat -> string -> User -> User)
                (author : Z) (category : string)
  | AskAi (now_join author : Z) (prompt : list N) (res : AiResult N)
  | PresenceUpdate (now_join now : Z) (before after : Status) (member_id : Z).

(** The tables after the handler of the event has run. *)
Definition handle (ev : Event) (b : Bot) : Bot :=
  match ev with
  | SetupProfile now author => fst (setup_profile now author b)
  | SelectStatus now_join user_id value =>
      item_select_callback now_join user_id value b
  | CheckProfile now now_join now_dt author member =>
      fst (check_profile now now_join now_dt author member b)
  | DailyReward now_join now_check now_msg now_store author =>
      fst (daily_reward now_join now_check now_msg now_store author b)
  | Gacha now now_join r bonus author =>
      fst (gacha now now_join r bonus author b)
  | Leaderboard now fetch_user live author category =>
      fst (leaderboard now fetch_user live author category b)
  | AskAi now_join author prompt res =>
      fst (ask_ai now_join author prompt res b)
  | PresenceUpdate now_join now before after member_id =>
      on_presence_update now_join now before after member_id b
  end.

Definition run (evs : list Event) (b : Bot) : Bot :=
  fold_left (fun b ev => handle ev b) evs b.

(** The records as the loop of the leaderboard finds them when the
    events [during j] are handled while the user at index [j] is fetched,
    [b] being the tables when the loop starts: the entries of the sorted
    list are the records of the store, and these handlers assign to
    them. *)
Definition live_after (during : nat -> list Event) (b : Bot)
  : nat -> string -> User -> User :=
  fun i uid data =>
    default data
      (ud_lookup uid (user_data (run (flat_map during (seq 0 (S i))) b))).

(** The draws of a gacha event are in the ranges [random.randint] is
    called with. *)
Definition draws_ok (ev : Event) : Prop :=
  match ev with
  | Gacha _ _ r bonus _ => 1 <= r <= 100 /\ 100 <= bonus <= 500
  | _ => True
  end.

(** The store after the record of [uid] is made sure of and then
    assigned [g] of itself. *)
Definition ud_modify (now_join : Z) (uid : string) (g : User -> User)
    (ud : Store) : Store :=
  let '(ud1, u) := ensure_user_data now_join uid ud in
  ud_store uid (g u) ud1.

(** What [on_presence_update] does to the record of the member. *)
Definition presence_record (now : Z) (before after : Status) (user : User)
  : User :=
  if negb (status_eqb before online) && status_eqb after online then
    set_last_online (Some (isoformat now)) user
  else if status_eqb before online && negb (status_eqb after online) then
    if truthy (last_online user) then
      match
        since fromisoformat now (default EmptyString (last_online user))
      with
      | Returned td =>
          set_last_online None
            (set_total_online (total_online user + int_total_seconds td) user)
      | Raised _ => user
      end
    else user
  else user.

(** What [daily_reward] does to the record of the author. *)
Definition daily_record (now_check now_msg now_store : Z) (user : User)
  : User :=
  match daily_gate now_check now_msg user with
  | Returned None => fst (daily_claim now_store user)
  | _ => user
  end.

(** The change an event makes to the store, when it makes one: the time
    and the identifier [ensure_user_data] is called with and what is then
    assigned to the record. That the handlers do just this is proved
    below, before anything is drawn from it. *)
Definition effect (ev : Event) (b : Bot)
  : option (Z * string * (User -> User)) :=
  match ev with
  | SetupProfile _ _ => None
  | SelectStatus now_join user_id value =>
      Some (now_join, str user_id,
            fun u => set_command_usage (command_usage u + 1) (set_item value u))
  | CheckProfile now now_join now_dt author member =>
      if fst (is_rate_limited now author default_cooldown (user_last_command b))
      then None
      else Some (now_join, str (default author member),
                 fun u => fst (profile_read now_dt u))
  | DailyReward now_join now_check now_msg now_store author =>
      Some (now_join, str author, daily_record now_check now_msg now_store)
  | Gacha now now_join r bonus author =>
      if fst (is_rate_limited now author default_cooldown (user_last_command b))
      then None
      else Some (now_join, str author, fun u => fst (gacha_draw r bonus u))
  | Leaderboard _ _ _ _ _ => None
  | AskAi now_join author prompt _ =>
      if validate_user_input prompt default_max_length
      then Some (now_join, str author,
                 fun u => set_command_usage (command_usage u + 1) u)
      else None
  | PresenceUpdate now_join now before after member_id =>
      Some (now_join, str member_id, presence_record now before after)
  end.

(** The identifier whose record an event can assign to. *)
Definition event_user (ev : Event) : option string :=
  match ev with
  | SetupProfile _ _ | Leaderboard _ _ _ _ _ => None
  | SelectStatus _ user_id _ => Some (str user_id)
  | CheckProfile _ _ _ author member => Some (str (default author member))
  | DailyReward _ _ _ _ author | Gacha _ _ _ _ author
  | AskAi _ author _ _ => Some (str author)
  | PresenceUpdate _ _ _ _ member_id => Some (str member_id)
  end.

(** ** Properties *)

(** The library functions that a statement does not mention are put out
    of the way of the proof. *)
Ltac drop_unused :=
  repeat match goal with f : _ -> _ |- _ => clear f end.

(** *** The store *)

Lemma ud_lookup_app (uid : string) (ud1 ud2 : Store) :
  ud_lookup uid (ud1 ++ ud2) =
  match ud_lookup uid ud1 with
  | Some u => Some u
  | None => ud_lookup uid ud2
  end.
Proof.
  induction ud1 as [|[k v] rest IH]; simpl; [reflexivity|].
  destruct (String.eqb k uid); [reflexivity|exact IH].
Qed.

Lemma ud_lookup_store_eq (uid : string) (u u0 : User) (ud : Store) :
  ud_lookup uid ud = Some u0 -> ud_lookup uid (ud_store uid u ud) = Some u.
Proof.
  induction ud as [|[k v] rest IH]; simpl; [discriminate|].
  destruct (String.eqb k uid) eqn:E; simpl; rewrite E; auto.
Qed.

Lemma ud_lookup_store_ne (k uid : string) (u : User) (ud : Store) :
  k <> uid -> ud_lookup k (ud_store uid u ud) = ud_lookup k ud.
Proof.
  intros Hne. induction ud as [|[k' v] rest IH]; simpl; [reflexivity|].
  destruct (String.eqb_spec k' uid) as [->|Hk]; simpl.
  - destruct (String.eqb_spec uid k); [congruence|reflexivity].
  - destruct (String.eqb k' k); [reflexivity|exact IH].
Qed.

Lemma ud_store_same (uid : string) (u : User) (ud : Store) :
  ud_lookup uid ud = Some u -> ud_store uid u ud = ud.
Proof.
  induction ud as [|[k v] rest IH]; simpl; [reflexivity|].
  destruct (String.eqb k uid).
  - intros [= ->]. reflexivity.
  - intros H. rewrite IH by exact H. reflexivity.
Qed.

Lemma ud_store_store (uid : string) (u1 u2 : User) (ud : Store) :
  ud_store uid u2 (ud_store uid u1 ud) = ud_store uid u2 ud.
Proof.
  induction ud as [|[k v] rest IH]; simpl; [reflexivity|].
  destruct (String.eqb k uid) eqn:E; simpl; rewrite E; [reflexivity|].
  rewrite IH. reflexivity.
Qed.

Lemma ensure_user_data_lookup (now : Z) (uid : string) (ud ud' : Store) (u : User) :
  ensure_user_data now uid ud = (ud', u) -> ud_lookup uid ud' = Some u.
Proof.
  unfold ensure_user_data. destruct (ud_lookup uid ud) eqn:E.
  - intros [= <- <-]. exact E.
  - intros [= <- <-]. rewrite ud_lookup_app, E. simpl.
    rewrite String.eqb_refl. reflexivity.
Qed.

Lemma ensure_user_data_present (now : Z) (uid : string) (ud : Store) (u : User) :
  ud_lookup uid ud = Some u -> ensure_user_data now uid ud = (ud, u).
Proof. unfold ensure_user_data. intros ->. reflexivity. Qed.

(** *** The daily reward *)

Lemma truthy_Some (s : string) : s <> EmptyString -> truthy (Some s) = true.
Proof.
  intros Hs. unfold truthy.
  destruct (String.eqb_spec s EmptyString); [contradiction|reflexivity].
Qed.

Lemma with_user_data_id (b : Bot) : with_user_data (user_data b) b = b.
Proof. destruct b; reflexivity. Qed.

(** What a granted claim does to the record. *)
Lemma daily_claim_fields (now_store : Z) (u : User) :
  let u' := fst (daily_claim now_store u) in
  last_daily u' = Some (isoformat now_store)
  /\ command_usage u' = command_usage u + 1
  /\ inventory u' = inventory u /\ item u' = item u
  /\ total_online u' = total_online u /\ last_online u' = last_online u
  /\ join_date u' = join_date u
  /\ (exp u + 25 < level u * 100 ->
        level u' = level u /\ exp u' = exp u + 25
        /\ money u' = money u + (100 + level u * 10))
  /\ (level u * 100 <= exp u + 25 ->
        level u' = level u + 1 /\ exp u' = 0
        /\ money u' = money u + (100 + level u * 10) + (level u + 1) * 50).
Proof.
  unfold daily_claim. user_simpl.
  destruct (Z.leb_spec (level u * 100) (exp u + 25)); user_simpl;
    repeat split; intros; try reflexivity; lia.
Qed.

Lemma daily_claim_reply (now_store : Z) (u : User) :
  exists tr lb mn lv, snd (daily_claim now_store u) = DailyEmbed tr lb mn lv.
Proof.
  unfold daily_claim. user_simpl.
  destruct (level u * 100 <=? exp u + 25); user_simpl; eauto.
Qed.

(** The command, once the gate lets the claim through. *)
Lemma daily_reward_granted (now_join now_check now_msg now_store author : Z)
    (b : Bot) (ud : Store) (u : User) :
  ensure_user_data now_join (str author) (user_data b) = (ud, u) ->
  daily_gate now_check now_msg u = Returned None ->
  daily_reward now_join now_check now_msg now_store author b =
    (with_user_data (ud_store (str author) (fst (daily_claim now_store u)) ud) b,
     Returned (snd (daily_claim now_store u))).
Proof.
  intros Hens Hgate. unfold daily_reward. rewrite Hens, Hgate.
  destruct (daily_claim now_store u); reflexivity.
Qed.

(** C1, as amended: a granted daily claim adds 100 + level*10 money and
    25 exp; then, when the new exp reaches level*100, the level goes up
    by exactly one (one check, no loop), exp is reset to 0 and
    newLevel*50 money is added on top. *)
Theorem daily_reward_award (now_join now_check now_msg now_store author : Z)
    (b : Bot) (ud : Store) (u : User) :
  ensure_user_data now_join (str author) (user_data b) = (ud, u) ->
  daily_gate now_check now_msg u = Returned None ->
  exists b' reply u',
    daily_reward now_join now_check now_msg now_store author b
      = (b', Returned reply)
    /\ ud_lookup (str author) (user_data b') = Some u'
    /\ (exp u + 25 < level u * 100 ->
          level u' = level u /\ exp u' = exp u + 25
          /\ money u' = money u + (100 + level u * 10))
    /\ (level u * 100 <= exp u + 25 ->
          level u' = level u + 1 /\ exp u' = 0
          /\ money u' = money u + (100 + level u * 10) + (level u + 1) * 50).
Proof.
  intros Hens Hgate.
  exists (with_user_data
            (ud_store (str author) (fst (daily_claim now_store u)) ud) b),
         (snd (daily_claim now_store u)), (fst (daily_claim now_store u)).
  split; [apply daily_reward_granted; assumption|].
  split.
  - cbn [user_data with_user_data].
    eapply ud_lookup_store_eq, ensure_user_data_lookup, Hens.
  - pose proof (daily_claim_fields now_store u) as F. cbv zeta in F.
    destruct F as (_ & _ & _ & _ & _ & _ & _ & Hstay & Hup). auto.
Qed.

(** The gate on a record whose [last_daily] is a readable timestamp. *)
Lemma daily_gate_stored (now_check now_msg : Z) (u : User) (v : option Z) :
  stored_time (last_daily u) v ->
  (daily_eligible now_check v ->
     daily_gate now_check now_msg u = Returned None)
  /\ (~ daily_eligible now_check v ->
       exists h m, daily_gate now_check now_msg u
                   = Returned (Some (AlreadyClaimed h m))).
Proof.
  unfold stored_time, daily_eligible, daily_gate.
  destruct (last_daily u) as [s|], v as [t|]; try contradiction.
  - intros [Hs Hiso]. rewrite (truthy_Some s Hs). simpl. rewrite Hiso.
    destruct (Z.ltb_spec (now_check - t) (timedelta_days 1)); split;
      intros; eauto; lia.
  - intros _. simpl. split; [reflexivity|tauto].
Qed.

(** C9: a record whose [last_daily] is not [None] but cannot be parsed
    is eligible: the claim goes through, the reward is paid and
    [last_daily] is overwritten with the current time. *)
Theorem daily_reward_unparseable_last_daily
    (now_join now_check now_msg now_store author : Z)
    (b : Bot) (ud : Store) (u : User) (s : string) :
  ensure_user_data now_join (str author) (user_data b) = (ud, u) ->
  last_daily u = Some s ->
  fromisoformat s = IsoValueError ->
  exists b' u' total_reward bonus money_now level_now,
    daily_reward now_join now_check now_msg now_store author b
      = (b', Returned (DailyEmbed total_reward bonus money_now level_now))
    /\ ud_lookup (str author) (user_data b') = Some u'
    /\ last_daily u' = Some (isoformat now_store)
    /\ total_reward = 100 + level u * 10
    /\ money u' = money u + total_reward
                  + (if level u * 100 <=? exp u + 25
                     then (level u + 1) * 50 else 0)
    /\ exp u' = (if level u * 100 <=? exp u + 25 then 0 else exp u + 25).
Proof.
  intros Hens Hld Hiso.
  assert (Hgate : daily_gate now_check now_msg u = Returned None).
  { unfold daily_gate. rewrite Hld. simpl.
    destruct (negb (String.eqb s EmptyString)); [rewrite Hiso|]; reflexivity. }
  rewrite (daily_reward_granted _ _ _ now_store _ _ _ _ Hens Hgate).
  pose proof (ensure_user_data_lookup _ _ _ _ _ Hens) as Hl.
  unfold daily_claim. user_simpl.
  destruct (level u * 100 <=? exp u + 25); user_simpl;
    do 6 eexists; (split; [reflexivity|]);
    cbn [user_data with_user_data];
    (split; [eapply ud_lookup_store_eq, Hl|]); user_simpl;
    repeat split; lia.
Qed.

(** What the gate makes of a record: the claim is open and the gate lets
    it through, or it is not and the gate answers "already claimed" or
    fails on a time without offset. *)
Lemma daily_gate_cases (now_check now_msg : Z) (u : User) :
  (daily_gate now_check now_msg u = Returned None
   /\ daily_open now_check (last_daily u))
  \/ (~ daily_open now_check (last_daily u)
      /\ ((exists h m, daily_gate now_check now_msg u
                       = Returned (Some (AlreadyClaimed h m)))
          \/ daily_gate now_check now_msg u = Raised TypeError)).
Proof using Type.
  drop_unused.
  unfold daily_gate, daily_open.
  destruct (last_daily u) as [s|]; [|left; split; [reflexivity|left; reflexivity]].
  cbn [truthy default from_option id].
  destruct (String.eqb_spec s EmptyString) as [->|Hs]; cbn [negb];
    [left; split; [reflexivity|left; reflexivity]|].
  destruct (fromisoformat s) as [t| |] eqn:Hiso.
  - destruct (Z.ltb_spec (now_check - t) (timedelta_days 1)) as [Hlt|Hge].
    + right. split; [|left; eauto].
      intros [Hf|(s' & [= <-] & [Hv|(t' & Ht' & Hle)])];
        [discriminate|congruence|].
      rewrite Hiso in Ht'. injection Ht' as <-. lia.
    + left. split; [reflexivity|]. right. exists s. split; [reflexivity|].
      right. exists t. split; [exact Hiso|exact Hge].
  - right. split; [|right; reflexivity].
    intros [Hf|(s' & [= <-] & [Hv|(t' & Ht' & _)])];
      [discriminate|congruence|congruence].
  - left. split; [reflexivity|]. right. exists s. split; [reflexivity|].
    left. exact Hiso.
Qed.

(** C5, as amended: the claim is granted exactly when [last_daily] holds
    nothing, or a text that is no timestamp, or a timestamp at least 24
    hours old; after a granted claim, every further claim less than 24
    hours after it is answered "already claimed" and leaves the whole
    state, hence money, level and exp, as it was; and a claim that is not
    granted changes nothing in the record: it is answered "already
    claimed", or fails on a time without offset. *)
Theorem daily_reward_once_per_day
    (now_join now_check now_msg now_store author : Z)
    (b : Bot) (ud : Store) (u : User) :
  ensure_user_data now_join (str author) (user_data b) = (ud, u) ->
  stored_time (Some (isoformat now_store)) (Some now_store) ->
  let out := daily_reward now_join now_check now_msg now_store author b in
  ((exists b1 total_reward bonus money_now level_now,
      out = (b1, Returned (DailyEmbed total_reward bonus money_now level_now)))
   <-> daily_open now_check (last_daily u))
  /\ (forall b1 total_reward bonus money_now level_now,
        out = (b1, Returned (DailyEmbed total_reward bonus money_now
                                        level_now)) ->
        forall now_join2 now_check2 now_msg2 now_store2,
          now_check2 - now_store < timedelta_days 1 ->
          exists h m,
            daily_reward now_join2 now_check2 now_msg2 now_store2 author b1
              = (b1, Returned (AlreadyClaimed h m)))
  /\ (~ daily_open now_check (last_daily u) ->
      fst out = with_user_data ud b
      /\ ud_lookup (str author) ud = Some u
      /\ ((exists h m, snd out = Returned (AlreadyClaimed h m))
          \/ snd out = Raised TypeError)).
Proof using Type.
  drop_unused.
  intros Hens Hrt out.
  pose proof (ensure_user_data_lookup _ _ _ _ _ Hens) as Hl.
  destruct (daily_gate_cases now_check now_msg u)
    as [[Hgate Hopen]|[Hshut Hgate]].
  - (* the gate lets the claim through *)
    assert (Hout : out
              = (with_user_data
                   (ud_store (str author) (fst (daily_claim now_store u)) ud) b,
                 Returned (snd (daily_claim now_store u))))
      by (apply daily_reward_granted; assumption).
    destruct (daily_claim_reply now_store u) as (tr & lb & mn & lv & Hr).
    rewrite Hr in Hout.
    split; [split; [intros _; exact Hopen|intros _; eauto 6]|].
    split; [|intros Hshut; contradiction].
    intros b1 tr' lb' mn' lv' Hb1 nj2 nc2 nm2 ns2 Hlt.
    rewrite Hout in Hb1. injection Hb1 as <- _ _ _ _.
    set (u1 := fst (daily_claim now_store u)).
    set (b1 := with_user_data (ud_store (str author) u1 ud) b).
    assert (Hl1 : ud_lookup (str author) (user_data b1) = Some u1)
      by (eapply ud_lookup_store_eq, Hl).
    assert (Hv1 : stored_time (last_daily u1) (Some now_store)).
    { pose proof (daily_claim_fields now_store u) as F. cbv zeta in F.
      destruct F as (E & _). unfold u1. rewrite E. exact Hrt. }
    destruct (daily_gate_stored nc2 nm2 u1 _ Hv1) as [_ Hno1].
    destruct Hno1 as (h & m & Hg); [unfold daily_eligible; lia|].
    exists h, m. unfold daily_reward.
    rewrite (ensure_user_data_present nj2 _ _ _ Hl1), Hg.
    rewrite with_user_data_id. reflexivity.
  - (* the gate ends the command *)
    assert (Hout : out = (with_user_data ud b,
                          match daily_gate now_check now_msg u with
                          | Returned (Some reply) => Returned reply
                          | Returned None => Returned PleaseWait
                          | Raised e => Raised e
                          end)).
    { unfold out, daily_reward. rewrite Hens.
      destruct Hgate as [(h & m & ->)| ->]; reflexivity. }
    split; [split; [|intros Hopen; contradiction]|].
    { intros (b1 & tr & lb & mn & lv & Hb1). rewrite Hout in Hb1.
      destruct Hgate as [(h & m & Hg)|Hg]; rewrite Hg in Hb1; discriminate. }
    split.
    { intros b1 tr lb mn lv Hb1. rewrite Hout in Hb1.
      destruct Hgate as [(h & m & Hg)|Hg]; rewrite Hg in Hb1; discriminate. }
    intros _. rewrite Hout. cbn [fst snd].
    split; [reflexivity|]. split; [exact Hl|].
    destruct Hgate as [(h & m & ->)| ->]; [left; eauto|right; reflexivity].
Qed.

(** *** The gacha draw *)

(** The walk binds [selected_item] as soon as the draw is within the
    weight still ahead. *)
Lemma select_item_total (items : list (string * Z)) (r current_weight : Z) :
  current_weight < r ->
  r <= current_weight + total_weight items ->
  exists it, select_item items r current_weight = Some it
             /\ In it (map fst items).
Proof.
  revert current_weight.
  induction items as [|[it w] rest IH]; intros cw Hlo Hhi.
  - simpl in Hhi. lia.
  - cbn [select_item total_weight foldr snd] in *.
    destruct (Z.leb_spec r (cw + w)) as [Hle|Hgt].
    + exists it. split; [reflexivity|left; reflexivity].
    + destruct (IH (cw + w) Hgt) as (it' & Hsel & Hin);
        [fold (total_weight rest) in Hhi; lia|].
      exists it'. split; [exact Hsel|right; exact Hin].
Qed.

Lemma total_weight_gacha_items : total_weight gacha_items = 100.
Proof. reflexivity. Qed.

(** Only the last entry of the table, drawn by 99 and 100, is the
    jackpot. *)
Lemma select_item_jackpot (r : Z) (it : string) :
  select_item gacha_items r 0 = Some it ->
  (98 < r -> it = jackpot_item /\ str_contains "บัตรเงิน" it = true)
  /\ (r <= 98 -> it <> jackpot_item /\ str_contains "บัตรเงิน" it = false).
Proof.
  unfold gacha_items. cbn [select_item]. cbn [Z.add Pos.add Pos.succ Pos.add_carry].
  repeat match goal with
         | |- context [r <=? ?n] => destruct (Z.leb_spec r n)
         end;
    intros [= <-]; (split; intros; [try lia|try lia]);
    (split; [try reflexivity; try discriminate|vm_compute; reflexivity]).
Qed.

Lemma gacha_draw_poor (r bonus : Z) (u : User) :
  money u < gacha_cost ->
  gacha_draw r bonus u = (u, Returned (NotEnoughMoney gacha_cost (money u))).
Proof.
  intros H. unfold gacha_draw.
  destruct (Z.ltb_spec (money u) gacha_cost); [reflexivity|lia].
Qed.

(** A paid draw that binds [it]. *)
Lemma gacha_draw_paid (r bonus : Z) (u : User) (it : string) :
  gacha_cost <= money u ->
  select_item gacha_items r 0 = Some it ->
  exists u' shown_bonus,
    gacha_draw r bonus u
      = (u', Returned (GachaEmbed it shown_bonus (money u')
                                  (length (inventory u'))))
    /\ inventory u' = inventory u ++ [it]
    /\ money u' = money u - gacha_cost
                  + (if str_contains "บัตรเงิน" it then bonus else 0)
    /\ command_usage u' = command_usage u + 1
    /\ level u' = level u /\ exp u' = exp u
    /\ last_daily u' = last_daily u /\ item u' = item u
    /\ total_online u' = total_online u /\ last_online u' = last_online u
    /\ join_date u' = join_date u.
Proof.
  intros Hm Hsel. unfold gacha_draw. rewrite Hsel.
  destruct (Z.ltb_spec (money u) gacha_cost); [lia|].
  destruct (str_contains "บัตรเงิน" it);
    do 2 eexists; (split; [reflexivity|]); user_simpl;
    repeat split; lia.
Qed.

(** C10: for every draw between 1 and the total weight of the table,
    which is 100, the walk over the table selects an entry, so
    [selected_item] is bound and a paid draw appends exactly one item. *)
Theorem select_item_defined (r : Z) :
  1 <= r <= total_weight gacha_items ->
  total_weight gacha_items = 100
  /\ exists it,
       select_item gacha_items r 0 = Some it
       /\ In it (map fst gacha_items)
       /\ forall bonus u,
            gacha_cost <= money u ->
            exists u' reply,
              gacha_draw r bonus u = (u', Returned reply)
              /\ inventory u' = inventory u ++ [it].
Proof.
  intros Hr. split; [reflexivity|].
  destruct (select_item_total gacha_items r 0) as (it & Hsel & Hin); [lia..|].
  exists it. repeat split; try assumption.
  intros bonus u Hm.
  destruct (gacha_draw_paid r bonus u it Hm Hsel) as (u' & sb & Hd & Hinv & _).
  eauto.
Qed.

(** C4: on an admitted gacha command, a balance under 50 is answered with
    "not enough money" and the record stays as it was; otherwise the
    balance becomes the old one minus 50, plus the bonus drawn in
    [100, 500] exactly when the jackpot entry is selected, and exactly one
    item label is appended to the inventory. *)
Theorem gacha_balance (now : Q) (now_join r bonus author : Z) (b : Bot)
    (ulc : gmap Z Q) (ud : Store) (u : User) :
  1 <= r <= 100 ->
  100 <= bonus <= 500 ->
  is_rate_limited now author default_cooldown (user_last_command b)
    = (false, ulc) ->
  ensure_user_data now_join (str author) (user_data b) = (ud, u) ->
  (money u < 50 ->
     gacha now now_join r bonus author b
       = (mkBot ulc ud, Returned (NotEnoughMoney 50 (money u)))
     /\ ud_lookup (str author) ud = Some u)
  /\ (50 <= money u ->
      exists it u' reply,
        gacha now now_join r bonus author b
          = (mkBot ulc (ud_store (str author) u' ud), Returned reply)
        /\ ud_lookup (str author) (ud_store (str author) u' ud) = Some u'
        /\ select_item gacha_items r 0 = Some it
        /\ inventory u' = inventory u ++ [it]
        /\ (r <= 98 -> it <> jackpot_item /\ money u' = money u - 50)
        /\ (98 < r -> it = jackpot_item
                      /\ money u' = money u - 50 + bonus
                      /\ money u - 50 + 100 <= money u' <= money u - 50 + 500)).
Proof.
  intros Hr Hb Hrl Hens.
  pose proof (ensure_user_data_lookup _ _ _ _ _ Hens) as Hl.
  unfold gacha. rewrite Hrl. cbn [user_data with_last_command].
  rewrite Hens. split.
  - intros Hpoor. split; [|exact Hl].
    rewrite gacha_draw_poor by exact Hpoor.
    unfold with_user_data. cbn [user_last_command].
    rewrite (ud_store_same _ _ _ Hl). reflexivity.
  - intros Hrich.
    destruct (select_item_total gacha_items r 0) as (it & Hsel & _);
      [lia|rewrite total_weight_gacha_items; lia|].
    destruct (gacha_draw_paid r bonus u it Hrich Hsel)
      as (u' & sb & Hd & Hinv & Hmoney & _).
    destruct (select_item_jackpot r it Hsel) as [Hjack Hplain].
    exists it, u'. eexists. rewrite Hd.
    split; [reflexivity|].
    split; [eapply ud_lookup_store_eq, Hl|].
    split; [exact Hsel|]. split; [exact Hinv|].
    unfold gacha_cost in Hmoney. split.
    + intros Hle. destruct (Hplain Hle) as [Hne Hc]. rewrite Hc in Hmoney.
      split; [exact Hne|lia].
    + intros Hgt. destruct (Hjack Hgt) as [He Hc]. rewrite Hc in Hmoney.
      split; [exact He|lia].
Qed.

(** *** The rate limiter *)

Lemma float_ltb_false (a b : Q) : float_ltb a b = false <-> (b <= a)%Q.
Proof.
  unfold float_ltb. rewrite negb_false_iff. apply Qle_bool_iff.
Qed.

Lemma float_ltb_true (a b : Q) : float_ltb a b = true <-> (a < b)%Q.
Proof.
  unfold float_ltb. rewrite negb_true_iff.
  destruct (Qle_bool b a) eqn:E.
  - apply Qle_bool_iff in E. split; [discriminate|].
    intros H. exfalso. exact (Qlt_not_le _ _ H E).
  - split; [intros _|reflexivity].
    apply Qnot_le_lt. intros H. apply Qle_bool_iff in H. congruence.
Qed.

Lemma dd_getitem_value (d : gmap Z Q) (k : Z) :
  fst (dd_getitem d k) = stored_timestamp d k.
Proof.
  unfold dd_getitem, stored_timestamp. destruct (d !! k); reflexivity.
Qed.

Lemma dd_getitem_stored (d : gmap Z Q) (k j : Z) :
  stored_timestamp (snd (dd_getitem d k)) j = stored_timestamp d j.
Proof.
  unfold dd_getitem, stored_timestamp.
  destruct (d !! k) eqn:E; simpl; [reflexivity|].
  destruct (decide (k = j)) as [->|Hne].
  - rewrite lookup_insert_eq, E. reflexivity.
  - rewrite lookup_insert_ne by exact Hne. reflexivity.
Qed.

(** C6, as amended: a call is admitted, and the current time recorded
    for the identifier, exactly when the time elapsed since the stored
    time of the identifier is at least the cooldown; a rejected call
    leaves the stored time as it was; no other identifier is affected;
    an identifier with no admitted call yet has stored time 0.0, so it is
    admitted exactly when the clock reading is at least the cooldown. *)
Theorem is_rate_limited_admits (now : Q) (user_id : Z) (cooldown : Q)
    (ulc : gmap Z Q) :
  let limited := fst (is_rate_limited now user_id cooldown ulc) in
  let ulc' := snd (is_rate_limited now user_id cooldown ulc) in
  (limited = false <-> (cooldown <= now - stored_timestamp ulc user_id)%Q)
  /\ (limited = false -> ulc' !! user_id = Some now)
  /\ (limited = true ->
        stored_timestamp ulc' user_id = stored_timestamp ulc user_id)
  /\ (forall k, k <> user_id ->
        stored_timestamp ulc' k = stored_timestamp ulc k)
  /\ (ulc !! user_id = None -> (limited = false <-> (cooldown <= now)%Q)).
Proof.
  unfold is_rate_limited.
  pose proof (dd_getitem_value ulc user_id) as Hv.
  pose proof (dd_getitem_stored ulc user_id) as Hs.
  destruct (dd_getitem ulc user_id) as [last d] eqn:Hdd.
  cbn [fst snd] in Hv, Hs. subst last.
  assert (Hz : ulc !! user_id = None ->
               (now - stored_timestamp ulc user_id == now)%Q).
  { intros Hn. unfold stored_timestamp. rewrite Hn. simpl. ring. }
  destruct (float_ltb (now - stored_timestamp ulc user_id) cooldown) eqn:E;
    cbn [fst snd].
  - apply float_ltb_true in E.
    split; [split; [discriminate|]|].
    { intros Hle. exfalso. exact (Qlt_not_le _ _ E Hle). }
    split; [discriminate|]. split; [intros _; apply Hs|].
    split; [intros k _; apply Hs|].
    intros Hn. split; [discriminate|].
    intros Hle. exfalso. rewrite (Hz Hn) in E. exact (Qlt_not_le _ _ E Hle).
  - apply float_ltb_false in E.
    split; [split; [intros _; exact E|reflexivity]|].
    split; [intros _; apply lookup_insert_eq|].
    split; [discriminate|].
    split.
    { intros k Hk. unfold stored_timestamp at 1.
      rewrite lookup_insert_ne by congruence. apply Hs. }
    intros Hn. split; [intros _|reflexivity].
    rewrite (Hz Hn) in E. exact E.
Qed.

(** *** The profile read path *)

Lemma profile_seconds_stored (now : Z) (u : User) (v : option Z) :
  stored_time (last_online u) v ->
  profile_seconds now u = Returned (total_online u + live_seconds now v).
Proof.
  unfold stored_time, profile_seconds, live_seconds, since.
  destruct (last_online u) as [s|], v as [t|]; try contradiction.
  - intros [Hs Hiso]. rewrite (truthy_Some s Hs). simpl. rewrite Hiso.
    reflexivity.
  - intros _. simpl. rewrite Z.add_0_r. reflexivity.
Qed.

(** C3, as amended: on an admitted profile command, for a record whose
    [last_online] is absent or a readable timestamp, the time shown (in
    hours and minutes) is that of [total_online] plus the seconds of the
    session in progress, if any; the record keeps every field, the live
    session is not folded into [total_online], and only [command_usage]
    changes: it goes up by one. *)
Theorem check_profile_reads (now : Q) (now_join now_dt author : Z)
    (member : option Z) (b : Bot) (ulc : gmap Z Q) (ud : Store) (u : User)
    (v : option Z) :
  is_rate_limited now author default_cooldown (user_last_command b)
    = (false, ulc) ->
  ensure_user_data now_join (str (default author member)) (user_data b)
    = (ud, u) ->
  stored_time (last_online u) v ->
  let total := total_online u + live_seconds now_dt v in
  let u' := set_command_usage (command_usage u + 1) u in
  exists b' status money_shown level_shown usage items more,
    check_profile now now_join now_dt author member b
      = (b', Returned (ProfileEmbed status money_shown level_shown
                         (total / 3600) (total mod 3600 / 60)
                         usage items more))
    /\ ud_lookup (str (default author member)) (user_data b') = Some u'
    /\ total_online u' = total_online u
    /\ last_online u' = last_online u.
Proof.
  intros Hrl Hens Hv total u'.
  pose proof (ensure_user_data_lookup _ _ _ _ _ Hens) as Hl.
  unfold check_profile. rewrite Hrl. cbn [user_data with_last_command].
  rewrite Hens. unfold profile_read.
  rewrite (profile_seconds_stored now_dt _ v) by exact Hv.
  user_simpl. do 7 eexists. split; [reflexivity|].
  cbn [user_data with_user_data].
  split; [eapply ud_lookup_store_eq, Hl|]. split; reflexivity.
Qed.

(** *** Presence *)

Lemma status_eqb_online (s : Status) :
  s <> online -> status_eqb s online = false.
Proof. destruct s; [congruence|reflexivity..]. Qed.

(** An event that does not end in [online], on a record with no session
    in progress, changes nothing. *)
Lemma presence_no_session (now_join now : Z) (before after : Status)
    (member_id : Z) (b : Bot) (u : User) :
  ud_lookup (str member_id) (user_data b) = Some u ->
  last_online u = None ->
  after <> online ->
  on_presence_update now_join now before after member_id b = b.
Proof.
  intros Hl Hlo Hafter. unfold on_presence_update, presence_body.
  rewrite Hl, Hl, (status_eqb_online after Hafter), Hlo.
  rewrite andb_false_r. cbn [negb truthy].
  destruct (status_eqb before online); cbn [andb fst];
    apply with_user_data_id.
Qed.

(** What the Offline branch does to a record with a session in progress:
    the seconds are those [int] gives, toward zero. *)
Lemma presence_offline_folds (now_join now : Z) (after : Status)
    (member_id : Z) (b : Bot) (u : User) (t0 : Z) :
  ud_lookup (str member_id) (user_data b) = Some u ->
  stored_time (last_online u) (Some t0) ->
  after <> online ->
  ud_lookup (str member_id)
    (user_data (on_presence_update now_join now online after member_id b))
  = Some (set_last_online None
            (set_total_online
               (total_online u + int_total_seconds (now - t0)) u)).
Proof.
  intros Hl Hv Hafter. unfold on_presence_update, presence_body.
  rewrite Hl, Hl, (status_eqb_online after Hafter).
  cbn [status_eqb negb andb].
  unfold stored_time in Hv. destruct (last_online u) as [s|] eqn:Hlo;
    [|contradiction].
  destruct Hv as [Hs Hiso]. rewrite (truthy_Some s Hs).
  unfold since. cbn [default from_option id]. rewrite Hiso.
  cbn [fst user_data with_user_data].
  eapply ud_lookup_store_eq, Hl.
Qed.

(** C2, as amended: on an Online-to-Offline transition at a time [now]
    not before the readable [last_online] of the record, the elapsed
    time, floored to whole seconds, is not negative and is added to
    [total_online], which therefore does not decrease; [last_online] is
    cleared; a further event that does not bring the user online changes
    nothing. *)
Theorem presence_offline_accrues (now_join now : Z) (after : Status)
    (member_id : Z) (b : Bot) (u : User) (t0 : Z) :
  ud_lookup (str member_id) (user_data b) = Some u ->
  stored_time (last_online u) (Some t0) ->
  t0 <= now ->
  after <> online ->
  let elapsed := (now - t0) / MICRO in
  let u' := set_last_online None
              (set_total_online (total_online u + elapsed) u) in
  let b' := on_presence_update now_join now online after member_id b in
  0 <= elapsed
  /\ ud_lookup (str member_id) (user_data b') = Some u'
  /\ total_online u <= total_online u'
  /\ last_online u' = None
  /\ forall now_join2 now2 before2 after2,
       after2 <> online ->
       on_presence_update now_join2 now2 before2 after2 member_id b' = b'.
Proof.
  intros Hl Hv Hle Hafter elapsed u' b'.
  assert (Hel : 0 <= elapsed)
    by (apply Z.div_pos; unfold MICRO; lia).
  assert (Hb' : ud_lookup (str member_id) (user_data b') = Some u').
  { unfold b'.
    rewrite (presence_offline_folds now_join now after member_id b u t0)
      by assumption.
    unfold u', elapsed, int_total_seconds.
    rewrite Z.quot_div_nonneg by (unfold MICRO; lia). reflexivity. }
  split; [exact Hel|]. split; [exact Hb'|].
  split; [unfold u'; user_simpl; lia|]. split; [reflexivity|].
  intros nj2 n2 b2 a2 Ha2.
  apply (presence_no_session nj2 n2 b2 a2 member_id b' u' Hb');
    [reflexivity|exact Ha2].
Qed.

(** *** The leaderboard *)

Section Sorting.

Context {A : Type} (key : A -> Z).

Lemma insert_desc_perm (x : A) (l : list A) :
  Permutation (insert_desc key x l) (x :: l).
Proof.
  induction l as [|y rest IH]; simpl; [reflexivity|].
  destruct (key x <? key y); [|reflexivity].
  rewrite IH. apply perm_swap.
Qed.

Lemma insert_desc_sorted (x : A) (l : list A) :
  StronglySorted (desc key) l -> StronglySorted (desc key) (insert_desc key x l).
Proof.
  induction 1 as [|y rest Hs IH Hall]; simpl.
  - repeat constructor.
  - destruct (Z.ltb_spec (key x) (key y)) as [Hlt|Hge].
    + constructor; [exact IH|].
      rewrite (insert_desc_perm x rest). constructor; [|exact Hall].
      unfold desc. lia.
    + constructor; [constructor; assumption|].
      constructor; [exact Hge|].
      eapply Forall_impl; [exact Hall|]. unfold desc. intros z Hz. lia.
Qed.

Lemma insert_desc_filter (v : Z) (x : A) (l : list A) :
  List.filter (fun e => key e =? v) (insert_desc key x l)
  = List.filter (fun e => key e =? v) (x :: l).
Proof.
  induction l as [|y rest IH]; [reflexivity|].
  cbn [insert_desc]. destruct (Z.ltb_spec (key x) (key y)) as [Hlt|Hge];
    [|reflexivity].
  cbn [List.filter] in *. rewrite IH.
  destruct (Z.eqb_spec (key x) v), (Z.eqb_spec (key y) v);
    try reflexivity. lia.
Qed.

Lemma sorted_reverse_perm (l : list A) :
  Permutation (sorted_reverse key l) l.
Proof.
  induction l as [|x rest IH]; [reflexivity|].
  cbn [sorted_reverse foldr]. rewrite insert_desc_perm.
  constructor. exact IH.
Qed.

Lemma sorted_reverse_sorted (l : list A) :
  StronglySorted (desc key) (sorted_reverse key l).
Proof.
  induction l as [|x rest IH]; [constructor|].
  apply insert_desc_sorted, IH.
Qed.

(** Stability: among the entries of any one key value, the order of
    the input is kept. *)
Lemma sorted_reverse_stable (v : Z) (l : list A) :
  List.filter (fun e => key e =? v) (sorted_reverse key l)
  = List.filter (fun e => key e =? v) l.
Proof.
  induction l as [|x rest IH]; [reflexivity|].
  cbn [sorted_reverse foldr]. rewrite insert_desc_filter.
  cbn [List.filter]. fold (sorted_reverse key rest). rewrite IH.
  reflexivity.
Qed.

Lemma filter_key_head (x : A) (l : list A) :
  List.filter (fun e => key e =? key x) (x :: l)
  = x :: List.filter (fun e => key e =? key x) l.
Proof. cbn [List.filter]. rewrite Z.eqb_refl. reflexivity. Qed.

Lemma filter_key_In (v : Z) (x : A) (l l' : list A) :
  List.filter (fun e => key e =? v) l = x :: l' -> In x l /\ key x = v.
Proof.
  intros H.
  assert (Hin : In x (List.filter (fun e => key e =? v) l))
    by (rewrite H; left; reflexivity).
  apply filter_In in Hin. destruct Hin as [Hin Hk].
  split; [exact Hin|]. apply Z.eqb_eq, Hk.
Qed.

(** A descending order that keeps, for every key value, the entries of
    that value in a given order is unique: any stable sort gives the
    list that [sorted_reverse] gives. *)
Lemma stable_desc_sort_unique (l1 l2 : list A) :
  StronglySorted (desc key) l1 ->
  StronglySorted (desc key) l2 ->
  (forall v, List.filter (fun e => key e =? v) l1
             = List.filter (fun e => key e =? v) l2) ->
  l1 = l2.
Proof.
  intros H1. revert l2.
  induction H1 as [|x r1 Hs1 IH Hall1]; intros l2 H2 Hf.
  - destruct l2 as [|y r2]; [reflexivity|].
    specialize (Hf (key y)). rewrite filter_key_head in Hf. discriminate.
  - destruct l2 as [|y r2].
    { specialize (Hf (key x)). rewrite filter_key_head in Hf.
      discriminate. }
    inversion H2 as [|? ? Hs2 Hall2]; subst.
    assert (Hxy : key x = key y).
    { pose proof (Hf (key x)) as Hx. rewrite filter_key_head in Hx.
      symmetry in Hx. apply filter_key_In in Hx. destruct Hx as [Hx _].
      pose proof (Hf (key y)) as Hy. rewrite filter_key_head in Hy.
      apply filter_key_In in Hy. destruct Hy as [Hy _].
      rewrite List.Forall_forall in Hall1, Hall2. unfold desc in *.
      destruct Hx as [->|Hx]; [reflexivity|].
      destruct Hy as [->|Hy]; [reflexivity|].
      specialize (Hall2 x Hx). specialize (Hall1 y Hy). lia. }
    pose proof (Hf (key x)) as Hhead.
    rewrite filter_key_head, Hxy, filter_key_head in Hhead.
    injection Hhead as -> Htail. f_equal.
    apply IH; [exact Hs2|]. intros v.
    destruct (Z.eq_dec v (key y)) as [->|Hv]; [exact Htail|].
    specialize (Hf v). cbn [List.filter] in Hf.
    destruct (Z.eqb_spec (key y) v); [congruence|exact Hf].
Qed.

End Sorting.

Lemma board_fields_length (fetch_user : string -> option string)
    (live : nat -> string -> User -> User)
    (category : string) (i : nat) (l : Store) :
  (length (board_fields fetch_user live category i l) <= length l)%nat.
Proof.
  revert i. induction l as [|[uid data] rest IH]; intros i; simpl; [lia|].
  destruct (fetch_user uid); simpl; specialize (IH (S i)); lia.
Qed.

(** With every user of the ranking fetched, the fields are the ranking,
    entry by entry, numbered from [i + 1], each with the number its record
    holds when its turn comes. *)
Lemma board_fields_fetched (fetch_user : string -> option string)
    (live : nat -> string -> User -> User)
    (category : string) (i : nat) (l : Store) :
  Forall (fun e => is_Some (fetch_user (fst e))) l ->
  map (fun f => fst (fst f)) (board_fields fetch_user live category i l)
    = seq (S i) (length l)
  /\ map (fun f => Some (snd (fst f)))
         (board_fields fetch_user live category i l)
     = map (fun e => fetch_user (fst e)) l
  /\ map snd (board_fields fetch_user live category i l)
     = imap (fun j e => shown_value category
                          (live (i + j)%nat (fst e) (snd e))) l.
Proof.
  revert i. induction l as [|[uid data] rest IH]; intros i Hall;
    [repeat split; reflexivity|].
  inversion Hall as [|? ? [name Hname] Hrest]; subst.
  cbn [board_fields length seq map fst snd imap] in *.
  rewrite Hname. cbn [map fst snd].
  destruct (IH (S i) Hrest) as (-> & -> & ->).
  rewrite Nat.add_0_r. repeat split; f_equal.
  apply imap_ext. intros j e _. cbn. do 2 f_equal. lia.
Qed.

(** The code sorts by the metric the category word stands for. *)
Lemma sort_key_metric (category : string) (e : string * User) :
  sort_key (effective_category category) e = metric category (snd e).
Proof using Type.
  drop_unused.
  unfold metric.
  destruct (String.eqb_spec category "level") as [->|Hlevel];
    [reflexivity|].
  destruct (String.eqb_spec category "online") as [->|Honline];
    [reflexivity|].
  destruct (String.eqb_spec category "money") as [->|Hmoney];
    [reflexivity|].
  unfold effective_category. rewrite bool_decide_eq_false_2; [reflexivity|].
  unfold valid_categories.
  rewrite !elem_of_cons, elem_of_nil. tauto.
Qed.

(** The number shown is the metric, in whole hours for the online time. *)
Lemma shown_value_metric (category : string) (u : User) :
  shown_value (effective_category category) u = shown_metric category u.
Proof using Type.
  drop_unused.
  unfold shown_metric, metric.
  destruct (String.eqb_spec category "level") as [->|Hlevel];
    [reflexivity|].
  destruct (String.eqb_spec category "online") as [->|Honline];
    [reflexivity|].
  destruct (String.eqb_spec category "money") as [->|Hmoney];
    [reflexivity|].
  unfold effective_category. rewrite bool_decide_eq_false_2; [reflexivity|].
  unfold valid_categories.
  rewrite !elem_of_cons, elem_of_nil. tauto.
Qed.

Lemma StronglySorted_desc_ext {A : Type} (key key' : A -> Z) (l : list A) :
  (forall e, key e = key' e) ->
  StronglySorted (desc key) l -> StronglySorted (desc key') l.
Proof.
  intros Hext. induction 1 as [|x rest Hs IH Hall]; constructor;
    [exact IH|].
  eapply Forall_impl; [exact Hall|].
  unfold desc. intros y Hy. rewrite <- !Hext. exact Hy.
Qed.

Lemma filter_key_ext {A : Type} (key key' : A -> Z) (v : Z) (l : list A) :
  (forall e, key e = key' e) ->
  List.filter (fun e => key e =? v) l = List.filter (fun e => key' e =? v) l.
Proof.
  intros Hext. apply List.filter_ext. intros e. rewrite Hext. reflexivity.
Qed.

(** C8: for each of the words "money", "level" and "online" the
    leaderboard ranks all records by that metric, and for any other word
    by money, in descending order, entries of equal value in the iteration
    order of the store (the ranking is the one list with these
    properties), and keeps the first 10 at most; the command leaves
    [user_data] as it is. When the command is admitted and every user of
    the ranking can be fetched, its fields are the entries of this
    ranking, numbered by rank, under the names fetched, each with the
    number its record holds when its turn in the loop comes. *)
Theorem leaderboard_ranking (now : Q) (fetch_user : string -> option string)
    (live : nat -> string -> User -> User)
    (author : Z) (category : string) (b : Bot) :
  let ud := user_data b in
  let key := fun e : string * User => metric category (snd e) in
  let sorted := top_users category ud in
  let ranking := take leaderboard_limit sorted in
  Permutation sorted ud
  /\ StronglySorted (desc key) sorted
  /\ (forall v, List.filter (fun e => key e =? v) sorted
                = List.filter (fun e => key e =? v) ud)
  /\ (forall l, StronglySorted (desc key) l ->
                (forall v, List.filter (fun e => key e =? v) l
                           = List.filter (fun e => key e =? v) ud) ->
                l = sorted)
  /\ (length ranking <= leaderboard_limit)%nat
  /\ leaderboard_limit = 10%nat
  /\ user_data (fst (leaderboard now fetch_user live author category b)) = ud
  /\ (fst (is_rate_limited now author 10%Q (user_last_command b)) = false ->
      exists fields,
        snd (leaderboard now fetch_user live author category b)
          = Returned (LeaderboardEmbed fields)
        /\ (length fields <= leaderboard_limit)%nat
        /\ (Forall (fun e => is_Some (fetch_user (fst e))) ranking ->
            map (fun f => fst (fst f)) fields = seq 1 (length ranking)
            /\ map (fun f => Some (snd (fst f))) fields
               = map (fun e => fetch_user (fst e)) ranking
            /\ map snd fields
               = imap (fun i e => shown_metric category
                                    (live i (fst e) (snd e))) ranking)).
Proof using Type.
  drop_unused.
  intros ud key sorted ranking.
  set (key0 := sort_key (effective_category category)).
  assert (Hext : forall e, key0 e = key e)
    by (intros e; apply sort_key_metric).
  assert (Hlen : (length ranking <= leaderboard_limit)%nat).
  { unfold ranking. rewrite length_take. lia. }
  split; [apply sorted_reverse_perm|].
  split; [apply (StronglySorted_desc_ext key0 key _ Hext),
            sorted_reverse_sorted|].
  split.
  { intros v. rewrite <- !(filter_key_ext key0 key v _ Hext).
    apply sorted_reverse_stable. }
  split.
  { intros l Hl Hf. apply (stable_desc_sort_unique key0).
    - apply (StronglySorted_desc_ext key key0); [|exact Hl].
      intros e. symmetry. apply Hext.
    - apply sorted_reverse_sorted.
    - intros v. rewrite (filter_key_ext key0 key v l Hext), Hf.
      rewrite <- (filter_key_ext key0 key v ud Hext).
      symmetry. apply sorted_reverse_stable. }
  split; [exact Hlen|]. split; [reflexivity|].
  unfold leaderboard.
  destruct (is_rate_limited now author 10%Q (user_last_command b))
    as [limited ulc].
  cbn [fst]. destruct limited; cbn [fst snd user_data with_last_command].
  - split; [reflexivity|discriminate].
  - split; [reflexivity|]. intros _. eexists. split; [reflexivity|].
    fold ud. fold sorted. fold ranking.
    split.
    + etransitivity; [apply board_fields_length|exact Hlen].
    + intros Hall.
      destruct (board_fields_fetched fetch_user live
                  (effective_category category) 0 ranking Hall)
        as (Hranks & Hnames & Hvalues).
      split; [exact Hranks|]. split; [exact Hnames|].
      rewrite Hvalues. apply imap_ext. intros i e _. cbn.
      apply shown_value_metric.
Qed.

(** *** The snapshot loader *)

Lemma path_exists_Some (p : string) (d : Disk) (bytes : list Byte.byte) :
  stat_fails d = false ->
  files d !! p = Some bytes -> path_exists p d = Returned true.
Proof.
  intros Hstat H. unfold path_exists. rewrite Hstat. f_equal.
  apply bool_decide_eq_true_2. eauto.
Qed.

Lemma path_exists_None (p : string) (d : Disk) :
  stat_fails d = false ->
  files d !! p = None -> path_exists p d = Returned false.
Proof.
  intros Hstat H. unfold path_exists. rewrite Hstat. f_equal.
  apply bool_decide_eq_false_2.
  rewrite H. intros [x Hx]. discriminate.
Qed.

(** A file that opens, or one that is renamed, can be looked up. *)
Lemma open_fails_stat (d : Disk) :
  open_fails d = false -> stat_fails d = false.
Proof. unfold open_fails. destruct (stat_fails d); [discriminate|auto]. Qed.

Lemma rename_fails_stat (d : Disk) :
  rename_fails d = false -> stat_fails d = false.
Proof. unfold rename_fails. destruct (stat_fails d); [discriminate|auto]. Qed.

(** What [load_data] does with a snapshot that is there and cannot be
    opened or decoded, when the path can be looked up. *)
Lemma load_data_bad (now : Q) (d : Disk) (bytes : list Byte.byte) :
  stat_fails d = false ->
  files d !! DATA_FILE = Some bytes ->
  open_fails d = true \/ json_load bytes = JsonError
  \/ json_load bytes = JsonUnsized ->
  load_data now d
  = (match path_rename DATA_FILE (quarantine_file now) d with
     | Returned d' => d'
     | Raised _ => d
     end, Returned (LoadedDict [])).
Proof.
  intros Hstat Hfile Hbad. unfold load_data.
  rewrite (path_exists_Some _ _ _ Hstat Hfile), Hfile.
  cbn [default from_option id].
  assert (Hhandler :
            match path_rename DATA_FILE (quarantine_file now) d with
            | Returned d' => (d', Returned (LoadedDict []))
            | Raised _ => (d, Returned (LoadedDict []))
            end
            = (match path_rename DATA_FILE (quarantine_file now) d with
               | Returned d' => d'
               | Raised _ => d
               end, Returned (LoadedDict [])))
    by (destruct (path_rename _ _ _); reflexivity).
  destruct Hbad as [Hopen|[Hjson|Hjson]].
  - rewrite Hopen. exact Hhandler.
  - rewrite Hjson. destruct (open_fails d); exact Hhandler.
  - rewrite Hjson. destruct (open_fails d); exact Hhandler.
Qed.

(** When the path of the snapshot cannot be looked up, the second
    [DATA_FILE.exists()], in the handler, raises again and nothing
    catches it: [load_data] raises and the disk is as it was. *)
Lemma load_data_lookup_refused (now : Q) (d : Disk) :
  stat_fails d = true -> load_data now d = (d, Raised PermissionError).
Proof.
  intros Hstat. unfold load_data, path_exists. rewrite Hstat. reflexivity.
Qed.

Lemma append_length (s1 s2 : string) :
  String.length (s1 +:+ s2) = (String.length s1 + String.length s2)%nat.
Proof. induction s1; simpl; [reflexivity|]. rewrite IHs1. reflexivity. Qed.

Lemma append_cancel_r (t s1 s2 : string) :
  s1 +:+ t = s2 +:+ t -> s1 = s2.
Proof.
  revert s2. induction s1 as [|c s1 IH]; intros [|c' s2] H.
  - reflexivity.
  - apply (f_equal String.length) in H.
    rewrite !append_length in H. simpl in H. lia.
  - apply (f_equal String.length) in H.
    rewrite !append_length in H. simpl in H. lia.
  - change (String c (s1 +:+ t) = String c' (s2 +:+ t)) in H.
    injection H as -> H. f_equal. apply IH, H.
Qed.

(** Two quarantine names are the same only within one second. *)
Lemma quarantine_file_inj (now now' : Q) :
  quarantine_file now = quarantine_file now' ->
  int_of_float now = int_of_float now'.
Proof.
  unfold quarantine_file. simpl. intros H. injection H as H.
  change (str (int_of_float now) +:+ ".json"
          = str (int_of_float now') +:+ ".json") in H.
  apply append_cancel_r in H.
  apply (inj pretty) in H. exact H.
Qed.

Lemma quarantine_file_fresh (now : Q) : quarantine_file now <> DATA_FILE.
Proof.
  unfold quarantine_file, DATA_FILE. simpl. discriminate.
Qed.

(** C7, as amended: when the path of the snapshot can be looked up,
    [load_data] does not raise; with no snapshot it gives the empty store;
    with a snapshot that cannot be opened or decoded it gives the empty
    store, and the snapshot is moved, bytes unchanged, to the file named
    after the current whole second (one name per second) when the rename
    goes through, and is left where it is when the rename fails. *)
Theorem load_data_quarantine (now : Q) (d : Disk) :
  stat_fails d = false ->
  (exists v, snd (load_data now d) = Returned v)
  /\ (files d !! DATA_FILE = None ->
      load_data now d = (d, Returned (LoadedDict [])))
  /\ (forall bytes,
        files d !! DATA_FILE = Some bytes ->
        open_fails d = true \/ json_load bytes = JsonError ->
        snd (load_data now d) = Returned (LoadedDict [])
        /\ (rename_fails d = false ->
            files (fst (load_data now d)) !! quarantine_file now = Some bytes
            /\ files (fst (load_data now d)) !! DATA_FILE = None)
        /\ (rename_fails d = true -> fst (load_data now d) = d))
  /\ (forall now', quarantine_file now = quarantine_file now' ->
                   int_of_float now = int_of_float now').
Proof.
  intros Hstat.
  split; [|split; [|split; [|apply quarantine_file_inj]]].
  - destruct (files d !! DATA_FILE) as [bytes|] eqn:Hfile.
    + unfold load_data. rewrite (path_exists_Some _ _ _ Hstat Hfile).
      destruct (open_fails d); [|destruct (json_load _)];
        try (cbn [snd]; eauto; fail);
        destruct (path_rename _ _ _); cbn [snd]; eauto.
    + unfold load_data. rewrite (path_exists_None _ _ Hstat Hfile).
      cbn [snd]. eauto.
  - intros Hnone. unfold load_data.
    rewrite (path_exists_None _ _ Hstat Hnone). reflexivity.
  - intros bytes Hfile Hbad.
    assert (Hbad' : open_fails d = true \/ json_load bytes = JsonError
                    \/ json_load bytes = JsonUnsized)
      by (destruct Hbad as [H|H]; [left|right; left]; exact H).
    rewrite (load_data_bad now d bytes Hstat Hfile Hbad').
    cbn [fst snd]. unfold path_rename. rewrite Hfile.
    split; [reflexivity|]. split; intros Hrn; rewrite Hrn.
    + cbn [files with_files]. split.
      * apply lookup_insert_eq.
      * rewrite lookup_insert_ne by apply quarantine_file_fresh.
        apply lookup_delete_eq.
    + reflexivity.
Qed.

(** ** More properties of the engine *)

(** *** Making sure of a record *)

Lemma ud_lookup_None (uid : string) (ud : Store) :
  ud_lookup uid ud = None <-> ~ In uid (map fst ud).
Proof using Type.
  drop_unused.
  induction ud as [|[k v] rest IH]; simpl; [tauto|].
  destruct (String.eqb_spec k uid) as [->|Hne].
  - split; [discriminate|]. intros H. exfalso. apply H. left. reflexivity.
  - rewrite IH. tauto.
Qed.

Lemma ud_store_keys (uid : string) (u : User) (ud : Store) :
  map fst (ud_store uid u ud) = map fst ud.
Proof using Type.
  drop_unused.
  induction ud as [|[k v] rest IH]; simpl; [reflexivity|].
  destruct (String.eqb k uid); simpl; [reflexivity|]. rewrite IH. reflexivity.
Qed.

Lemma ensure_user_data_other (now : Z) (uid k : string) (ud : Store) :
  k <> uid -> ud_lookup k (fst (ensure_user_data now uid ud)) = ud_lookup k ud.
Proof using Type.
  drop_unused.
  intros Hne. unfold ensure_user_data. destruct (ud_lookup uid ud); simpl;
    [reflexivity|].
  rewrite ud_lookup_app. destruct (ud_lookup k ud); [reflexivity|]. simpl.
  destruct (String.eqb_spec uid k); [congruence|reflexivity].
Qed.

(** X1: making sure of a record a second time, at any time, gives the
    store and the record of the first time; a record that exists is given
    as it is; the records of the other identifiers are not touched. *)
Theorem ensure_user_data_idempotent (now now' : Z) (uid : string) (ud : Store) :
  let ud1 := fst (ensure_user_data now uid ud) in
  let u := snd (ensure_user_data now uid ud) in
  ensure_user_data now' uid ud1 = (ud1, u)
  /\ (forall u0, ud_lookup uid ud = Some u0 -> ud1 = ud /\ u = u0)
  /\ (forall k, k <> uid -> ud_lookup k ud1 = ud_lookup k ud).
Proof using Type.
  drop_unused.
  intros ud1 u. split; [|split].
  - apply ensure_user_data_present.
    apply (ensure_user_data_lookup now uid ud). unfold ud1, u.
    destruct (ensure_user_data now uid ud); reflexivity.
  - intros u0 H0. unfold ud1, u. rewrite (ensure_user_data_present _ _ _ _ H0).
    split; reflexivity.
  - intros k Hk. apply ensure_user_data_other, Hk.
Qed.

(** X2: in a store with one entry per identifier, making sure of a record
    keeps one entry per identifier, keeps the entries that exist in their
    order, and adds at most one entry, at the end. *)
Theorem ensure_user_data_appends (now : Z) (uid : string) (ud : Store) :
  NoDup (map fst ud) ->
  let ud1 := fst (ensure_user_data now uid ud) in
  NoDup (map fst ud1)
  /\ (ud1 = ud \/ ud1 = ud ++ [(uid, new_user now)])
  /\ (ud1 = ud <-> In uid (map fst ud)).
Proof using Type.
  drop_unused.
  intros Hnd ud1. unfold ud1, ensure_user_data.
  destruct (ud_lookup uid ud) as [u|] eqn:E; cbn [fst].
  - split; [exact Hnd|]. split; [left; reflexivity|].
    split; [intros _|reflexivity].
    destruct (in_dec String.string_dec uid (map fst ud)) as [Hin|Hout];
      [exact Hin|].
    apply ud_lookup_None in Hout. congruence.
  - apply ud_lookup_None in E.
    split.
    + rewrite map_app. cbn [map fst]. apply NoDup_app. split; [exact Hnd|].
      split; [|apply NoDup_singleton].
      intros x Hx Hx'. apply list_elem_of_In in Hx.
      apply list_elem_of_singleton in Hx'. subst x. contradiction.
    + split; [right; reflexivity|]. split; [|contradiction].
      intros H. apply (f_equal (@length _)) in H. rewrite length_app in H.
      simpl in H. lia.
Qed.

(** *** The rate limiter over several calls *)

Lemma is_rate_limited_decision (now : Q) (k : Z) (c : Q) (m : gmap Z Q) :
  fst (is_rate_limited now k c m) = float_ltb (now - stored_timestamp m k) c.
Proof using Type.
  drop_unused.
  unfold is_rate_limited.
  pose proof (dd_getitem_value m k) as Hv.
  destruct (dd_getitem m k) as [last d]. cbn [fst] in Hv. subst last.
  destruct (float_ltb _ c); reflexivity.
Qed.

Lemma is_rate_limited_stored (now : Q) (k j : Z) (c : Q) (m : gmap Z Q) :
  stored_timestamp (snd (is_rate_limited now k c m)) j
  = if decide (j = k)
    then (if fst (is_rate_limited now k c m)
          then stored_timestamp m k else now)
    else stored_timestamp m j.
Proof using Type.
  drop_unused.
  unfold is_rate_limited.
  pose proof (dd_getitem_stored m k) as Hs.
  destruct (dd_getitem m k) as [last d]. cbn [snd] in Hs.
  destruct (float_ltb _ c); cbn [fst snd].
  - rewrite Hs. destruct (decide (j = k)) as [->|]; reflexivity.
  - unfold stored_timestamp at 1. destruct (decide (j = k)) as [->|Hne].
    + rewrite lookup_insert_eq. reflexivity.
    + rewrite lookup_insert_ne by congruence. apply Hs.
Qed.

(** X3: after an admitted call at time [t], a call at time [t'] is turned
    away exactly when less than its cooldown has passed since [t]; and a
    call that is turned away changes no later decision: being turned away
    does not make the wait longer. *)
Theorem is_rate_limited_window (t t' : Q) (k : Z) (c c' : Q) (m : gmap Z Q) :
  fst (is_rate_limited t k c m) = false ->
  let m1 := snd (is_rate_limited t k c m) in
  (fst (is_rate_limited t' k c' m1) = true <-> (t' - t < c')%Q)
  /\ (fst (is_rate_limited t' k c' m1) = true ->
      forall t'' c'',
        fst (is_rate_limited t'' k c'' (snd (is_rate_limited t' k c' m1)))
        = fst (is_rate_limited t'' k c'' m1)).
Proof using Type.
  drop_unused.
  intros Hadm m1.
  assert (Hst : stored_timestamp m1 k = t).
  { unfold m1. rewrite is_rate_limited_stored, Hadm.
    destruct (decide (k = k)); [reflexivity|congruence]. }
  split.
  - rewrite is_rate_limited_decision, Hst. apply float_ltb_true.
  - intros Hrej t'' c''. rewrite !is_rate_limited_decision.
    rewrite is_rate_limited_stored, Hrej.
    destruct (decide (k = k)); [reflexivity|congruence].
Qed.

(** X4: a call made for one identifier changes no decision for another
    identifier. *)
Theorem is_rate_limited_per_identifier (t t' : Q) (j k : Z) (c c' : Q)
    (m : gmap Z Q) :
  j <> k ->
  fst (is_rate_limited t' k c' (snd (is_rate_limited t j c m)))
  = fst (is_rate_limited t' k c' m).
Proof using Type.
  drop_unused.
  intros Hne. rewrite !is_rate_limited_decision, is_rate_limited_stored.
  destruct (decide (k = j)); [congruence|reflexivity].
Qed.

(** *** More on the daily reward *)

(** X5: on a record with level at least 1 and exp under the threshold of
    its level, a granted claim leaves exp under the threshold of the new
    level, so the one check of the command misses no level-up; the level
    goes up by one at most and never down. *)
Theorem daily_claim_single_check (now_store : Z) (u : User) :
  1 <= level u ->
  0 <= exp u < level u * 100 ->
  let u' := fst (daily_claim now_store u) in
  0 <= exp u' < level u' * 100
  /\ level u <= level u' <= level u + 1
  /\ (level u' = level u + 1 <-> level u * 100 <= exp u + 25).
Proof using Type.
  drop_unused.
  intros Hl He u'.
  pose proof (daily_claim_fields now_store u) as F. cbv zeta in F.
  fold u' in F. destruct F as (_ & _ & _ & _ & _ & _ & _ & Hstay & Hup).
  destruct (Z.lt_ge_cases (exp u + 25) (level u * 100)) as [Hlt|Hge].
  - destruct (Hstay Hlt) as (-> & -> & _). lia.
  - destruct (Hup Hge) as (-> & -> & _). lia.
Qed.

Lemma td_seconds_range (td : Z) : 0 <= td_seconds td < 86400.
Proof using Type. drop_unused. unfold td_seconds. apply Z.mod_pos_bound. lia. Qed.

(** X6: the answer "already claimed" names between 0 and 23 hours and
    between 0 and 59 minutes; when the claim on record is less than 24
    hours old at the time the answer is built, these are the whole hours
    and minutes of the time left until 24 hours have passed. *)
Theorem daily_gate_time_left (now_check now_msg : Z) (u : User) (t : Z) :
  stored_time (last_daily u) (Some t) ->
  now_check - t < timedelta_days 1 ->
  exists hours minutes,
    daily_gate now_check now_msg u
      = Returned (Some (AlreadyClaimed hours minutes))
    /\ 0 <= hours < 24 /\ 0 <= minutes < 60
    /\ (0 < now_msg - t <= timedelta_days 1 ->
        let remaining := (timedelta_days 1 - (now_msg - t)) / MICRO in
        hours * 3600 + minutes * 60 <= remaining
          < hours * 3600 + minutes * 60 + 60).
Proof using Type.
  drop_unused.
  intros Hv Hlt. unfold stored_time in Hv.
  destruct (last_daily u) as [s|] eqn:Hld; [|contradiction].
  destruct Hv as [Hs Hiso].
  unfold daily_gate. rewrite Hld, (truthy_Some s Hs).
  cbn [default from_option id]. rewrite Hiso.
  destruct (Z.ltb_spec (now_check - t) (timedelta_days 1)); [|lia].
  do 2 eexists. split; [reflexivity|].
  pose proof (td_seconds_range (timedelta_days 1 - (now_msg - t))) as Hr.
  set (sec := td_seconds (timedelta_days 1 - (now_msg - t))) in *.
  assert (Hm : 0 <= sec mod 3600 < 3600) by (apply Z.mod_pos_bound; lia).
  split; [split; [apply Z.div_pos; lia|apply Z.div_lt_upper_bound; lia]|].
  split; [split; [apply Z.div_pos; lia|apply Z.div_lt_upper_bound; lia]|].
  intros Hel.
  set (remaining := (timedelta_days 1 - (now_msg - t)) / MICRO).
  assert (Hsec : sec = remaining).
  { unfold sec, td_seconds, remaining. apply Z.mod_small.
    unfold timedelta_days, MICRO in *. split.
    - apply Z.div_pos; lia.
    - apply Z.div_lt_upper_bound; lia. }
  rewrite <- Hsec.
  pose proof (Z.div_mod sec 3600 ltac:(lia)) as D1.
  pose proof (Z.div_mod (sec mod 3600) 60 ltac:(lia)) as D2.
  assert (0 <= (sec mod 3600) mod 60 < 60) by (apply Z.mod_pos_bound; lia).
  lia.
Qed.

(** X7: when [last_daily] reads as a time without a UTC offset, the
    command fails with a [TypeError] and pays nothing: the store is the one
    [ensure_user_data] gave, with the record as it was. *)
Theorem daily_reward_naive_last_daily
    (now_join now_check now_msg now_store author : Z)
    (b : Bot) (ud : Store) (u : User) (s : string) :
  ensure_user_data now_join (str author) (user_data b) = (ud, u) ->
  last_daily u = Some s ->
  s <> EmptyString ->
  fromisoformat s = IsoNaive ->
  daily_reward now_join now_check now_msg now_store author b
    = (with_user_data ud b, Raised TypeError)
  /\ ud_lookup (str author) ud = Some u.
Proof using Type.
  drop_unused.
  intros Hens Hld Hs Hiso. split; [|eapply ensure_user_data_lookup, Hens].
  unfold daily_reward. rewrite Hens. unfold daily_gate.
  rewrite Hld, (truthy_Some s Hs). cbn [default from_option id].
  rewrite Hiso. reflexivity.
Qed.

(** *** The weighted selection *)

Lemma total_weight_cons (it : string) (w : Z) (items : list (string * Z)) :
  total_weight ((it, w) :: items) = w + total_weight items.
Proof using Type. drop_unused. reflexivity. Qed.

Lemma total_weight_nonneg (items : list (string * Z)) :
  Forall (fun e => 0 <= snd e) items -> 0 <= total_weight items.
Proof using Type.
  drop_unused.
  induction 1 as [|[it w] rest Hw _ IH]; [reflexivity|].
  rewrite total_weight_cons. simpl in Hw. lia.
Qed.

Lemma select_item_interval (items : list (string * Z)) (it : string) :
  Forall (fun e => 0 <= snd e) items ->
  forall r cw,
    cw < r ->
    (select_item items r cw = Some it <->
     exists pre w post,
       items = pre ++ (it, w) :: post
       /\ cw + total_weight pre < r <= cw + total_weight pre + w).
Proof using Type.
  drop_unused.
  induction 1 as [|[i w0] rest Hw Hrest IH]; intros r cw Hlo.
  - split; [discriminate|]. intros (pre & w & post & H & _).
    destruct pre; discriminate.
  - cbn [select_item]. simpl in Hw.
    destruct (Z.leb_spec r (cw + w0)) as [Hle|Hgt].
    + split.
      * intros [= ->]. exists [], w0, rest. cbn. split; [reflexivity|lia].
      * intros (pre & w & post & Heq & Hr).
        destruct pre as [|[i' w'] pre'].
        -- cbn in Heq. injection Heq as -> _ _. reflexivity.
        -- cbn [app] in Heq. injection Heq as -> -> Hrest'.
           rewrite total_weight_cons in Hr.
           assert (0 <= total_weight pre').
           { apply total_weight_nonneg. rewrite Hrest' in Hrest.
             apply Forall_app in Hrest. apply Hrest. }
           lia.
    + rewrite (IH r (cw + w0) Hgt). split.
      * intros (pre & w & post & -> & Hr).
        exists ((i, w0) :: pre), w, post. rewrite total_weight_cons.
        split; [reflexivity|lia].
      * intros (pre & w & post & Heq & Hr).
        destruct pre as [|[i' w'] pre'].
        -- cbn in Heq, Hr. injection Heq as _ -> _. lia.
        -- cbn [app] in Heq. injection Heq as -> -> ->.
           rewrite total_weight_cons in Hr.
           exists pre', w, post. split; [reflexivity|lia].
Qed.

(** X8: with weights that are not negative, a draw of at least 1 selects
    the first entry of the table whose cumulative weight reaches the draw:
    the entry that follows the entries of total weight under the draw. *)
Theorem select_item_first_match (items : list (string * Z)) (r : Z)
    (it : string) :
  Forall (fun e => 0 <= snd e) items ->
  1 <= r ->
  (select_item items r 0 = Some it <->
   exists pre w post,
     items = pre ++ (it, w) :: post
     /\ total_weight pre < r <= total_weight pre + w).
Proof using Type.
  drop_unused.
  intros Hw Hr. apply (select_item_interval items it Hw r 0). lia.
Qed.

(** The draws above [cw], as many as the weight of the table, that give
    [label] when the walk starts from [cw]. *)
Lemma draws_from_count (label : string) (items : list (string * Z)) :
  Forall (fun e => 0 <= snd e) items ->
  forall cw,
    Z.of_nat
      (length
         (List.filter
            (fun r => match select_item items r cw with
                      | Some it => String.eqb it label
                      | None => false
                      end)
            (seqZ (cw + 1) (total_weight items))))
    = weight_of label items.
Proof using Type.
  drop_unused.
  induction 1 as [|[i w] rest Hw Hrest IH]; intros cw; [reflexivity|].
  simpl in Hw. pose proof (total_weight_nonneg rest Hrest) as HT.
  rewrite total_weight_cons, seqZ_app by lia.
  rewrite List.filter_app, length_app, Nat2Z.inj_add.
  cbn [weight_of foldr fst snd]. fold (weight_of label rest).
  rewrite (List.filter_ext_in _ (fun _ => String.eqb i label)).
  2:{ intros r Hin. apply list_elem_of_In, elem_of_seqZ in Hin.
      cbn [select_item]. destruct (Z.leb_spec r (cw + w)); [reflexivity|lia]. }
  rewrite (List.filter_ext_in _
             (fun r => match select_item rest r (cw + w) with
                       | Some it => String.eqb it label
                       | None => false
                       end) (seqZ (cw + 1 + w) (total_weight rest))).
  2:{ intros r Hin. apply list_elem_of_In, elem_of_seqZ in Hin.
      cbn [select_item]. destruct (Z.leb_spec r (cw + w)); [lia|reflexivity]. }
  replace (cw + 1 + w) with (cw + w + 1) by lia. rewrite IH.
  destruct (String.eqb i label).
  - rewrite List.forallb_filter_id.
    + rewrite length_seqZ. lia.
    + apply forallb_forall. reflexivity.
  - assert (E : List.filter (fun _ : Z => false) (seqZ (cw + 1) w) = []).
    { induction (seqZ (cw + 1) w); [reflexivity|exact IHl]. }
    rewrite E. reflexivity.
Qed.

(** X9: with weights that are not negative, the number of draws between
    1 and the total weight that select a label is the weight the table
    gives to that label: every entry is drawn in proportion to its
    weight. *)
Theorem select_item_counts (label : string) (items : list (string * Z)) :
  Forall (fun e => 0 <= snd e) items ->
  Z.of_nat (length (draws_giving label items)) = weight_of label items.
Proof using Type.
  drop_unused.
  intros Hw. exact (draws_from_count label items Hw 0).
Qed.

(** *** Stored times that do not read as an instant *)

(** X10: when [last_online] is a text that cannot be parsed, an admitted
    profile command shows the time of [total_online] alone, as for a user
    with no session in progress, and raises nothing. *)
Theorem check_profile_unparseable_session (now : Q)
    (now_join now_dt author : Z) (member : option Z) (b : Bot)
    (ulc : gmap Z Q) (ud : Store) (u : User) (s : string) :
  is_rate_limited now author default_cooldown (user_last_command b)
    = (false, ulc) ->
  ensure_user_data now_join (str (default author member)) (user_data b)
    = (ud, u) ->
  last_online u = Some s ->
  fromisoformat s = IsoValueError ->
  exists b' status money_shown level_shown usage items more,
    check_profile now now_join now_dt author member b
      = (b', Returned (ProfileEmbed status money_shown level_shown
                         (total_online u / 3600)
                         (total_online u mod 3600 / 60)
                         usage items more)).
Proof using Type.
  drop_unused.
  intros Hrl Hens Hlo Hiso.
  unfold check_profile. rewrite Hrl. cbn [user_data with_last_command].
  rewrite Hens. unfold profile_read, profile_seconds, since. user_simpl.
  rewrite Hlo. cbn [default from_option id]. rewrite Hiso.
  destruct (truthy (Some s)); do 7 eexists; reflexivity.
Qed.

(** X11: when [last_online] reads as a time without a UTC offset, an
    admitted profile command fails with a [TypeError] and shows nothing,
    yet the command is counted: [command_usage] of the record is one
    higher and nothing else in it has changed. *)
Theorem check_profile_naive_session (now : Q)
    (now_join now_dt author : Z) (member : option Z) (b : Bot)
    (ulc : gmap Z Q) (ud : Store) (u : User) (s : string) :
  is_rate_limited now author default_cooldown (user_last_command b)
    = (false, ulc) ->
  ensure_user_data now_join (str (default author member)) (user_data b)
    = (ud, u) ->
  last_online u = Some s ->
  s <> EmptyString ->
  fromisoformat s = IsoNaive ->
  exists b',
    check_profile now now_join now_dt author member b
      = (b', Raised TypeError)
    /\ ud_lookup (str (default author member)) (user_data b')
       = Some (set_command_usage (command_usage u + 1) u).
Proof using Type.
  drop_unused.
  intros Hrl Hens Hlo Hs Hiso.
  pose proof (ensure_user_data_lookup _ _ _ _ _ Hens) as Hl.
  unfold check_profile. rewrite Hrl. cbn [user_data with_last_command].
  rewrite Hens. unfold profile_read, profile_seconds, since. user_simpl.
  rewrite Hlo, (truthy_Some s Hs). cbn [default from_option id].
  rewrite Hiso. eexists. split; [reflexivity|].
  cbn [user_data with_user_data]. eapply ud_lookup_store_eq, Hl.
Qed.

(** X12: when [last_online] is a text that does not read as an instant
    with an offset, an event that does not bring the user online changes
    nothing: no time is added and the text stays in [last_online]. *)
Theorem presence_unreadable_session_kept (now_join now : Z)
    (before after : Status) (member_id : Z) (b : Bot) (u : User)
    (s : string) :
  ud_lookup (str member_id) (user_data b) = Some u ->
  last_online u = Some s ->
  (forall t, fromisoformat s <> IsoAware t) ->
  after <> online ->
  on_presence_update now_join now before after member_id b = b.
Proof using Type.
  drop_unused.
  intros Hl Hlo Hbad Hafter. unfold on_presence_update, presence_body.
  rewrite Hl, Hl, (status_eqb_online after Hafter), Hlo.
  rewrite andb_false_r. unfold since. cbn [default from_option id negb].
  destruct (status_eqb before online); cbn [andb fst];
    [|apply with_user_data_id].
  destruct (truthy (Some s)); [|apply with_user_data_id].
  destruct (fromisoformat s) as [t| |] eqn:E;
    [destruct (Hbad t eq_refl)|apply with_user_data_id..].
Qed.

(** *** Sessions *)

Lemma presence_body_ensures (now_join : Z) (uid : string) (ud : Store) :
  match ud_lookup uid ud with
  | None => fst (ensure_user_data now_join uid ud)
  | Some _ => ud
  end = fst (ensure_user_data now_join uid ud).
Proof using Type. drop_unused. unfold ensure_user_data. destruct (ud_lookup uid ud); reflexivity. Qed.

(** An event that brings the user online. *)
Lemma presence_online_store (now_join now : Z) (before : Status)
    (member_id : Z) (b : Bot) (ud : Store) (u : User) :
  ensure_user_data now_join (str member_id) (user_data b) = (ud, u) ->
  before <> online ->
  on_presence_update now_join now before online member_id b
  = with_user_data
      (ud_store (str member_id) (set_last_online (Some (isoformat now)) u) ud)
      b.
Proof using Type.
  drop_unused.
  intros Hens Hbefore.
  pose proof (ensure_user_data_lookup _ _ _ _ _ Hens) as Hl.
  unfold on_presence_update, presence_body.
  rewrite presence_body_ensures, Hens. cbn [fst]. rewrite Hl.
  rewrite (status_eqb_online before Hbefore). reflexivity.
Qed.

Lemma presence_online_stamps_aux (now_join now : Z) (before : Status)
    (member_id : Z) (b : Bot) (ud : Store) (u : User) :
  ensure_user_data now_join (str member_id) (user_data b) = (ud, u) ->
  before <> online ->
  let b' := on_presence_update now_join now before online member_id b in
  ud_lookup (str member_id) (user_data b')
    = Some (set_last_online (Some (isoformat now)) u)
  /\ user_last_command b' = user_last_command b.
Proof using Type.
  drop_unused.
  intros Hens Hbefore b'. unfold b'.
  rewrite (presence_online_store _ _ _ _ _ _ _ Hens Hbefore).
  split; [|reflexivity]. cbn [user_data with_user_data].
  eapply ud_lookup_store_eq, ensure_user_data_lookup, Hens.
Qed.

(** X13: an event that brings the user online stamps [last_online] with
    the time of the event, whatever was there before, and changes nothing
    else in the record; a session that was already on record starts anew
    from this time. *)
Theorem presence_online_stamps (now_join now : Z) (before : Status)
    (member_id : Z) (b : Bot) (ud : Store) (u : User) :
  ensure_user_data now_join (str member_id) (user_data b) = (ud, u) ->
  before <> online ->
  let b' := on_presence_update now_join now before online member_id b in
  ud_lookup (str member_id) (user_data b')
    = Some (set_last_online (Some (isoformat now)) u)
  /\ user_last_command b' = user_last_command b.
Proof using Type.
  drop_unused.
  intros Hens Hbefore.
  exact (presence_online_stamps_aux now_join now before member_id b ud u
           Hens Hbefore).
Qed.

(** X14: a user who comes online at [t0] and leaves at [t1], with the
    stamp of [t0] reading back as [t0], gains the whole seconds from [t0]
    to [t1], taken toward zero, and has no session on record afterwards;
    when [t1] is not before [t0] these are the seconds floored. *)
Theorem presence_session_accrual (now_join now_join' t0 t1 : Z)
    (before after : Status) (member_id : Z) (b : Bot) (ud : Store)
    (u : User) :
  ensure_user_data now_join (str member_id) (user_data b) = (ud, u) ->
  before <> online ->
  after <> online ->
  stored_time (Some (isoformat t0)) (Some t0) ->
  let b1 := on_presence_update now_join t0 before online member_id b in
  let b2 := on_presence_update now_join' t1 online after member_id b1 in
  ud_lookup (str member_id) (user_data b2)
    = Some (set_last_online None
              (set_total_online
                 (total_online u + int_total_seconds (t1 - t0)) u))
  /\ (t0 <= t1 -> int_total_seconds (t1 - t0) = (t1 - t0) / MICRO).
Proof using Type.
  drop_unused.
  intros Hens Hbefore Hafter Hrt b1 b2. split.
  - destruct (presence_online_stamps_aux now_join t0 before member_id b ud u
                Hens Hbefore) as [Hl1 _].
    unfold b2, b1.
    rewrite (presence_offline_folds now_join' t1 after member_id _ _ t0 Hl1);
      [reflexivity|exact Hrt|exact Hafter].
  - intros Hle. unfold int_total_seconds.
    apply Z.quot_div_nonneg; unfold MICRO; lia.
Qed.

(** X15: the profile and the presence tracker count a running session
    alike: the seconds the profile works out at [now] are the
    [total_online] the record gets if the user leaves at [now]. *)
Theorem profile_agrees_with_fold (now_join now : Z) (after : Status)
    (member_id : Z) (b : Bot) (u : User) (t0 : Z) :
  ud_lookup (str member_id) (user_data b) = Some u ->
  stored_time (last_online u) (Some t0) ->
  after <> online ->
  exists u',
    ud_lookup (str member_id)
      (user_data (on_presence_update now_join now online after member_id b))
      = Some u'
    /\ profile_seconds now u = Returned (total_online u').
Proof using Type.
  drop_unused.
  intros Hl Hv Hafter. eexists. split.
  - apply (presence_offline_folds now_join now after member_id b u t0);
      assumption.
  - rewrite (profile_seconds_stored now u (Some t0) Hv). reflexivity.
Qed.

(** *** The board that is shown *)

Lemma StronglySorted_app_inv {A : Type} (R : A -> A -> Prop) (l1 l2 : list A) :
  StronglySorted R (l1 ++ l2) ->
  StronglySorted R l1 /\ (forall x y, In x l1 -> In y l2 -> R x y).
Proof using Type.
  drop_unused.
  induction l1 as [|a l1 IH]; cbn [app]; intros H.
  - split; [constructor|]. intros x y [].
  - inversion H as [|? ? Hs Hall]; subst. destruct (IH Hs) as [IH1 IH2].
    rewrite List.Forall_forall in Hall. split.
    + constructor; [exact IH1|]. apply List.Forall_forall.
      intros x Hx. apply Hall, in_or_app. left. exact Hx.
    + intros x y [->|Hx] Hy; [|apply IH2; assumption].
      apply Hall, in_or_app. right. exact Hy.
Qed.







(** X17: cutting the ranking after 10 entries loses none of the best: no
    record left out has more of the chosen metric than a record kept. *)
Theorem leaderboard_cut_keeps_best (category : string) (ud : Store)
    (kept out : string * User) :
  In kept (take leaderboard_limit (top_users category ud)) ->
  In out (drop leaderboard_limit (top_users category ud)) ->
  sort_key (effective_category category) out
    <= sort_key (effective_category category) kept.
Proof using Type.
  drop_unused.
  intros Hk Ho.
  pose proof (sorted_reverse_sorted (sort_key (effective_category category)) ud)
    as H.
  change (StronglySorted (desc (sort_key (effective_category category)))
            (top_users category ud)) in H.
  rewrite <- (take_drop leaderboard_limit (top_users category ud)) in H.
  apply StronglySorted_app_inv in H. destruct H as [_ H].
  exact (H kept out Hk Ho).
Qed.

(** *** Loading, once more *)

Lemma load_data_cases (now : Q) (d : Disk) :
  load_data now d = (d, snd (load_data now d))
  \/ exists bytes,
       files d !! DATA_FILE = Some bytes
       /\ rename_fails d = false
       /\ load_data now d
          = (with_files (<[quarantine_file now := bytes]>
                           (delete DATA_FILE (files d))) d,
             Returned (LoadedDict [])).
Proof using Type.
  drop_unused.
  destruct (stat_fails d) eqn:Hstat;
    [left; rewrite (load_data_lookup_refused now d Hstat); reflexivity|].
  unfold load_data.
  destruct (files d !! DATA_FILE) as [bytes|] eqn:Hfile.
  - rewrite (path_exists_Some _ _ _ Hstat Hfile). unfold path_rename.
    rewrite Hfile. cbn [default from_option id].
    destruct (rename_fails d) eqn:Hrn.
    + left. destruct (open_fails d); [reflexivity|].
      destruct (json_load bytes); reflexivity.
    + destruct (open_fails d); [right; eauto|].
      destruct (json_load bytes); [left; reflexivity..|right; eauto|right; eauto].
  - rewrite (path_exists_None _ _ Hstat Hfile). left. reflexivity.
Qed.

(** X18: all that [load_data] can change on the disk: either the disk is
    left as it is, or the snapshot has left its place and its bytes are,
    unchanged, in the quarantine file of the current second, in place of
    what a file of that name held before; no other file is touched. So
    when no file of that name is there yet, whatever a file held before
    the load some file holds after it. *)
Theorem load_data_moves_snapshot_only (now : Q) (d : Disk) :
  let d' := fst (load_data now d) in
  (d' = d
   \/ exists bytes,
        files d !! DATA_FILE = Some bytes
        /\ files d' !! DATA_FILE = None
        /\ files d' !! quarantine_file now = Some bytes)
  /\ (forall p,
        p <> DATA_FILE -> p <> quarantine_file now ->
        files d' !! p = files d !! p)
  /\ (files d !! quarantine_file now = None ->
      forall p bytes,
        files d !! p = Some bytes -> exists p', files d' !! p' = Some bytes).
Proof using Type.
  drop_unused.
  intros d'. unfold d'.
  destruct (load_data_cases now d) as [->|(bytes & Hfile & _ & ->)];
    cbn [fst files with_files].
  - split; [left; reflexivity|]. split; [reflexivity|]. eauto.
  - split; [|split].
    + right. exists bytes. split; [exact Hfile|]. split.
      * rewrite lookup_insert_ne by apply quarantine_file_fresh.
        apply lookup_delete_eq.
      * apply lookup_insert_eq.
    + intros p Hp Hq. rewrite lookup_insert_ne by congruence.
      apply lookup_delete_ne. congruence.
    + intros Hfree p c Hp.
      destruct (decide (p = DATA_FILE)) as [->|Hne].
      * exists (quarantine_file now). rewrite Hfile in Hp.
        injection Hp as <-. apply lookup_insert_eq.
      * exists p. rewrite lookup_insert_ne by congruence.
        rewrite lookup_delete_ne by congruence. exact Hp.
Qed.

(** X19: a snapshot that opens and decodes is judged by its value alone:
    a dict is handed to the caller as the store, and so is any other value
    that has a length, with the disk left as it is; a value without a
    length is taken for a corrupt file: the store is empty and the
    snapshot goes to quarantine when the rename is not refused. *)
Theorem load_data_by_value (now : Q) (d : Disk) (bytes : list Byte.byte) :
  files d !! DATA_FILE = Some bytes ->
  open_fails d = false ->
  match json_load bytes with
  | JsonDict data => load_data now d = (d, Returned (LoadedDict data))
  | JsonSized => load_data now d = (d, Returned LoadedOther)
  | JsonUnsized | JsonError =>
      snd (load_data now d) = Returned (LoadedDict [])
      /\ (rename_fails d = false ->
          files (fst (load_data now d)) !! quarantine_file now = Some bytes
          /\ files (fst (load_data now d)) !! DATA_FILE = None)
  end.
Proof using Type.
  drop_unused.
  intros Hfile Hopen.
  pose proof (open_fails_stat d Hopen) as Hstat. unfold load_data.
  rewrite (path_exists_Some _ _ _ Hstat Hfile), Hfile, Hopen.
  cbn [default from_option id]. unfold path_rename. rewrite Hfile.
  destruct (json_load bytes); try reflexivity;
    (split; [destruct (rename_fails d); reflexivity|]);
    intros ->; cbn [fst files with_files];
    (split; [apply lookup_insert_eq|]);
    (rewrite lookup_insert_ne by apply quarantine_file_fresh);
    apply lookup_delete_eq.
Qed.

(** X20: once a load has moved the snapshot to quarantine, a further load,
    at any time, finds no snapshot: it gives the empty store and leaves
    the disk, the quarantine file included, as it is. *)
Theorem load_data_after_quarantine (now now' : Q) (d : Disk)
    (bytes : list Byte.byte) :
  files d !! DATA_FILE = Some bytes ->
  open_fails d = true \/ json_load bytes = JsonError ->
  rename_fails d = false ->
  let d1 := fst (load_data now d) in
  load_data now' d1 = (d1, Returned (LoadedDict []))
  /\ files d1 !! quarantine_file now = Some bytes.
Proof using Type.
  drop_unused.
  intros Hfile Hbad Hrn d1.
  pose proof (rename_fails_stat d Hrn) as Hstat.
  assert (Hd1 : d1 = with_files (<[quarantine_file now := bytes]>
                                   (delete DATA_FILE (files d))) d).
  { unfold d1. rewrite (load_data_bad now d bytes Hstat Hfile) by tauto.
    unfold path_rename. rewrite Hfile, Hrn. reflexivity. }
  assert (Hgone : files d1 !! DATA_FILE = None).
  { rewrite Hd1. cbn [files with_files].
    rewrite lookup_insert_ne by apply quarantine_file_fresh.
    apply lookup_delete_eq. }
  assert (Hstat1 : stat_fails d1 = false) by (rewrite Hd1; exact Hstat).
  split.
  - unfold load_data. rewrite (path_exists_None _ _ Hstat1 Hgone).
    reflexivity.
  - rewrite Hd1. cbn [files with_files]. apply lookup_insert_eq.
Qed.

(** *** Saving *)

Lemma backup_file_fresh : BACKUP_FILE <> DATA_FILE.
Proof using Type. drop_unused. unfold BACKUP_FILE, DATA_FILE. discriminate. Qed.

Lemma with_file_lookup (p q : string) (bytes : list Byte.byte) (d : Disk) :
  files (with_file p bytes d) !! q
  = if decide (p = q) then Some bytes else files d !! q.
Proof using Type.
  drop_unused. unfold with_file. cbn [files with_files]. apply lookup_insert.
Qed.

Lemma write_file_other (p q : string) (content : list Byte.byte)
    (o : write_outcome) (d : Disk) :
  p <> q -> files (fst (write_file p content o d)) !! q = files d !! q.
Proof using Type.
  drop_unused.
  intros Hne. destruct o; cbn [write_file fst]; rewrite ?with_file_lookup;
    try reflexivity; destruct (decide (p = q)); congruence.
Qed.

Lemma save_backup_other (io : SaveIO) (d : Disk) (q : string) :
  q <> BACKUP_FILE ->
  files (fst (save_backup io d)) !! q = files d !! q.
Proof using Type.
  drop_unused.
  intros Hne. unfold save_backup.
  destruct (path_exists DATA_FILE d) as [[]|]; [|reflexivity..].
  destruct (open_fails d); [reflexivity|].
  destruct (recode _) as [text|], (backup_write io); cbn [fst write_file];
    rewrite ?with_file_lookup; try reflexivity;
    destruct (decide (BACKUP_FILE = q)); congruence.
Qed.

(** The backup step that goes through. *)
Lemma save_backup_done (io : SaveIO) (d : Disk) :
  open_fails d = false ->
  backup_write io = WriteDone ->
  (forall c, files d !! DATA_FILE = Some c -> is_Some (recode c)) ->
  snd (save_backup io d) = Returned tt
  /\ forall c text,
       files d !! DATA_FILE = Some c -> recode c = Some text ->
       files (fst (save_backup io d)) !! BACKUP_FILE = Some text.
Proof using Type.
  drop_unused.
  intros Hopen Hbw Htext.
  pose proof (open_fails_stat d Hopen) as Hstat. unfold save_backup.
  destruct (files d !! DATA_FILE) as [c|] eqn:Hfile.
  - rewrite (path_exists_Some _ _ _ Hstat Hfile), Hopen, Hbw.
    cbn [default from_option id].
    destruct (Htext c eq_refl) as [text Hre]. rewrite Hre.
    cbn [write_file fst snd]. split; [reflexivity|].
    intros c' text' [= <-] Hre'. rewrite with_file_lookup.
    destruct (decide (BACKUP_FILE = BACKUP_FILE)); congruence.
  - rewrite (path_exists_None _ _ Hstat Hfile). split; [reflexivity|].
    intros c text Hc. discriminate.
Qed.

(** X21: a save never loses the snapshot that was there: afterwards its
    bytes are still in place, or the backup file holds the text read from
    them; this holds whatever the operating system refuses or cuts
    short. *)
Theorem save_data_keeps_previous (io : SaveIO) (ud : Store) (d : Disk)
    (c : list Byte.byte) :
  files d !! DATA_FILE = Some c ->
  let d' := save_data io ud d in
  files d' !! DATA_FILE = Some c
  \/ exists text, recode c = Some text /\ files d' !! BACKUP_FILE = Some text.
Proof using Type.
  drop_unused.
  intros Hfile d'. unfold d', save_data.
  pose proof (save_backup_other io d DATA_FILE
                (fun H => backup_file_fresh (eq_sym H))) as Hkeep.
  destruct (save_backup io d) as [d1 r] eqn:Hb. cbn [fst] in Hkeep.
  destruct r as [[]|e]; [|left; rewrite Hkeep; exact Hfile].
  (* the backup step returned: the backup file holds the text *)
  right. revert Hb. unfold save_backup, path_exists.
  destruct (stat_fails d); [discriminate|].
  rewrite bool_decide_eq_true_2 by eauto.
  rewrite Hfile. cbn [default from_option id].
  destruct (open_fails d); [discriminate|].
  destruct (recode c) as [text|];
    destruct (backup_write io); cbn [write_file]; try discriminate.
  intros [= <-]. exists text. split; [reflexivity|].
  rewrite write_file_other
    by (intros E; exact (backup_file_fresh (eq_sym E))).
  rewrite with_file_lookup.
  destruct (decide (BACKUP_FILE = BACKUP_FILE)); congruence.
Qed.

(** X22: when the snapshot that is there cannot be opened, or the backup
    file cannot be opened for writing, the save gives up before it writes
    anything: the disk stays as it is and the store is not saved. *)
Theorem save_data_gives_up (io : SaveIO) (ud : Store) (d : Disk)
    (c : list Byte.byte) :
  files d !! DATA_FILE = Some c ->
  open_fails d = true \/ backup_write io = WriteRefused ->
  save_data io ud d = d.
Proof using Type.
  drop_unused.
  intros Hfile Hbad. unfold save_data, save_backup, path_exists.
  destruct (stat_fails d); [reflexivity|].
  rewrite bool_decide_eq_true_2 by eauto.
  destruct (open_fails d); [reflexivity|].
  destruct Hbad as [Hopen| ->]; [discriminate|reflexivity].
Qed.

Lemma save_data_done (io : SaveIO) (ud : Store) (d : Disk) :
  open_fails d = false ->
  backup_write io = WriteDone ->
  data_write io = WriteDone ->
  (forall c, files d !! DATA_FILE = Some c -> is_Some (recode c)) ->
  save_data io ud d
  = with_file DATA_FILE (json_dump ud) (fst (save_backup io d)).
Proof using Type.
  drop_unused.
  intros Hopen Hbw Hdw Htext. unfold save_data.
  destruct (save_backup_done io d Hopen Hbw Htext) as [Hr _].
  destruct (save_backup io d) as [d1 r]. cbn [snd fst] in *. subst r.
  rewrite Hdw. reflexivity.
Qed.

(** X23: a save touches the snapshot and the backup file only; when
    nothing is refused or cut short and the snapshot that is there reads
    as text, the snapshot then holds the dump of the store and the backup
    file the text of the snapshot that was there. *)
Theorem save_data_writes (io : SaveIO) (ud : Store) (d : Disk) :
  (forall p, p <> DATA_FILE -> p <> BACKUP_FILE ->
             files (save_data io ud d) !! p = files d !! p)
  /\ (open_fails d = false ->
      backup_write io = WriteDone ->
      data_write io = WriteDone ->
      (forall c, files d !! DATA_FILE = Some c -> is_Some (recode c)) ->
      files (save_data io ud d) !! DATA_FILE = Some (json_dump ud)
      /\ forall c text,
           files d !! DATA_FILE = Some c -> recode c = Some text ->
           files (save_data io ud d) !! BACKUP_FILE = Some text).
Proof using Type.
  drop_unused.
  split.
  - intros p Hd Hb. unfold save_data.
    pose proof (save_backup_other io d p Hb) as Hkeep.
    destruct (save_backup io d) as [d1 r]. cbn [fst] in Hkeep.
    destruct r; [|exact Hkeep].
    rewrite write_file_other by congruence. exact Hkeep.
  - intros Hopen Hbw Hdw Htext.
    rewrite (save_data_done io ud d Hopen Hbw Hdw Htext).
    destruct (save_backup_done io d Hopen Hbw Htext) as [_ Hbk].
    split.
    + rewrite with_file_lookup.
      destruct (decide (DATA_FILE = DATA_FILE)); congruence.
    + intros c text Hc Hre. rewrite with_file_lookup.
      destruct (decide (DATA_FILE = BACKUP_FILE)) as [E|_];
        [destruct (backup_file_fresh (eq_sym E))|].
      apply (Hbk c text Hc Hre).
Qed.

(** X24: save and load go round: after a save in which nothing is refused
    or cut short, with a dump that decodes to the store it was made from,
    a load gives that store and leaves the disk as it is. *)
Theorem save_then_load (io : SaveIO) (ud : Store) (d : Disk) (now : Q) :
  open_fails d = false ->
  backup_write io = WriteDone ->
  data_write io = WriteDone ->
  (forall c, files d !! DATA_FILE = Some c -> is_Some (recode c)) ->
  json_load (json_dump ud) = JsonDict ud ->
  load_data now (save_data io ud d)
  = (save_data io ud d, Returned (LoadedDict ud)).
Proof using Type.
  drop_unused.
  intros Hopen Hbw Hdw Htext Hrt.
  rewrite (save_data_done io ud d Hopen Hbw Hdw Htext).
  set (d1 := fst (save_backup io d)).
  assert (Hfile : files (with_file DATA_FILE (json_dump ud) d1) !! DATA_FILE
                  = Some (json_dump ud)).
  { rewrite with_file_lookup.
    destruct (decide (DATA_FILE = DATA_FILE)); congruence. }
  assert (Hop : open_fails (with_file DATA_FILE (json_dump ud) d1) = false).
  { unfold d1, save_backup.
    destruct (path_exists DATA_FILE d) as [[]|]; [|exact Hopen..].
    rewrite Hopen, Hbw.
    destruct (recode _); cbn [write_file fst]; exact Hopen. }
  unfold load_data.
  rewrite (path_exists_Some _ _ _ (open_fails_stat _ Hop) Hfile), Hfile, Hop.
  cbn [default from_option id]. rewrite Hrt. reflexivity.
Qed.

(** *** Long answers *)

Section Chunks.

Context {A : Type} (step : nat).
Hypothesis step_pos : (0 < step)%nat.

Lemma range_step_count (n : nat) :
  let m := ((n + step - 1) / step)%nat in
  (n <= m * step)%nat /\ ((0 < m)%nat -> ((m - 1) * step < n)%nat).
Proof.
  intros m.
  pose proof (Nat.Div0.mul_div_le (n + step - 1) step) as H1.
  pose proof (Nat.mul_succ_div_gt (n + step - 1) step ltac:(lia)) as H2.
  fold m in H1, H2. split; [nia|]. intros Hm. nia.
Qed.

Lemma chunks_concat (l : list A) (m : nat) :
  concat (map (fun i => take step (drop i l))
              (map (fun k => (k * step)%nat) (seq 0 m)))
  = take (m * step) l.
Proof.
  induction m as [|m IH]; [reflexivity|].
  rewrite seq_S, !map_app, concat_app, IH. cbn [map concat].
  rewrite app_nil_r, take_take_drop. f_equal. lia.
Qed.

Lemma chunks_lengths (l : list A) (m : nat) :
  ((m - 1) * step < length l \/ m = 0)%nat ->
  forall i c,
    map (fun i => take step (drop i l))
        (map (fun k => (k * step)%nat) (seq 0 m)) !! i = Some c ->
    (1 <= length c <= step)%nat
    /\ ((S i < m)%nat -> length c = step).
Proof.
  intros Hm i c Hc.
  rewrite !list_lookup_fmap in Hc.
  destruct (seq 0 m !! i) as [k|] eqn:Hk; [|discriminate].
  apply lookup_seq in Hk. destruct Hk as [-> Hi]. cbn in Hc.
  injection Hc as <-. rewrite length_take, length_drop.
  assert (i * step <= (m - 1) * step)%nat by (apply Nat.mul_le_mono_r; lia).
  split; [lia|]. intros Hlt.
  assert (S i * step <= (m - 1) * step)%nat by (apply Nat.mul_le_mono_r; lia).
  lia.
Qed.

End Chunks.

Lemma split_response_spec {A : Type} (response : list A) :
  concat (split_response response) = response
  /\ length (split_response response) = ((length response + 1899) / 1900)%nat
  /\ forall i c,
       split_response response !! i = Some c ->
       (1 <= length c <= 1900)%nat
       /\ ((S i < length (split_response response))%nat ->
           length c = 1900%nat).
Proof using Type.
  drop_unused.
  unfold split_response, range_step.
  replace (length response + 1900 - 1)%nat with (length response + 1899)%nat
    by lia.
  pose proof (range_step_count 1900 ltac:(lia) (length response)) as [Hup Hlo].
  replace (length response + 1900 - 1)%nat with (length response + 1899)%nat
    in Hup, Hlo by lia.
  set (m := ((length response + 1899) / 1900)%nat) in *.
  split; [|split].
  - rewrite chunks_concat by lia. apply take_ge. exact Hup.
  - rewrite !length_map, length_seq. reflexivity.
  - intros i c Hc. rewrite !length_map, length_seq.
    apply (chunks_lengths 1900 ltac:(lia) response m); [|exact Hc].
    destruct m; [right; reflexivity|left; apply Hlo; lia].
Qed.

(** X25: the pieces a long answer is cut into, put together again, are
    the answer; no piece is empty, none is longer than 1900 characters,
    every piece but the last has exactly 1900, and there are as many
    pieces as 1900 goes into the length, rounded up. *)
Theorem split_response_partition {A : Type} (response : list A) :
  concat (split_response response) = response
  /\ length (split_response response) = ((length response + 1899) / 1900)%nat
  /\ forall i c,
       split_response response !! i = Some c ->
       (1 <= length c <= 1900)%nat
       /\ ((S i < length (split_response response))%nat ->
           length c = 1900%nat).
Proof using Type. drop_unused. exact (split_response_spec response). Qed.

(** X26: when the model gives an answer that is not empty to a question
    that is accepted, the command sends all of it: in one embed when it
    has at most 2000 characters, and otherwise in two or more pieces of at
    most 1900 characters that make up the answer. *)
Theorem ask_ai_sends_whole_answer {A : Type} (now_join author : Z)
    (prompt response : list A) (b : Bot) :
  validate_user_input prompt default_max_length = true ->
  response <> [] ->
  match snd (ask_ai now_join author prompt (AiContent response) b) with
  | AiEmbed shown => shown = response /\ (length response <= 2000)%nat
  | AiChunks chunks =>
      (2000 < length response)%nat
      /\ concat chunks = response
      /\ (2 <= length chunks)%nat
      /\ Forall (fun c => (1 <= length c <= 1900)%nat) chunks
  | _ => False
  end.
Proof using Type.
  drop_unused.
  intros Hvalid Hne. unfold ask_ai. rewrite Hvalid. cbn [negb].
  destruct (ensure_user_data _ _ _) as [ud u]. cbn [snd ai_reply].
  destruct response as [|a rest]; [congruence|].
  destruct (Nat.ltb_spec 2000 (length (a :: rest))) as [Hlong|Hshort].
  - destruct (split_response_spec (a :: rest)) as (Hcat & Hlen & Hall).
    split; [exact Hlong|]. split; [exact Hcat|]. split.
    + rewrite Hlen.
      apply (Nat.div_le_lower_bound _ 1900 2); lia.
    + apply Forall_lookup. intros i c Hc. apply (Hall i c Hc).
  - split; [reflexivity|exact Hshort].
Qed.

(** *** The bot over its events *)

Lemma ud_modify_lookup (now_join : Z) (uid k : string) (g : User -> User)
    (ud : Store) :
  ud_lookup k (ud_modify now_join uid g ud)
  = if String.eqb k uid
    then Some (g (snd (ensure_user_data now_join uid ud)))
    else ud_lookup k ud.
Proof using Type.
  drop_unused.
  unfold ud_modify.
  pose proof (ensure_user_data_other now_join uid k ud) as Hother.
  destruct (ensure_user_data now_join uid ud) as [ud1 u] eqn:Hens.
  cbn [fst snd] in *.
  destruct (String.eqb_spec k uid) as [->|Hne].
  - eapply ud_lookup_store_eq, ensure_user_data_lookup, Hens.
  - rewrite ud_lookup_store_ne by exact Hne. apply Hother, Hne.
Qed.

Lemma ud_modify_same (now_join : Z) (uid : string) (ud : Store) :
  ud_modify now_join uid (fun u => u) ud = fst (ensure_user_data now_join uid ud).
Proof using Type.
  drop_unused.
  unfold ud_modify.
  destruct (ensure_user_data now_join uid ud) as [ud1 u] eqn:Hens.
  apply ud_store_same. eapply ensure_user_data_lookup, Hens.
Qed.

Lemma ud_modify_keys (now_join : Z) (uid : string) (g : User -> User)
    (ud : Store) :
  map fst (ud_modify now_join uid g ud)
  = map fst (fst (ensure_user_data now_join uid ud)).
Proof using Type.
  drop_unused.
  unfold ud_modify. destruct (ensure_user_data now_join uid ud) as [ud1 u].
  apply ud_store_keys.
Qed.

Lemma ud_store_Forall (P : string * User -> Prop) (uid : string) (u : User)
    (ud : Store) :
  Forall P ud -> (forall k, P (k, u)) -> Forall P (ud_store uid u ud).
Proof using Type.
  drop_unused.
  intros Hall Hu. induction Hall as [|[k v] rest Hkv Hrest IH]; [constructor|].
  cbn [ud_store]. destruct (String.eqb k uid); constructor; auto.
Qed.

Lemma ud_lookup_Forall (P : string * User -> Prop) (uid : string) (u : User)
    (ud : Store) :
  Forall P ud -> ud_lookup uid ud = Some u -> P (uid, u).
Proof using Type.
  drop_unused.
  induction 1 as [|[k v] rest Hkv _ IH]; cbn [ud_lookup]; [discriminate|].
  destruct (String.eqb_spec k uid) as [->|]; [|exact IH].
  intros [= <-]. exact Hkv.
Qed.

(** The handlers make the change [effect] describes. *)
Lemma presence_effect (now_join now : Z) (before after : Status)
    (member_id : Z) (b : Bot) :
  user_data (on_presence_update now_join now before after member_id b)
  = ud_modify now_join (str member_id) (presence_record now before after)
              (user_data b).
Proof using Type.
  drop_unused.
  unfold on_presence_update, presence_body, ud_modify, presence_record.
  rewrite presence_body_ensures. cbn [user_data with_user_data].
  destruct (ensure_user_data now_join (str member_id) (user_data b))
    as [ud u] eqn:Hens.
  pose proof (ensure_user_data_lookup _ _ _ _ _ Hens) as Hl.
  cbn [fst]. rewrite Hl.
  destruct (negb (status_eqb before online) && status_eqb after online);
    [reflexivity|].
  destruct (status_eqb before online && negb (status_eqb after online));
    [|cbn [fst]; symmetry; apply ud_store_same, Hl].
  destruct (truthy (last_online u));
    [|cbn [fst]; symmetry; apply ud_store_same, Hl].
  destruct (since fromisoformat now _) as [td|[]]; cbn [fst];
    try reflexivity; symmetry; apply ud_store_same, Hl.
Qed.

Lemma handle_effect (ev : Event) (b : Bot) :
  user_data (handle ev b)
  = match effect ev b with
    | None => user_data b
    | Some (now_join, uid, g) => ud_modify now_join uid g (user_data b)
    end.
Proof using Type.
  drop_unused.
  destruct ev; cbn [handle effect].
  - unfold setup_profile. destruct (is_rate_limited _ _ _ _). reflexivity.
  - unfold item_select_callback, ud_modify.
    destruct (ensure_user_data _ _ _). reflexivity.
  - unfold check_profile, ud_modify.
    destruct (is_rate_limited _ _ _ _) as [[] ulc]; cbn [fst];
      [reflexivity|]. cbn [user_data with_last_command].
    destruct (ensure_user_data _ _ _) as [ud u].
    destruct (profile_read now_dt u). reflexivity.
  - unfold daily_reward, ud_modify, daily_record.
    destruct (ensure_user_data _ _ _) as [ud u] eqn:Hens.
    pose proof (ensure_user_data_lookup _ _ _ _ _ Hens) as Hl.
    destruct (daily_gate now_check now_msg u) as [[reply|]|e];
      cbn [fst user_data with_user_data];
      try (symmetry; apply ud_store_same, Hl).
    destruct (daily_claim now_store u). reflexivity.
  - unfold gacha, ud_modify.
    destruct (is_rate_limited _ _ _ _) as [[] ulc]; cbn [fst];
      [reflexivity|]. cbn [user_data with_last_command].
    destruct (ensure_user_data _ _ _) as [ud u].
    destruct (gacha_draw r bonus u). reflexivity.
  - unfold leaderboard.
    destruct (is_rate_limited _ _ _ _) as [[] ulc]; reflexivity.
  - unfold ask_ai, ud_modify.
    destruct (validate_user_input prompt default_max_length); cbn [negb fst];
      [|reflexivity].
    destruct (ensure_user_data _ _ _). reflexivity.
  - apply presence_effect.
Qed.

(** What each handler assigns, field by field. *)
Lemma profile_read_record (now : Z) (u : User) :
  fst (profile_read now u) = set_command_usage (command_usage u + 1) u.
Proof using Type.
  drop_unused.
  unfold profile_read. destruct (profile_seconds now _); reflexivity.
Qed.

Lemma daily_record_fields (now_check now_msg now_store : Z) (u : User) :
  let u' := daily_record now_check now_msg now_store u in
  inventory u' = inventory u /\ item u' = item u
  /\ total_online u' = total_online u /\ last_online u' = last_online u
  /\ join_date u' = join_date u
  /\ level u <= level u' /\ command_usage u <= command_usage u'
  /\ (user_ok u -> user_ok u').
Proof using Type.
  drop_unused.
  unfold daily_record.
  destruct (daily_gate now_check now_msg u) as [[reply|]|e]; cbv zeta;
    [repeat split; first [reflexivity|lia|unfold user_ok in *; lia]| |
     repeat split; first [reflexivity|lia|unfold user_ok in *; lia]].
  pose proof (daily_claim_fields now_store u) as F. cbv zeta in F.
  set (u' := fst (daily_claim now_store u)) in *.
  destruct F as (_ & Hcu & Hinv & Hit & Hto & Hlo & Hjd & Hstay & Hup).
  assert (Hcase :
    (level u' = level u /\ exp u' = exp u + 25
     /\ money u' = money u + (100 + level u * 10)
     /\ exp u + 25 < level u * 100)
    \/ (level u' = level u + 1 /\ exp u' = 0
        /\ money u' = money u + (100 + level u * 10) + (level u + 1) * 50)).
  { destruct (Z.lt_ge_cases (exp u + 25) (level u * 100)) as [H|H].
    - left. destruct (Hstay H) as (? & ? & ?). auto.
    - right. apply Hup, H. }
  split; [exact Hinv|]. split; [exact Hit|]. split; [exact Hto|].
  split; [exact Hlo|]. split; [exact Hjd|].
  split; [destruct Hcase as [(E & _)|(E & _)]; rewrite E; lia|].
  split; [lia|].
  unfold user_ok. intros (Hm & Hl & He & Hc).
  destruct Hcase as [(E1 & E2 & E3 & Hlt)|(E1 & E2 & E3)];
    rewrite E1, E2, E3, Hcu; lia.
Qed.

Lemma gacha_draw_fields (r bonus : Z) (u : User) :
  let u' := fst (gacha_draw r bonus u) in
  level u' = level u /\ exp u' = exp u /\ last_daily u' = last_daily u
  /\ item u' = item u /\ total_online u' = total_online u
  /\ last_online u' = last_online u /\ join_date u' = join_date u
  /\ command_usage u <= command_usage u'
  /\ (exists more, inventory u' = inventory u ++ more)
  /\ (0 <= bonus -> 0 <= money u -> 0 <= money u').
Proof using Type.
  drop_unused.
  unfold gacha_draw, gacha_cost.
  destruct (Z.ltb_spec (money u) 50) as [Hpoor|Hrich]; cbn [fst].
  - repeat split; try reflexivity; try lia. exists []. symmetry.
    apply app_nil_r.
  - destruct (select_item gacha_items r 0) as [it|]; cbn [fst].
    + destruct (str_contains _ it); user_simpl;
        repeat split; try reflexivity; try lia; eauto.
    + user_simpl. repeat split; try reflexivity; try lia. exists [].
      symmetry. apply app_nil_r.
Qed.

Lemma presence_record_fields (now : Z) (before after : Status) (u : User) :
  let u' := presence_record now before after u in
  money u' = money u /\ level u' = level u /\ exp u' = exp u
  /\ inventory u' = inventory u /\ last_daily u' = last_daily u
  /\ item u' = item u /\ command_usage u' = command_usage u
  /\ join_date u' = join_date u.
Proof using Type.
  drop_unused.
  unfold presence_record.
  destruct (negb (status_eqb before online) && status_eqb after online);
    [repeat split|].
  destruct (status_eqb before online && negb (status_eqb after online));
    [|repeat split].
  destruct (truthy (last_online u)); [|repeat split].
  destruct (since fromisoformat now _); repeat split.
Qed.

Lemma grown_refl (u : User) : grown u u.
Proof using Type.
  drop_unused.
  unfold grown. repeat split; try lia. exists []. symmetry. apply app_nil_r.
Qed.

Lemma grown_trans (u1 u2 u3 : User) : grown u1 u2 -> grown u2 u3 -> grown u1 u3.
Proof using Type.
  drop_unused.
  intros (Hl1 & Hc1 & Hj1 & m1 & Hi1) (Hl2 & Hc2 & Hj2 & m2 & Hi2).
  unfold grown. repeat split; try lia; try congruence.
  exists (m1 ++ m2). rewrite Hi2, Hi1, app_assoc. reflexivity.
Qed.

Lemma effect_grown (ev : Event) (b : Bot) (now_join : Z) (uid : string)
    (g : User -> User) :
  effect ev b = Some (now_join, uid, g) -> forall u, grown u (g u).
Proof using Type.
  drop_unused.
  destruct ev; cbn [effect]; try discriminate.
  - intros [= _ _ <-] u. unfold grown. user_simpl. cbn [set_item join_date
      level inventory command_usage]. repeat split; try lia.
    exists []. symmetry. apply app_nil_r.
  - destruct (fst (is_rate_limited _ _ _ _)); [discriminate|].
    intros [= _ _ <-] u. rewrite profile_read_record. unfold grown.
    user_simpl. repeat split; try lia. exists []. symmetry. apply app_nil_r.
  - intros [= _ _ <-] u.
    pose proof (daily_record_fields now_check now_msg now_store u) as F.
    cbv zeta in F. destruct F as (Hinv & _ & _ & _ & Hjd & Hl & Hc & _).
    unfold grown. repeat split; try assumption. exists [].
    rewrite Hinv. symmetry. apply app_nil_r.
  - destruct (fst (is_rate_limited _ _ _ _)); [discriminate|].
    intros [= _ _ <-] u.
    pose proof (gacha_draw_fields r bonus u) as F. cbv zeta in F.
    destruct F as (Hl & _ & _ & _ & _ & _ & Hjd & Hc & Hinv & _).
    unfold grown. repeat split; try assumption. lia.
  - destruct (validate_user_input _ _); [|discriminate].
    intros [= _ _ <-] u. unfold grown. user_simpl. repeat split; try lia.
    exists []. symmetry. apply app_nil_r.
  - intros [= _ _ <-] u.
    pose proof (presence_record_fields now before after u) as F.
    cbv zeta in F. destruct F as (_ & Hl & _ & Hinv & _ & _ & Hc & Hjd).
    unfold grown. repeat split; try lia; try assumption. exists [].
    rewrite Hinv. symmetry. apply app_nil_r.
Qed.

Lemma effect_ok (ev : Event) (b : Bot) (now_join : Z) (uid : string)
    (g : User -> User) :
  draws_ok ev ->
  effect ev b = Some (now_join, uid, g) ->
  forall u, user_ok u -> user_ok (g u).
Proof using Type.
  drop_unused.
  destruct ev; cbn [effect draws_ok]; try discriminate.
  - intros _ [= _ _ <-] u (Hm & Hl & He & Hc). unfold user_ok. user_simpl.
    cbn [set_item money level exp command_usage]. lia.
  - intros _. destruct (fst (is_rate_limited _ _ _ _)); [discriminate|].
    intros [= _ _ <-] u (Hm & Hl & He & Hc). rewrite profile_read_record.
    unfold user_ok. user_simpl. lia.
  - intros _ [= _ _ <-] u Hu.
    pose proof (daily_record_fields now_check now_msg now_store u) as F.
    cbv zeta in F. apply F, Hu.
  - intros [_ Hb]. destruct (fst (is_rate_limited _ _ _ _)); [discriminate|].
    intros [= _ _ <-] u (Hm & Hl & He & Hc).
    pose proof (gacha_draw_fields r bonus u) as F. cbv zeta in F.
    destruct F as (El & Ee & _ & _ & _ & _ & _ & Hcu & _ & Hmoney).
    unfold user_ok. rewrite El, Ee. lia.
  - intros _. destruct (validate_user_input _ _); [|discriminate].
    intros [= _ _ <-] u (Hm & Hl & He & Hc). unfold user_ok. user_simpl. lia.
  - intros _ [= _ _ <-] u (Hm & Hl & He & Hc).
    pose proof (presence_record_fields now before after u) as F.
    cbv zeta in F. destruct F as (E1 & E2 & E3 & _ & _ & _ & E4 & _).
    unfold user_ok. rewrite E1, E2, E3, E4. lia.
Qed.

Lemma effect_user (ev : Event) (b : Bot) (now_join : Z) (uid : string)
    (g : User -> User) :
  effect ev b = Some (now_join, uid, g) -> event_user ev = Some uid.
Proof using Type.
  drop_unused.
  destruct ev; cbn [effect event_user]; try discriminate;
    try (destruct (fst (is_rate_limited _ _ _ _)); [discriminate|]);
    try (destruct (validate_user_input _ _); [|discriminate]);
    intros [= _ <- _]; reflexivity.
Qed.

Lemma ensure_user_data_keys (now : Z) (uid : string) (ud : Store) :
  map fst (fst (ensure_user_data now uid ud))
  = match ud_lookup uid ud with
    | Some _ => map fst ud
    | None => map fst ud ++ [uid]
    end.
Proof using Type.
  drop_unused.
  unfold ensure_user_data. destruct (ud_lookup uid ud); cbn [fst];
    [reflexivity|]. rewrite map_app. reflexivity.
Qed.

Lemma new_user_ok (now : Z) : user_ok (new_user now).
Proof using Type. drop_unused. unfold user_ok, new_user. cbn. lia. Qed.

Lemma ud_modify_store_ok (now_join : Z) (uid : string) (g : User -> User)
    (ud : Store) :
  (forall u, user_ok u -> user_ok (g u)) ->
  store_ok ud -> store_ok (ud_modify now_join uid g ud).
Proof using Type.
  drop_unused.
  intros Hg [Hnd Hall]. split.
  - rewrite ud_modify_keys, ensure_user_data_keys.
    destruct (ud_lookup uid ud) eqn:E; [exact Hnd|].
    apply ud_lookup_None in E. apply NoDup_app. split; [exact Hnd|].
    split; [|apply NoDup_singleton].
    intros x Hx Hx'. apply list_elem_of_In in Hx.
    apply list_elem_of_singleton in Hx'. subst x. contradiction.
  - unfold ud_modify.
    destruct (ensure_user_data now_join uid ud) as [ud1 u] eqn:Hens.
    assert (Hall1 : Forall (fun e => user_ok (snd e)) ud1).
    { revert Hens. unfold ensure_user_data.
      destruct (ud_lookup uid ud); intros [= <- <-]; [exact Hall|].
      apply Forall_app. split; [exact Hall|].
      constructor; [apply new_user_ok|constructor]. }
    apply ud_store_Forall; [exact Hall1|]. intros k. cbn [snd]. apply Hg.
    apply (ud_lookup_Forall (fun e => user_ok (snd e)) uid u ud1 Hall1).
    eapply ensure_user_data_lookup, Hens.
Qed.

Lemma handle_store_ok (ev : Event) (b : Bot) :
  draws_ok ev -> store_ok (user_data b) -> store_ok (user_data (handle ev b)).
Proof using Type.
  drop_unused.
  intros Hd Hok. rewrite handle_effect.
  destruct (effect ev b) as [[[now_join uid] g]|] eqn:E; [|exact Hok].
  apply ud_modify_store_ok; [|exact Hok].
  apply (effect_ok ev b now_join uid g Hd E).
Qed.

(** X27: whatever events come, with gacha draws in the ranges they are
    drawn from, a store that has one record per identifier, each with
    money and command count not negative, level at least 1 and exp from 0
    to under 100 times the level, stays such a store. *)
Theorem run_keeps_store_ok (evs : list Event) (b : Bot) :
  Forall draws_ok evs ->
  store_ok (user_data b) ->
  store_ok (user_data (run evs b)).
Proof using Type.
  drop_unused.
  intros Hd. revert b. induction Hd as [|ev evs Hev _ IH]; intros b Hok;
    [exact Hok|].
  cbn [run fold_left]. apply IH, handle_store_ok; assumption.
Qed.

Lemma handle_grows (ev : Event) (b : Bot) (k : string) (u : User) :
  ud_lookup k (user_data b) = Some u ->
  exists u', ud_lookup k (user_data (handle ev b)) = Some u' /\ grown u u'.
Proof using Type.
  drop_unused.
  intros Hl. rewrite handle_effect.
  destruct (effect ev b) as [[[now_join uid] g]|] eqn:E;
    [|exists u; split; [exact Hl|apply grown_refl]].
  rewrite ud_modify_lookup.
  destruct (String.eqb_spec k uid) as [->|Hne];
    [|exists u; split; [exact Hl|apply grown_refl]].
  rewrite (ensure_user_data_present now_join uid _ u Hl). cbn [snd].
  eexists. split; [reflexivity|]. apply (effect_grown ev b now_join uid g E).
Qed.

Lemma handle_keys (ev : Event) (b : Bot) :
  exists more,
    map fst (user_data (handle ev b)) = map fst (user_data b) ++ more.
Proof using Type.
  drop_unused.
  rewrite handle_effect.
  destruct (effect ev b) as [[[now_join uid] g]|];
    [|exists []; symmetry; apply app_nil_r].
  rewrite ud_modify_keys, ensure_user_data_keys.
  destruct (ud_lookup uid (user_data b)); [|eauto].
  exists []. symmetry. apply app_nil_r.
Qed.

(** X28: no sequence of events deletes a record or moves it: the
    identifiers of the store stay, in their order, at the head of the
    list; and a record never goes back: its level and its command count
    do not go down, its join date stays, and items are only added to the
    end of its inventory. *)
Theorem run_grows_records (evs : list Event) (b : Bot) :
  (exists more,
     map fst (user_data (run evs b)) = map fst (user_data b) ++ more)
  /\ forall k u,
       ud_lookup k (user_data b) = Some u ->
       exists u', ud_lookup k (user_data (run evs b)) = Some u' /\ grown u u'.
Proof using Type.
  drop_unused.
  revert b. induction evs as [|ev evs IH]; intros b.
  - split; [exists []; symmetry; apply app_nil_r|].
    intros k u Hl. exists u. split; [exact Hl|apply grown_refl].
  - cbn [run fold_left]. destruct (IH (handle ev b)) as [[m2 Hk2] Hg2].
    split.
    + destruct (handle_keys ev b) as [m1 Hk1].
      exists (m1 ++ m2). unfold run in Hk2. rewrite Hk2, Hk1, app_assoc.
      reflexivity.
    + intros k u Hl. destruct (handle_grows ev b k u Hl) as (u1 & Hl1 & Hg1).
      destruct (Hg2 k u1 Hl1) as (u2 & Hl2 & Hg2').
      exists u2. split; [exact Hl2|]. exact (grown_trans u u1 u2 Hg1 Hg2').
Qed.

(** X29: an event assigns to the record of one identifier at most, the
    one it is about; the setup command and the leaderboard assign to
    none. *)
Theorem handle_one_record (ev : Event) (b : Bot) (k : string) :
  event_user ev <> Some k ->
  ud_lookup k (user_data (handle ev b)) = ud_lookup k (user_data b).
Proof using Type.
  drop_unused.
  intros Hk. rewrite handle_effect.
  destruct (effect ev b) as [[[now_join uid] g]|] eqn:E; [|reflexivity].
  rewrite ud_modify_lookup.
  destruct (String.eqb_spec k uid) as [->|Hne]; [|reflexivity].
  destruct Hk. apply (effect_user ev b now_join uid g E).
Qed.

(** X30: what each kind of event can change in a record that exists: the
    setup command and the leaderboard nothing; the profile command and
    the AI command the command count only; the status menu the status and
    the command count; a presence event [last_online] and [total_online]
    only; the daily reward neither inventory, status nor the online
    times; the gacha neither level, exp, [last_daily], status nor the
    online times. The join date is never changed. *)
Theorem handle_changes_by_kind (ev : Event) (b : Bot) (k : string)
    (u : User) :
  ud_lookup k (user_data b) = Some u ->
  exists u',
    ud_lookup k (user_data (handle ev b)) = Some u'
    /\ join_date u' = join_date u
    /\ match ev with
       | SetupProfile _ _ | Leaderboard _ _ _ _ _ => u' = u
       | CheckProfile _ _ _ _ _ | AskAi _ _ _ _ =>
           u' = u \/ u' = set_command_usage (command_usage u + 1) u
       | SelectStatus _ _ value =>
           u' = u
           \/ u' = set_command_usage (command_usage u + 1) (set_item value u)
       | PresenceUpdate _ _ _ _ _ =>
           money u' = money u /\ level u' = level u /\ exp u' = exp u
           /\ inventory u' = inventory u /\ last_daily u' = last_daily u
           /\ item u' = item u /\ command_usage u' = command_usage u
       | DailyReward _ _ _ _ _ =>
           inventory u' = inventory u /\ item u' = item u
           /\ total_online u' = total_online u
           /\ last_online u' = last_online u
       | Gacha _ _ _ _ _ =>
           level u' = level u /\ exp u' = exp u
           /\ last_daily u' = last_daily u /\ item u' = item u
           /\ total_online u' = total_online u
           /\ last_online u' = last_online u
       end.
Proof using Type.
  drop_unused.
  intros Hl.
  assert (Hsame : forall ev0 : Event,
            join_date u = join_date u
            /\ match ev0 with
               | SetupProfile _ _ | Leaderboard _ _ _ _ _ => u = u
               | CheckProfile _ _ _ _ _ | AskAi _ _ _ _ =>
                   u = u \/ u = set_command_usage (command_usage u + 1) u
               | SelectStatus _ _ value =>
                   u = u
                   \/ u = set_command_usage (command_usage u + 1)
                            (set_item value u)
               | PresenceUpdate _ _ _ _ _ =>
                   money u = money u /\ level u = level u /\ exp u = exp u
                   /\ inventory u = inventory u
                   /\ last_daily u = last_daily u
                   /\ item u = item u /\ command_usage u = command_usage u
               | DailyReward _ _ _ _ _ =>
                   inventory u = inventory u /\ item u = item u
                   /\ total_online u = total_online u
                   /\ last_online u = last_online u
               | Gacha _ _ _ _ _ =>
                   level u = level u /\ exp u = exp u
                   /\ last_daily u = last_daily u /\ item u = item u
                   /\ total_online u = total_online u
                   /\ last_online u = last_online u
               end).
  { intros ev0. split; [reflexivity|]. destruct ev0; auto 10. }
  rewrite handle_effect.
  destruct (effect ev b) as [[[now_join uid] g]|] eqn:E;
    [|exists u; split; [exact Hl|apply Hsame]].
  rewrite ud_modify_lookup.
  destruct (String.eqb_spec k uid) as [->|Hne];
    [|exists u; split; [exact Hl|apply Hsame]].
  rewrite (ensure_user_data_present now_join uid _ u Hl). cbn [snd].
  eexists. split; [reflexivity|].
  destruct ev; cbn [effect] in E; try discriminate.
  - injection E as _ _ <-. split; [reflexivity|right; reflexivity].
  - destruct (fst (is_rate_limited _ _ _ _)); [discriminate|].
    injection E as _ _ <-. rewrite profile_read_record.
    split; [reflexivity|right; reflexivity].
  - injection E as _ _ <-.
    pose proof (daily_record_fields now_check now_msg now_store u) as F.
    cbv zeta in F. tauto.
  - destruct (fst (is_rate_limited _ _ _ _)); [discriminate|].
    injection E as _ _ <-.
    pose proof (gacha_draw_fields r bonus u) as F. cbv zeta in F. tauto.
  - destruct (validate_user_input _ _); [|discriminate].
    injection E as _ _ <-. split; [reflexivity|right; reflexivity].
  - injection E as _ _ <-.
    pose proof (presence_record_fields now before after u) as F.
    cbv zeta in F. tauto.
Qed.
End Engine.

(** ** The engine on the sample data, with the reference codec *)

(** C1, counterexample: from level 1 and 90 exp the claim gives level 2 and
    210 coins, but 0 exp, not the 15 left after crossing the threshold. *)
Lemma daily_reward_exp_not_carried :
  exists b' reply u',
    daily_reward IsoRef.isoformat IsoRef.fromisoformat
      new_year new_year new_year new_year 42 bot_level_up = (b', Returned reply)
    /\ ud_lookup "42" (user_data b') = Some u'
    /\ level u' = 2 /\ money u' = 210
    /\ exp u' = 0 /\ exp u' <> 90 + 25 - 1 * 100.
Proof.
  do 3 eexists. split; [vm_compute; reflexivity|].
  split; [vm_compute; reflexivity|].
  vm_compute. repeat split; discriminate.
Qed.

Lemma daily_reward_award_witness :
  exists b' reply u',
    daily_reward IsoRef.isoformat IsoRef.fromisoformat
      new_year new_year new_year new_year 42 bot_level_up = (b', Returned reply)
    /\ ud_lookup "42" (user_data b') = Some u'
    /\ level u' = 2 /\ exp u' = 0 /\ money u' = 210.
Proof.
  destruct (daily_reward_award IsoRef.isoformat IsoRef.fromisoformat
              new_year new_year new_year new_year 42 bot_level_up
              (user_data bot_level_up) (sample_user 0 1 90))
    as (b' & reply & u' & Hrun & Hlook & _ & Hup);
    [vm_compute; reflexivity..|].
  exists b', reply, u'. split; [exact Hrun|]. split; [exact Hlook|].
  apply Hup. vm_compute. discriminate.
Defined.

(** The Online event at 2024-01-01T00:00:10+00:00 starts the session of
    user 7. *)
Lemma presence_online_starts_session :
  on_presence_update IsoRef.isoformat IsoRef.fromisoformat
    new_year (new_year + seconds 10) offline online 7 bot_offline
  = bot_in_session.
Proof. vm_compute. reflexivity. Qed.

(** C2, counterexample: an Offline event stamped 10 seconds before the
    start of the session takes 10 seconds off the total. *)
Lemma presence_clock_skew_decrements :
  exists u',
    ud_lookup "7"
      (user_data (on_presence_update IsoRef.isoformat IsoRef.fromisoformat
                    new_year new_year online offline 7 bot_in_session))
      = Some u'
    /\ IsoRef.fromisoformat "2024-01-01T00:00:10+00:00"
       = IsoAware (new_year + seconds 10)
    /\ total_online u' = 90
    /\ total_online u' < 100.
Proof.
  eexists. split; [vm_compute; reflexivity|].
  split; [vm_compute; reflexivity|].
  split; vm_compute; reflexivity.
Qed.

Lemma presence_offline_accrues_witness :
  let b' := on_presence_update IsoRef.isoformat IsoRef.fromisoformat
              new_year (new_year + seconds 135) online offline 7
              bot_in_session in
  exists u',
    ud_lookup "7" (user_data b') = Some u'
    /\ total_online u' = 225
    /\ last_online u' = None
    /\ on_presence_update IsoRef.isoformat IsoRef.fromisoformat
         new_year (new_year + seconds 200) online idle 7 b' = b'.
Proof.
  intros b'.
  destruct (presence_offline_accrues IsoRef.isoformat IsoRef.fromisoformat
              new_year (new_year + seconds 135) offline 7 bot_in_session
              (set_last_online (Some "2024-01-01T00:00:10+00:00")
                 (set_total_online 100 (sample_user 0 1 0)))
              (new_year + seconds 10))
    as (_ & Hlook & _ & Hclear & Hnoop).
  - vm_compute; reflexivity.
  - split; [discriminate|vm_compute; reflexivity].
  - vm_compute; discriminate.
  - discriminate.
  - eexists. split; [exact Hlook|]. split; [vm_compute; reflexivity|].
    split; [exact Hclear|]. apply Hnoop. discriminate.
Defined.

(** C3, counterexample: reading a profile changes the record, whose
    [command_usage] goes from 0 to 1. *)
Lemma check_profile_counts_usage :
  exists b' reply u',
    check_profile IsoRef.isoformat IsoRef.fromisoformat
      1704067200%Q new_year new_year 42 None bot_sixty = (b', reply)
    /\ ud_lookup "42" (user_data bot_sixty) = Some (sample_user 60 1 0)
    /\ ud_lookup "42" (user_data b') = Some u'
    /\ command_usage u' = 1
    /\ u' <> sample_user 60 1 0.
Proof.
  do 3 eexists. split; [vm_compute; reflexivity|].
  split; [vm_compute; reflexivity|].
  split; [vm_compute; reflexivity|].
  split; [reflexivity|]. vm_compute. discriminate.
Qed.

Lemma check_profile_reads_witness :
  exists b' status money_shown level_shown usage items more,
    check_profile IsoRef.isoformat IsoRef.fromisoformat
      1704067335%Q new_year (new_year + seconds 135) 7 None bot_in_session
      = (b', Returned (ProfileEmbed status money_shown level_shown
                         0 3 usage items more))
    /\ ud_lookup "7" (user_data b')
       = Some (set_command_usage 1
                 (set_last_online (Some "2024-01-01T00:00:10+00:00")
                    (set_total_online 100 (sample_user 0 1 0)))).
Proof.
  destruct (check_profile_reads IsoRef.isoformat IsoRef.fromisoformat
              1704067335%Q new_year (new_year + seconds 135) 7 None
              bot_in_session {[ 7 := 1704067335%Q ]}
              (user_data bot_in_session)
              (set_last_online (Some "2024-01-01T00:00:10+00:00")
                 (set_total_online 100 (sample_user 0 1 0)))
              (Some (new_year + seconds 10)))
    as (b' & st & ms & ls & us & its & mo & Hrun & Hlook & _).
  - vm_compute; reflexivity.
  - vm_compute; reflexivity.
  - split; [discriminate|vm_compute; reflexivity].
  - exists b', st, ms, ls, us, its, mo. split; [exact Hrun|exact Hlook].
Defined.

Lemma gacha_balance_witness :
  exists it u' reply,
    gacha IsoRef.isoformat 1704067200%Q new_year 99 250 42 bot_sixty
      = (mkBot {[ 42 := 1704067200%Q ]}
               (ud_store "42" u' (user_data bot_sixty)), Returned reply)
    /\ it = jackpot_item
    /\ inventory u' = [it]
    /\ money u' = 260.
Proof.
  destruct (gacha_balance IsoRef.isoformat 1704067200%Q new_year 99 250 42
              bot_sixty {[ 42 := 1704067200%Q ]} (user_data bot_sixty)
              (sample_user 60 1 0))
    as (_ & Hrich); [lia|lia|vm_compute; reflexivity..|].
  destruct Hrich as (it & u' & reply & Hrun & _ & _ & Hinv & _ & Hjack);
    [vm_compute; discriminate|].
  destruct Hjack as (Hit & Hmoney & _); [lia|].
  exists it, u', reply. split; [exact Hrun|]. split; [exact Hit|].
  split; [exact Hinv|exact Hmoney].
Defined.

(** C5, counterexample: the record of user 42 holds a [last_daily] that
    is not [None] and from which no time can be read, so that no 24 hours
    have elapsed since it; the claim is granted all the same and the
    balance goes from 0 to 110. *)
Lemma daily_reward_granted_without_time :
  exists b1 u1 total_reward bonus money_now level_now,
    ud_lookup "42" (user_data bot_bad_daily)
      = Some (set_last_daily (Some "yesterday") (sample_user 0 1 0))
    /\ IsoRef.fromisoformat "yesterday" = IsoValueError
    /\ daily_reward IsoRef.isoformat IsoRef.fromisoformat
         new_year new_year new_year new_year 42 bot_bad_daily
       = (b1, Returned (DailyEmbed total_reward bonus money_now level_now))
    /\ ud_lookup "42" (user_data b1) = Some u1
    /\ money u1 = 110.
Proof.
  do 6 eexists. split; [vm_compute; reflexivity|].
  split; [vm_compute; reflexivity|].
  split; [vm_compute; reflexivity|].
  split; [vm_compute; reflexivity|reflexivity].
Qed.

Lemma daily_reward_once_per_day_witness :
  exists b1 total_reward bonus money_now level_now,
    daily_reward IsoRef.isoformat IsoRef.fromisoformat
      new_year new_year new_year new_year 42 bot_level_up
      = (b1, Returned (DailyEmbed total_reward bonus money_now level_now))
    /\ exists h m,
         daily_reward IsoRef.isoformat IsoRef.fromisoformat
           (new_year + seconds 3600) (new_year + seconds 3600)
           (new_year + seconds 3600) (new_year + seconds 3600) 42 b1
           = (b1, Returned (AlreadyClaimed h m)).
Proof.
  destruct (daily_reward_once_per_day IsoRef.isoformat IsoRef.fromisoformat
              new_year new_year new_year new_year 42 bot_level_up
              (user_data bot_level_up) (sample_user 0 1 90))
    as ([_ Hgrant] & Hagain & _).
  - vm_compute; reflexivity.
  - split; [vm_compute; discriminate|vm_compute; reflexivity].
  - destruct Hgrant as (b1 & tr & bo & mn & lv & Hrun);
      [left; reflexivity|].
    exists b1, tr, bo, mn, lv. split; [exact Hrun|].
    apply (Hagain b1 tr bo mn lv Hrun). vm_compute. reflexivity.
Defined.

Lemma daily_reward_unparseable_last_daily_witness :
  exists b' u' total_reward bonus money_now level_now,
    daily_reward IsoRef.isoformat IsoRef.fromisoformat
      new_year new_year new_year new_year 42 bot_bad_daily
      = (b', Returned (DailyEmbed total_reward bonus money_now level_now))
    /\ ud_lookup "42" (user_data b') = Some u'
    /\ last_daily u' = Some "2024-01-01T00:00:00+00:00"
    /\ money u' = 110.
Proof.
  destruct (daily_reward_unparseable_last_daily
              IsoRef.isoformat IsoRef.fromisoformat
              new_year new_year new_year new_year 42 bot_bad_daily
              (user_data bot_bad_daily)
              (set_last_daily (Some "yesterday") (sample_user 0 1 0))
              "yesterday")
    as (b' & u' & tr & bo & mn & lv & Hrun & Hlook & Hlast & Htr & Hmoney & _);
    [vm_compute; reflexivity..|].
  exists b', u', tr, bo, mn, lv. split; [exact Hrun|]. split; [exact Hlook|].
  split; [exact Hlast|]. rewrite Hmoney, Htr. vm_compute. reflexivity.
Defined.

Lemma select_item_defined_witness :
  exists it, select_item gacha_items 100 0 = Some it
             /\ In it (map fst gacha_items).
Proof.
  destruct (select_item_defined 100) as (_ & it & Hsel & Hin & _);
    [vm_compute; split; discriminate|].
  exists it. split; [exact Hsel|exact Hin].
Defined.

(** C6, counterexample: an identifier that was never admitted is turned
    away when the cooldown is longer than the time since the epoch. *)
Lemma is_rate_limited_rejects_first_call :
  (∅ : gmap Z Q) !! 1 = None
  /\ fst (is_rate_limited 1762188645%Q 1 2000000000%Q ∅) = true.
Proof. split; vm_compute; reflexivity. Qed.

Lemma is_rate_limited_admits_witness :
  fst (is_rate_limited 1762188645%Q 1 default_cooldown ∅) = false
  /\ snd (is_rate_limited 1762188645%Q 1 default_cooldown ∅) !! 1
     = Some 1762188645%Q.
Proof.
  destruct (is_rate_limited_admits 1762188645%Q 1 default_cooldown ∅)
    as (_ & Hrec & _ & _ & Hfirst).
  assert (Hadm : fst (is_rate_limited 1762188645%Q 1 default_cooldown ∅) = false).
  { apply Hfirst; [reflexivity|]. unfold Qle. simpl. lia. }
  split; [exact Hadm|exact (Hrec Hadm)].
Defined.

(** C7, counterexample: when the rename is refused, the snapshot that
    cannot be decoded stays where it is and no quarantine file exists. *)
Lemma load_data_rename_refused :
  JsonRef.json_load [Byte.x6e; Byte.x6f] = JsonError
  /\ load_data JsonRef.json_load 1704067200%Q (disk_bad true)
     = (disk_bad true, Returned (LoadedDict []))
  /\ files (disk_bad true) !! quarantine_file 1704067200%Q = None
  /\ files (disk_bad true) !! DATA_FILE = Some [Byte.x6e; Byte.x6f].
Proof. repeat split; vm_compute; reflexivity. Qed.

Lemma load_data_quarantine_witness :
  let after := load_data JsonRef.json_load 1704067200%Q (disk_bad false) in
  snd after = Returned (LoadedDict [])
  /\ quarantine_file 1704067200%Q = "data/user_data_backup_1704067200.json"
  /\ files (fst after) !! quarantine_file 1704067200%Q
     = Some [Byte.x6e; Byte.x6f]
  /\ files (fst after) !! DATA_FILE = None.
Proof.
  intros after.
  destruct (load_data_quarantine JsonRef.json_load 1704067200%Q
              (disk_bad false) eq_refl)
    as (_ & _ & Hbad & _).
  destruct (Hbad [Byte.x6e; Byte.x6f]) as (Hempty & Hmoved & _).
  - vm_compute; reflexivity.
  - right. reflexivity.
  - destruct (Hmoved eq_refl) as [Hq Hgone].
    split; [exact Hempty|]. split; [vm_compute; reflexivity|].
    split; [exact Hq|exact Hgone].
Defined.

(** In a directory that may not be searched the loader raises: the
    lookup in the handler fails like the one before it. *)
Lemma load_data_locked :
  load_data JsonRef.json_load 1704067200%Q disk_locked
  = (disk_locked, Raised PermissionError).
Proof. vm_compute. reflexivity. Qed.

Lemma leaderboard_ranking_witness :
  let name := fun uid : string => Some ("user " +:+ uid) in
  let ud := user_data bot_mixed in
  map fst (top_users "money" ud) = ["2"; "3"; "1"]
  /\ map fst (top_users "level" ud) = ["1"; "2"; "3"]
  /\ map fst (top_users "online" ud) = ["1"; "3"; "2"]
  /\ top_users "rich" ud = top_users "money" ud
  /\ exists fields,
       snd (leaderboard 1704067200%Q name undisturbed 9 "online" bot_mixed)
         = Returned (LeaderboardEmbed fields)
       /\ map (fun f => fst (fst f)) fields = [1; 2; 3]%nat
       /\ map snd fields = [2; 1; 0]
       /\ user_data
            (fst (leaderboard 1704067200%Q name undisturbed 9 "online"
                    bot_mixed))
          = ud.
Proof.
  intros name ud.
  destruct (leaderboard_ranking 1704067200%Q name undisturbed 9 "online"
              bot_mixed)
    as (_ & _ & _ & _ & _ & _ & Hframe & Hshown).
  destruct Hshown as (fields & Hrun & _ & Hfields);
    [vm_compute; reflexivity|].
  destruct Hfields as (Hranks & _ & Hvalues);
    [repeat constructor; eexists; reflexivity|].
  do 4 (split; [vm_compute; reflexivity|]).
  exists fields. split; [exact Hrun|].
  split; [rewrite Hranks; vm_compute; reflexivity|].
  split; [rewrite Hvalues; vm_compute; reflexivity|exact Hframe].
Defined.

(** ** More of the engine on the sample data *)

(** A second load in the same second moves its snapshot over the file
    that the first one left in quarantine. *)
Lemma load_data_same_second :
  let d' := fst (load_data JsonRef.json_load 1704067200%Q disk_twice) in
  files disk_twice !! quarantine_file 1704067200%Q
    = Some [Byte.x6f; Byte.x6c; Byte.x64]
  /\ map_to_list (files d')
     = [(quarantine_file 1704067200%Q, [Byte.x6e; Byte.x6f])].
Proof. split; vm_compute; reflexivity. Qed.

(** The board reads the records after each fetch: user 1 is ranked last
    with 50 coins, wins 500 in a gacha that is handled while its name is
    fetched, and is shown with 500 under two users with 200. *)
Lemma leaderboard_shows_later_values :
  let name := fun uid : string => Some ("user " +:+ uid) in
  let b := fst (leaderboard 1704067200%Q name undisturbed 9 "money"
                  bot_three) in
  let during := fun j : nat =>
    if (j =? 2)%nat then [Gacha 1704067201%Q new_year 99 500 1] else [] in
  snd (leaderboard 1704067200%Q name
         (live_after IsoRef.isoformat IsoRef.fromisoformat during b)
         9 "money" bot_three)
  = Returned (LeaderboardEmbed
                [(1%nat, "user 2", 200); (2%nat, "user 3", 200);
                 (3%nat, "user 1", 500)]).
Proof. vm_compute. reflexivity. Qed.


Lemma ensure_user_data_appends_witness :
  let ud1 :=
    fst (ensure_user_data IsoRef.isoformat new_year "9" (user_data bot_three))
  in
  NoDup (map fst ud1) /\ map fst ud1 = ["1"; "2"; "3"; "9"].
Proof.
  intros ud1.
  destruct (ensure_user_data_appends IsoRef.isoformat new_year "9"
              (user_data bot_three)) as (Hnd & _ & _).
  - apply (bool_decide_unpack _). vm_compute. exact I.
  - split; [exact Hnd|]. vm_compute. reflexivity.
Defined.

Lemma is_rate_limited_window_witness :
  let m1 := snd (is_rate_limited 1762188645%Q 1 3%Q ∅) in
  fst (is_rate_limited 1762188646%Q 1 3%Q m1) = true
  /\ fst (is_rate_limited 1762188648%Q 1 3%Q
            (snd (is_rate_limited 1762188646%Q 1 3%Q m1))) = false.
Proof.
  intros m1.
  destruct (is_rate_limited_window 1762188645%Q 1762188646%Q 1 3%Q 3%Q ∅)
    as [Hiff Hkeep]; [vm_compute; reflexivity|].
  assert (Hrej : fst (is_rate_limited 1762188646%Q 1 3%Q m1) = true).
  { apply Hiff. vm_compute. reflexivity. }
  split; [exact Hrej|]. rewrite (Hkeep Hrej). vm_compute. reflexivity.
Defined.

Lemma is_rate_limited_per_identifier_witness :
  fst (is_rate_limited 1762188646%Q 2 3%Q
         (snd (is_rate_limited 1762188645%Q 1 3%Q ∅)))
  = fst (is_rate_limited 1762188646%Q 2 3%Q ∅).
Proof.
  apply (is_rate_limited_per_identifier 1762188645%Q 1762188646%Q 1 2).
  discriminate.
Defined.

Lemma daily_claim_single_check_witness :
  let u' := fst (daily_claim IsoRef.isoformat new_year (sample_user 0 1 90)) in
  0 <= exp u' < level u' * 100
  /\ level (sample_user 0 1 90) <= level u' <= level (sample_user 0 1 90) + 1
  /\ (level u' = level (sample_user 0 1 90) + 1
      <-> level (sample_user 0 1 90) * 100 <= exp (sample_user 0 1 90) + 25).
Proof.
  apply (daily_claim_single_check IsoRef.isoformat new_year
           (sample_user 0 1 90)); cbn; lia.
Defined.

Lemma daily_gate_time_left_witness :
  exists hours minutes,
    daily_gate IsoRef.fromisoformat (new_year + seconds 3600)
      (new_year + seconds 3660)
      (set_last_daily (Some "2024-01-01T00:00:00+00:00")
         (sample_user 110 1 25))
    = Returned (Some (AlreadyClaimed hours minutes))
    /\ 0 <= hours < 24 /\ 0 <= minutes < 60
    /\ hours * 3600 + minutes * 60 <= 82740
       < hours * 3600 + minutes * 60 + 60.
Proof.
  destruct (daily_gate_time_left IsoRef.fromisoformat
              (new_year + seconds 3600) (new_year + seconds 3660)
              (set_last_daily (Some "2024-01-01T00:00:00+00:00")
                 (sample_user 110 1 25)) new_year)
    as (h & m & Hg & Hh & Hm & Hleft).
  - split; [discriminate|vm_compute; reflexivity].
  - vm_compute. reflexivity.
  - exists h, m. split; [exact Hg|]. split; [exact Hh|]. split; [exact Hm|].
    apply Hleft. vm_compute. split; [reflexivity|discriminate].
Defined.

Lemma daily_reward_naive_last_daily_witness :
  daily_reward IsoRef.isoformat IsoRef.fromisoformat
    new_year new_year new_year new_year 42 bot_naive_daily
  = (bot_naive_daily, Raised TypeError).
Proof.
  apply (daily_reward_naive_last_daily IsoRef.isoformat IsoRef.fromisoformat
           new_year new_year new_year new_year 42 bot_naive_daily
           (user_data bot_naive_daily)
           (set_last_daily (Some "2024-01-01T00:00:00")
              (sample_user 110 1 25))
           "2024-01-01T00:00:00");
    [vm_compute; reflexivity|reflexivity|discriminate|vm_compute; reflexivity].
Defined.

Lemma gacha_items_weights : Forall (fun e => 0 <= snd e) gacha_items.
Proof. repeat constructor; discriminate. Qed.

Lemma select_item_first_match_witness :
  select_item gacha_items 31 0 = Some "🧪 พลังฟื้นฟู"
  <-> exists pre w post,
        gacha_items = pre ++ ("🧪 พลังฟื้นฟู", w) :: post
        /\ total_weight pre < 31 <= total_weight pre + w.
Proof.
  apply (select_item_first_match gacha_items 31 "🧪 พลังฟื้นฟู");
    [exact gacha_items_weights|discriminate].
Defined.

Lemma select_item_counts_witness :
  Z.of_nat (length (draws_giving jackpot_item gacha_items)) = 2.
Proof.
  exact (select_item_counts jackpot_item gacha_items gacha_items_weights).
Defined.

Lemma check_profile_unparseable_session_witness :
  exists b' status money_shown level_shown usage items more,
    check_profile IsoRef.isoformat IsoRef.fromisoformat
      1704067335%Q new_year (new_year + seconds 135) 7 None bot_bad_session
    = (b', Returned (ProfileEmbed status money_shown level_shown
                       2 1 usage items more)).
Proof.
  exact (check_profile_unparseable_session IsoRef.isoformat
           IsoRef.fromisoformat 1704067335%Q new_year
           (new_year + seconds 135) 7 None bot_bad_session
           {[ 7 := 1704067335%Q ]} (user_data bot_bad_session)
           (set_last_online (Some "soon")
              (set_total_online 7300 (sample_user 0 1 0)))
           "soon" eq_refl eq_refl eq_refl eq_refl).
Defined.

Lemma check_profile_naive_session_witness :
  exists b',
    check_profile IsoRef.isoformat IsoRef.fromisoformat
      1704067335%Q new_year (new_year + seconds 135) 7 None bot_naive_session
    = (b', Raised TypeError)
    /\ ud_lookup "7" (user_data b')
       = Some (set_command_usage 1
                 (set_last_online (Some "2024-01-01T00:00:10")
                    (set_total_online 7300 (sample_user 0 1 0)))).
Proof.
  apply (check_profile_naive_session IsoRef.isoformat IsoRef.fromisoformat
           1704067335%Q new_year (new_year + seconds 135) 7 None
           bot_naive_session {[ 7 := 1704067335%Q ]}
           (user_data bot_naive_session)
           (set_last_online (Some "2024-01-01T00:00:10")
              (set_total_online 7300 (sample_user 0 1 0)))
           "2024-01-01T00:00:10");
    [vm_compute; reflexivity|vm_compute; reflexivity|reflexivity
    |discriminate|vm_compute; reflexivity].
Defined.

Lemma presence_unreadable_session_kept_witness :
  on_presence_update IsoRef.isoformat IsoRef.fromisoformat
    new_year (new_year + seconds 135) online offline 7 bot_bad_session
  = bot_bad_session.
Proof.
  apply (presence_unreadable_session_kept IsoRef.isoformat
           IsoRef.fromisoformat new_year (new_year + seconds 135)
           online offline 7 bot_bad_session
           (set_last_online (Some "soon")
              (set_total_online 7300 (sample_user 0 1 0)))
           "soon");
    [vm_compute; reflexivity|reflexivity
    |intros t; vm_compute; discriminate|discriminate].
Defined.

Lemma presence_online_stamps_witness :
  let b' := on_presence_update IsoRef.isoformat IsoRef.fromisoformat
              new_year (new_year + seconds 10) offline online 7
              bot_offline in
  ud_lookup "7" (user_data b')
  = Some (set_last_online (Some "2024-01-01T00:00:10+00:00")
            (set_total_online 100 (sample_user 0 1 0)))
  /\ user_last_command b' = user_last_command bot_offline.
Proof.
  apply (presence_online_stamps IsoRef.isoformat IsoRef.fromisoformat
           new_year (new_year + seconds 10) offline 7 bot_offline
           (user_data bot_offline)
           (set_total_online 100 (sample_user 0 1 0)));
    [vm_compute; reflexivity|discriminate].
Defined.

Lemma presence_session_accrual_witness :
  let b1 := on_presence_update IsoRef.isoformat IsoRef.fromisoformat
              new_year (new_year + seconds 10) offline online 7
              bot_offline in
  let b2 := on_presence_update IsoRef.isoformat IsoRef.fromisoformat
              new_year (new_year + seconds 135) online idle 7 b1 in
  ud_lookup "7" (user_data b2)
  = Some (set_last_online None
            (set_total_online 225 (set_total_online 100
                                     (sample_user 0 1 0)))).
Proof.
  intros b1 b2.
  destruct (presence_session_accrual IsoRef.isoformat IsoRef.fromisoformat
              new_year new_year (new_year + seconds 10)
              (new_year + seconds 135) offline idle 7 bot_offline
              (user_data bot_offline)
              (set_total_online 100 (sample_user 0 1 0)))
    as [Hlook _].
  - vm_compute; reflexivity.
  - discriminate.
  - discriminate.
  - split; [discriminate|vm_compute; reflexivity].
  - exact Hlook.
Defined.

Lemma profile_agrees_with_fold_witness :
  exists u',
    ud_lookup "7"
      (user_data
         (on_presence_update IsoRef.isoformat IsoRef.fromisoformat
            new_year (new_year + seconds 135) online offline 7
            bot_in_session)) = Some u'
    /\ profile_seconds IsoRef.fromisoformat (new_year + seconds 135)
         (set_last_online (Some "2024-01-01T00:00:10+00:00")
            (set_total_online 100 (sample_user 0 1 0)))
       = Returned (total_online u').
Proof.
  apply (profile_agrees_with_fold IsoRef.isoformat IsoRef.fromisoformat
           new_year (new_year + seconds 135) offline 7 bot_in_session
           (set_last_online (Some "2024-01-01T00:00:10+00:00")
              (set_total_online 100 (sample_user 0 1 0)))
           (new_year + seconds 10));
    [vm_compute; reflexivity
    |split; [discriminate|vm_compute; reflexivity]|discriminate].
Defined.

Lemma leaderboard_cut_keeps_best_witness :
  sort_key (effective_category "money") ("1", sample_user 10 1 0)
  <= sort_key (effective_category "money") ("11", sample_user 110 1 0).
Proof.
  apply (leaderboard_cut_keeps_best "money" (user_data bot_eleven)
           ("11", sample_user 110 1 0) ("1", sample_user 10 1 0)).
  - vm_compute. left. reflexivity.
  - vm_compute. left. reflexivity.
Defined.

Lemma load_data_by_value_witness :
  load_data JsonRef.json_load 1704067200%Q disk_good
  = (disk_good, Returned (LoadedDict [])).
Proof.
  exact (load_data_by_value JsonRef.json_load 1704067200%Q disk_good
           [Byte.x7b; Byte.x7d] eq_refl eq_refl).
Defined.

Lemma load_data_after_quarantine_witness :
  let d1 := fst (load_data JsonRef.json_load 1704067200%Q (disk_bad false)) in
  load_data JsonRef.json_load 1704067200%Q d1
  = (d1, Returned (LoadedDict []))
  /\ files d1 !! quarantine_file 1704067200%Q = Some [Byte.x6e; Byte.x6f].
Proof.
  apply (load_data_after_quarantine JsonRef.json_load 1704067200%Q
           1704067200%Q (disk_bad false) [Byte.x6e; Byte.x6f]);
    [vm_compute; reflexivity|right; reflexivity|reflexivity].
Defined.

Lemma save_data_keeps_previous_witness :
  let d' := save_data JsonOut.json_dump TextRef.recode io_cut
              (user_data bot_three) disk_good in
  files d' !! DATA_FILE = Some [Byte.x7b; Byte.x7d]
  \/ exists text,
       TextRef.recode [Byte.x7b; Byte.x7d] = Some text
       /\ files d' !! BACKUP_FILE = Some text.
Proof.
  apply (save_data_keeps_previous JsonOut.json_dump TextRef.recode io_cut
           (user_data bot_three) disk_good [Byte.x7b; Byte.x7d]).
  vm_compute; reflexivity.
Defined.

Lemma save_data_gives_up_witness :
  save_data JsonOut.json_dump TextRef.recode io_refused
    (user_data bot_three) disk_good
  = disk_good.
Proof.
  apply (save_data_gives_up JsonOut.json_dump TextRef.recode io_refused
           (user_data bot_three) disk_good [Byte.x7b; Byte.x7d]);
    [vm_compute; reflexivity|right; reflexivity].
Defined.

Lemma save_then_load_witness :
  let d' := save_data JsonOut.json_dump TextRef.recode io_done
              (user_data bot_stocked) disk_good in
  load_data JsonRef.json_load 1704067200%Q d'
  = (d', Returned (LoadedDict (user_data bot_stocked)))
  /\ files d' !! DATA_FILE = Some (JsonOut.json_dump (user_data bot_stocked))
  /\ files disk_good !! DATA_FILE = Some [Byte.x7b; Byte.x7d]
  /\ JsonOut.json_dump (user_data bot_stocked) <> [Byte.x7b; Byte.x7d].
Proof.
  intros d'. split; [|split; [|split]].
  - apply (save_then_load JsonRef.json_load JsonOut.json_dump TextRef.recode
             io_done (user_data bot_stocked) disk_good 1704067200%Q);
      [reflexivity|reflexivity|reflexivity| |vm_compute; reflexivity].
    intros c Hc. vm_compute in Hc.
    injection Hc as <-. vm_compute. eexists. reflexivity.
  - vm_compute. reflexivity.
  - vm_compute. reflexivity.
  - vm_compute. discriminate.
Defined.

Lemma ask_ai_sends_whole_answer_witness :
  snd (ask_ai IsoRef.isoformat new_year 42 [104%N; 105%N]
         (AiContent [115%N; 119%N]) bot_empty)
  = AiEmbed [115%N; 119%N].
Proof.
  pose proof (ask_ai_sends_whole_answer IsoRef.isoformat new_year 42
                [104%N; 105%N] [115%N; 119%N] bot_empty eq_refl
                ltac:(discriminate)) as H.
  destruct (snd (ask_ai IsoRef.isoformat new_year 42 [104%N; 105%N]
                   (AiContent [115%N; 119%N]) bot_empty))
    as [|chunks|shown| | | |]; try contradiction.
  - destruct H as [Hlong _]. cbn in Hlong. lia.
  - destruct H as [-> _]. reflexivity.
Defined.

Lemma run_keeps_store_ok_witness :
  store_ok
    (user_data
       (run IsoRef.isoformat IsoRef.fromisoformat
          [PresenceUpdate new_year (new_year + seconds 10) offline online 7;
           DailyReward new_year new_year new_year new_year 7;
           Gacha 1704067200%Q new_year 99 250 7;
           PresenceUpdate new_year (new_year + seconds 135) online idle 7;
           SelectStatus new_year 8 "happy"]
          bot_empty)).
Proof.
  apply run_keeps_store_ok.
  - repeat constructor; lia.
  - split; constructor.
Defined.

Lemma handle_one_record_witness :
  ud_lookup "1"
    (user_data
       (handle IsoRef.isoformat IsoRef.fromisoformat
          (Gacha 1704067200%Q new_year 99 250 2) bot_three))
  = ud_lookup "1" (user_data bot_three).
Proof.
  apply (handle_one_record IsoRef.isoformat IsoRef.fromisoformat
           (Gacha 1704067200%Q new_year 99 250 2) bot_three "1").
  vm_compute. discriminate.
Defined.

Lemma handle_changes_by_kind_witness :
  exists u',
    ud_lookup "7"
      (user_data
         (handle IsoRef.isoformat IsoRef.fromisoformat
            (PresenceUpdate new_year (new_year + seconds 135) online offline 7)
            bot_in_session)) = Some u'
    /\ money u' = 0 /\ level u' = 1 /\ command_usage u' = 0.
Proof.
  destruct (handle_changes_by_kind IsoRef.isoformat IsoRef.fromisoformat
              (PresenceUpdate new_year (new_year + seconds 135) online
                 offline 7)
              bot_in_session "7"
              (set_last_online (Some "2024-01-01T00:00:10+00:00")
                 (set_total_online 100 (sample_user 0 1 0))))
    as (u' & Hlook & _ & Hm & Hl & _ & _ & _ & _ & Hc).
  - vm_compute; reflexivity.
  - exists u'. split; [exact Hlook|]. split; [exact Hm|].
    split; [exact Hl|exact Hc].
Defined.
